(** * NairobiFlow traffic management: a shallow embedding of the service,
      model and browser-side warning code, with the properties of its
      specification.

    JavaScript numbers are IEEE 754 binary64 values, so they are embedded as
    Rocq's primitive floats: [/], [<?] and [<=?] below are bit for bit the
    operations the engine runs.  Counts and clock readings (milliseconds
    since the epoch) are integers well inside the exactly representable
    range and are embedded as [nat] and [Z]. *)

From Stdlib Require Import ZArith Floats Lia Ascii String.
From stdpp Require Import base option list strings gmap sorting.

Set Warnings "-inexact-float".
Local Open Scope Z_scope.

(** ** JavaScript numbers *)
Module Js.

Abbreviation num := float.

(** [ToBoolean] on a number: [0], [-0] and [NaN] are falsy. *)
Definition truthy (x : num) : bool := negb (is_zero x || is_nan x).

(** [a || b] on numbers. *)
Definition or_else (a b : num) : num := if truthy a then a else b.

(** [x > y], [x < y] and [x >= y]: every comparison with [NaN] is false. *)
Definition gt (x y : num) : bool := (y <? x)%float.
Definition lt (x y : num) : bool := (x <? y)%float.
Definition ge (x y : num) : bool := (y <=? x)%float.
Definition le (x y : num) : bool := (x <=? y)%float.

(** A list length, and a difference of clock readings, as numbers. *)
Definition of_nat (n : nat) : num := of_uint63 (Uint63.of_Z (Z.of_nat n)).
Definition of_Z (z : Z) : num :=
  if (z <? 0)%Z then (- of_uint63 (Uint63.of_Z (- z)))%float
  else of_uint63 (Uint63.of_Z z).

(** The sum [xs.reduce((a, b) => a + b, 0)]. *)
Definition sum (xs : list num) : num := fold_left PrimFloat.add xs 0%float.

(** [Math.floor]: below [2^52] in magnitude, adding and removing [2^52]
    rounds to an integer, which is then corrected downwards; every larger
    number is an integer already, and [NaN] and the infinities are returned
    as they are. *)
Definition two52 : num := 4503599627370496.
Definition floor (x : num) : num :=
  if is_zero x then x
  else if (abs x <? two52)%float then
    let r := if (0 <=? x)%float then ((x + two52) - two52)%float
             else ((x - two52) + two52)%float in
    if (x <? r)%float then (r - 1)%float else r
  else x.

(** [Math.round]: the nearest integer, a tie going up. *)
Definition round (x : num) : num :=
  let f := floor x in
  let r := if (x - f <? 0.5)%float then f else (f + 1)%float in
  if is_zero r && (x <? 0)%float then neg_zero else r.

(** [Math.min] of two numbers. *)
Definition min (x y : num) : num :=
  if is_nan x || is_nan y then nan else if (y <? x)%float then y else x.

End Js.

(** ** Strings of the host language *)

(** [s.split(sep)] for a one-character separator: the pieces between the
    separators, of which there is always at least one. *)
Fixpoint split (sep : ascii) (s : string) : list string :=
  match s with
  | EmptyString => [EmptyString]
  | String c rest =>
      if Ascii.eqb c sep then EmptyString :: split sep rest
      else match split sep rest with
           | piece :: pieces => String c piece :: pieces
           | [] => [String c EmptyString]
           end
  end.

(** [ToBoolean] on an optional string: [undefined], [null] and [''] are falsy. *)
Definition present (s : option string) : bool :=
  match s with
  | Some (String _ _) => true
  | _ => false
  end.

(** [s || d] on an optional string. *)
Definition str_or (s : option string) (d : string) : string :=
  match s with
  | Some (String c r) => String c r
  | _ => d
  end.

(** ** The TrafficData model (config/models/trafficData.js) *)
Module TrafficDataModel.

(** The attributes of an instance that the hooks read and write; a missing
    attribute is [None]. *)
Record instance := {
  current_speed : option Js.num;
  free_flow_speed : option Js.num;
  congestion_level : option string
}.

Definition num_present (x : option Js.num) : bool :=
  match x with
  | Some v => Js.truthy v
  | None => false
  end.

(** In arithmetic [undefined] becomes [NaN]. *)
Definition to_number (x : option Js.num) : Js.num :=
  match x with
  | Some v => v
  | None => nan
  end.

Definition set_congestion_level (l : string) (t : instance) : instance :=
  {| current_speed := current_speed t;
     free_flow_speed := free_flow_speed t;
     congestion_level := Some l |}.

(** The [beforeCreate] hook. *)
Definition beforeCreate (trafficData : instance) : instance :=
  if negb (present (congestion_level trafficData))
     && num_present (current_speed trafficData)
     && num_present (free_flow_speed trafficData)
  then
    let ratio := (to_number (current_speed trafficData)
                  / to_number (free_flow_speed trafficData))%float in
    if Js.gt ratio 0.8 then set_congestion_level "low" trafficData
    else if Js.gt ratio 0.5 then set_congestion_level "medium" trafficData
    else if Js.gt ratio 0.3 then set_congestion_level "high" trafficData
    else set_congestion_level "severe" trafficData
  else trafficData.

End TrafficDataModel.

(** A row of [traffic_data], as [storeTrafficData] builds it. *)
Module TrafficRow.
Record t := {
  id : string;
  location : string;
  coordinates : Js.num * Js.num;
  vehicle_count : Js.num;
  current_speed : Js.num;
  free_flow_speed : Js.num;
  travel_time : Js.num;
  free_flow_travel_time : Js.num;
  congestion_level : string;
  weather_condition : string;
  road_type : string;
  confidence : Js.num;
  data_source : string;
  recorded_at : Z
}.
End TrafficRow.

(** ** Traffic segments, as the service builds them and the browser reads them *)

Record segment := {
  coordinates : list (Js.num * Js.num);
  currentSpeed : Js.num;
  freeFlowSpeed : Js.num;
  currentTravelTime : Js.num;
  freeFlowTravelTime : Js.num;
  confidence : Js.num;
  roadCategory : option string;
  trafficLevel : string;
  (* read by storeTrafficData, never set by processTomTomTrafficData *)
  location : option string;
  vehicleCount : option Js.num;
  weatherCondition : option string
}.

(** The value of the live-traffic endpoint: the empty array that
    [processTomTomTrafficData] returns for a response without
    [flowSegmentData], or an object with a [segments] array. *)
Inductive trafficData :=
| EmptyArray
| TrafficObject (timestamp : Z) (source : string) (message : option string)
                (segments : list segment).

(** [trafficData.segments], [undefined] on the empty array. *)
Definition segments_of (d : trafficData) : option (list segment) :=
  match d with
  | EmptyArray => None
  | TrafficObject _ _ _ segs => Some segs
  end.

Definition source_of (d : trafficData) : option string :=
  match d with
  | EmptyArray => None
  | TrafficObject _ src _ _ => Some src
  end.

(** [calculateTrafficLevel] of the traffic data service. *)
Definition calculateTrafficLevel (currentSpeed freeFlowSpeed : Js.num) : string :=
  let ratio := (currentSpeed / freeFlowSpeed)%float in
  if Js.gt ratio 0.8 then "low"
  else if Js.gt ratio 0.5 then "medium"
  else if Js.gt ratio 0.3 then "high"
  else "severe".

(** ** The TrafficIncident model (config/models/trafficIncident.js) *)
Module TrafficIncident.

(** A row of [traffic_incidents]. *)
Record row := {
  id : string;
  location : string;
  coordinates : Js.num * Js.num;
  type : string;
  severity : string;
  description : string;
  estimated_duration : Z;
  delay_seconds : Z;
  status : string;
  verified : bool;
  source : string;
  external_id : option string;
  started_at : Z
}.

(** What [toJSON] adds to the plain values: readable coordinates and the
    whole minutes elapsed since [started_at]. *)
Record json := {
  values : row;
  lat : Js.num;
  lng : Js.num;
  duration_minutes : Z
}.

Definition toJSON (now : Z) (i : row) : json :=
  {| values := i;
     lat := snd (coordinates i);
     lng := fst (coordinates i);
     duration_minutes := (now - started_at i) / (1000 * 60) |}.

(** *** The part of Sequelize's [findAll] the model relies on. *)

Inductive column := Severity | StartedAt | Status | Type_.
Inductive direction := ASC | DESC.

(** [where: { column: value, ... }], a conjunction of equalities between a
    text column and a label. *)
Definition where_clause := list (column * string).

Record options := {
  where_ : option where_clause;
  order : option (list (column * direction));
  limit : option nat
}.

(** The position of a label in its ENUM declaration, which is how the store
    orders the column. *)
Fixpoint enum_index (labels : list string) (l : string) : Z :=
  match labels with
  | [] => -1
  | x :: rest => if String.eqb x l then 0 else
                   let k := enum_index rest l in if k <? 0 then -1 else k + 1
  end.

Definition column_text (c : column) (i : row) : string :=
  match c with
  | Severity => severity i
  | Status => status i
  | Type_ => type i
  | StartedAt => EmptyString
  end.

Definition sort_key (c : column) (i : row) : Z :=
  match c with
  | Severity => enum_index ["low"; "medium"; "high"; "severe"] (severity i)
  | Status => enum_index ["active"; "resolved"; "monitoring"] (status i)
  | Type_ => enum_index ["accident"; "construction"; "weather"; "roadblock";
                         "breakdown"; "other"] (type i)
  | StartedAt => started_at i
  end.

Definition satisfies (w : where_clause) (i : row) : bool :=
  forallb (fun '(c, v) =>
             match c with
             | StartedAt => false
             | _ => String.eqb (column_text c i) v
             end) w.

(** [a] may come before [b] under [ORDER BY ord]. *)
Fixpoint precedes (ord : list (column * direction)) (a b : row) : bool :=
  match ord with
  | [] => true
  | (c, d) :: rest =>
      let ka := sort_key c a in
      let kb := sort_key c b in
      if ka =? kb then precedes rest a b
      else match d with
           | ASC => ka <? kb
           | DESC => kb <? ka
           end
  end.

Definition before (ord : list (column * direction)) : relation row :=
  fun a b => precedes ord a b = true.

#[global] Instance before_dec ord : RelDecision (before ord).
Proof. intros a b. unfold before. apply _. Defined.

Definition take_limit {A} (l : option nat) (rows : list A) : list A :=
  match l with
  | Some n => take n rows
  | None => rows
  end.

Definition findAll (table : list row) (o : options) : list row :=
  let matching := match where_ o with
                  | Some w => filter (fun i => satisfies w i = true) table
                  | None => table
                  end in
  let ordered := match order o with
                 | Some ord => merge_sort (before ord) matching
                 | None => matching
                 end in
  take_limit (limit o) ordered.

(** [{ ...defaultOptions, ...options }]: a key of [options] replaces the
    default under the same key. *)
Definition spread (defaults o : options) : options :=
  {| where_ := match where_ o with Some w => Some w | None => where_ defaults end;
     order := match order o with Some r => Some r | None => order defaults end;
     limit := match limit o with Some n => Some n | None => limit defaults end |}.

Definition no_options : options :=
  {| where_ := None; order := None; limit := None |}.

(** [TrafficIncident.findActive]. *)
Definition findActive (table : list row) (o : options) : list row :=
  let defaultOptions :=
    {| where_ := Some [(Status, "active")];
       order := Some [(Severity, DESC); (StartedAt, DESC)];
       limit := None |} in
  findAll table (spread defaultOptions o).

End TrafficIncident.

(** ** The traffic data service (services/trafficDataService.js) *)
Module TrafficDataService.

(** A flow segment of a TomTom response. *)
Record flowSegment := {
  fs_coordinates : list (Js.num * Js.num);
  fs_currentSpeed : Js.num;
  fs_freeFlowSpeed : Js.num;
  fs_currentTravelTime : Js.num;
  fs_freeFlowTravelTime : Js.num;
  fs_confidence : Js.num;
  fs_roadCategory : option string
}.

(** [response.data.flowSegmentData]: missing, an array of segments, or
    some other value, on which [.map] is not a function. *)
Inductive flowSegmentData :=
| FlowMissing
| FlowSegments (l : list flowSegment)
| FlowNotArray.

(** An incident of a TomTom response. *)
Record apiIncident := {
  ai_id : option string;
  ai_description : option string;
  ai_geometry : option (Js.num * Js.num);
  ai_type : string;
  ai_severity : string;
  ai_estimatedDuration : Z;
  ai_delayInSeconds : Z;
  ai_startTime : option Z
}.

(** The data of a routing response, [response.data]: an object or an array,
    kept as its text, or one of the other values a body can be read as. *)
Inductive routeData :=
| RouteObject (body : string)
| RouteText (s : string)
| RouteNumber (x : Js.num)
| RouteBoolean (b : bool)
| RouteNull.

(** What the cache holds and the endpoints return.  The traffic and the
    incidents are objects and arrays; routes are cached by [getRouteInfo] as
    TomTom sent them. *)
Inductive value :=
| VTraffic (d : trafficData)
| VIncidents (l : list TrafficIncident.json)
| VApiIncidents (l : list apiIncident)
| VRoute (data : routeData).

(** [ToBoolean] of a value: an object or an array is truthy, also when it is
    empty; the empty string, [0], [NaN], [false] and [null] are falsy. *)
Definition truthy (v : value) : bool :=
  match v with
  | VRoute (RouteText s) => present (Some s)
  | VRoute (RouteNumber x) => Js.truthy x
  | VRoute (RouteBoolean b) => b
  | VRoute RouteNull => false
  | _ => true
  end.

(** [if (cached)]: an entry is a hit when it is there and truthy. *)
Definition hit (cached : option value) : option value :=
  match cached with
  | Some v => if truthy v then Some v else None
  | None => None
  end.

Inductive logEntry :=
| CacheOperation (op key : string) (hit : bool)
| ExternalApiCall (service endpoint : string) (success : bool)
| LogError (message detail : string)
| LogDebug (message : string) (recordCount : nat).

(** The state the service acts on.  [requests] lists the URLs asked of
    TomTom; [db_ops] counts the database operations issued and [draws] the
    values taken from the random sources. *)
Record world := {
  cache : gmap string value;
  traffic_data : list TrafficRow.t;
  traffic_incidents : list TrafficIncident.row;
  requests : list string;
  journal : list logEntry;
  db_ops : nat;
  draws : nat
}.

(** *** Computations that read and write the world and may throw *)

Inductive outcome (A : Type) :=
| Return (a : A)
| Throw (message : string).
Arguments Return {A} a.
Arguments Throw {A} message.

Definition M (A : Type) : Type := world -> outcome A * world.

Definition ret {A} (a : A) : M A := fun w => (Return a, w).
Definition throw {A} (message : string) : M A := fun w => (Throw message, w).
Definition bind {A B} (m : M A) (k : A -> M B) : M B :=
  fun w => match m w with
           | (Return a, w') => k a w'
           | (Throw e, w') => (Throw e, w')
           end.
Definition try_catch {A} (body : M A) (handler : string -> M A) : M A :=
  fun w => match body w with
           | (Return a, w') => (Return a, w')
           | (Throw e, w') => handler e w'
           end.
Definition get : M world := fun w => (Return w, w).
Definition put (w : world) : M unit := fun _ => (Return tt, w).

Notation "x <~ m ;; k" := (bind m (fun x => k))
  (at level 100, m at level 99, k at level 200, right associativity).
Notation "m ;;; k" := (bind m (fun _ => k))
  (at level 100, k at level 200, right associativity).

Definition log (e : logEntry) : M unit :=
  w <~ get ;;
  put {| cache := cache w; traffic_data := traffic_data w;
         traffic_incidents := traffic_incidents w; requests := requests w;
         journal := journal w ++ [e]; db_ops := db_ops w; draws := draws w |}.

Definition cache_get (key : string) : M (option value) :=
  w <~ get ;; ret (cache w !! key).

Definition cache_set (key : string) (v : value) : M unit :=
  w <~ get ;;
  put {| cache := <[key := v]> (cache w); traffic_data := traffic_data w;
         traffic_incidents := traffic_incidents w; requests := requests w;
         journal := journal w; db_ops := db_ops w; draws := draws w |}.

(** Takes [n] draws and returns the index of the first. *)
Definition draw (n : nat) : M nat :=
  w <~ get ;;
  put {| cache := cache w; traffic_data := traffic_data w;
         traffic_incidents := traffic_incidents w; requests := requests w;
         journal := journal w; db_ops := db_ops w; draws := draws w + n |} ;;;
  ret (draws w).

Section Service.

(** The surroundings of the service: the configured TomTom key, the answer
    of TomTom to a request ([None] when the request fails), whether the
    n-th database operation succeeds, the clock, and the random sources.
    A call runs to its end without another call in between, and reads the
    clock as [now] throughout. *)
Variable tomtom_key : option string.
Variable tomtom_flow : string -> option flowSegmentData.
Variable tomtom_incidents : string -> option (option (list apiIncident)).
Variable db_ok : nat -> bool.
Variable now : Z.
Variable uuidv4 : nat -> string.
Variable random : nat -> Js.num.

(** A database operation: it is counted, and throws when the store refuses
    it. *)
Definition db_operation {A} (run : world -> A * world) : M A :=
  fun w =>
    let w1 := {| cache := cache w; traffic_data := traffic_data w;
                 traffic_incidents := traffic_incidents w;
                 requests := requests w; journal := journal w;
                 db_ops := S (db_ops w); draws := draws w |} in
    if db_ok (db_ops w)
    then let '(a, w2) := run w1 in (Return a, w2)
    else (Throw "database error", w1).

(** [axios.get]: the request is recorded, then answered or rejected. *)
Definition axios_get {A} (answer : string -> option A) (url : string) : M A :=
  w <~ get ;;
  put {| cache := cache w; traffic_data := traffic_data w;
         traffic_incidents := traffic_incidents w;
         requests := requests w ++ [url];
         journal := journal w; db_ops := db_ops w; draws := draws w |} ;;;
  match answer url with
  | Some data => ret data
  | None => throw "request failed"
  end.

Definition getNairobiBounds : string := "-1.4449,36.6786,-1.1629,37.0990".

Definition getFallbackTrafficData : trafficData :=
  TrafficObject now "fallback"
    (Some "Live traffic data unavailable. Using cached data.") [].

(** A template literal renders a missing piece as [undefined]. *)
Definition piece (parts : list string) (i : nat) : string :=
  nth i parts "undefined"%string.

Definition processTomTomTrafficData (data : flowSegmentData) : M trafficData :=
  match data with
  | FlowMissing => ret EmptyArray
  | FlowNotArray => throw "data.flowSegmentData.map is not a function"
  | FlowSegments l =>
      ret (TrafficObject now "tomtom" None
             (map (fun s =>
                     {| coordinates := fs_coordinates s;
                        currentSpeed := fs_currentSpeed s;
                        freeFlowSpeed := fs_freeFlowSpeed s;
                        currentTravelTime := fs_currentTravelTime s;
                        freeFlowTravelTime := fs_freeFlowTravelTime s;
                        confidence := fs_confidence s;
                        roadCategory := fs_roadCategory s;
                        trafficLevel :=
                          calculateTrafficLevel (fs_currentSpeed s) (fs_freeFlowSpeed s);
                        location := None;
                        vehicleCount := None;
                        weatherCondition := None |}) l))
  end.

Definition traffic_url (bounds : string) : string :=
  let parts := split "," bounds in
  ("https://api.tomtom.com/traffic/services/4/flowSegmentAbsolute/relative/json/10/"
   ++ piece parts 0 ++ "," ++ piece parts 1 ++ "/"
   ++ piece parts 2 ++ "," ++ piece parts 3)%string.

Definition fetchTomTomTraffic (bounds : string) : M trafficData :=
  if negb (present tomtom_key) then throw "TomTom API key not configured"
  else
    data <~ axios_get tomtom_flow (traffic_url bounds) ;;
    processTomTomTrafficData data.

Definition num_or (x : option Js.num) (d : Js.num) : Js.num :=
  match x with
  | Some v => Js.or_else v d
  | None => d
  end.

(** The record [storeTrafficData] builds for a segment; [k] is the index of
    the draws it takes. *)
Definition traffic_record (k : nat) (s : segment) : TrafficRow.t :=
  {| TrafficRow.id := uuidv4 k;
     TrafficRow.location := str_or (location s) "Unknown";
     TrafficRow.coordinates := match coordinates s with
                               | c :: _ => c
                               | [] => (36.8219, -1.2921)%float
                               end;
     TrafficRow.vehicle_count :=
       num_or (vehicleCount s) (Js.floor (random k * 100)%float);
     TrafficRow.current_speed := Js.or_else (currentSpeed s) 0;
     TrafficRow.free_flow_speed := Js.or_else (freeFlowSpeed s) 60;
     TrafficRow.travel_time := Js.or_else (currentTravelTime s) 0;
     TrafficRow.free_flow_travel_time := Js.or_else (freeFlowTravelTime s) 0;
     TrafficRow.congestion_level := str_or (Some (trafficLevel s)) "medium";
     TrafficRow.weather_condition := str_or (weatherCondition s) "clear";
     TrafficRow.road_type := str_or (roadCategory s) "local";
     TrafficRow.confidence := Js.or_else (confidence s) 0.8;
     TrafficRow.data_source := "tomtom";
     TrafficRow.recorded_at := now |}.

Definition traffic_records (k : nat) (segs : list segment) : list TrafficRow.t :=
  imap (fun i s => traffic_record (k + i) s) segs.

Definition bulkCreate_traffic (records : list TrafficRow.t) : M unit :=
  db_operation (fun w =>
    (tt, {| cache := cache w; traffic_data := traffic_data w ++ records;
            traffic_incidents := traffic_incidents w; requests := requests w;
            journal := journal w; db_ops := db_ops w; draws := draws w |})).

Definition storeTrafficData (d : trafficData) : M unit :=
  try_catch
    (match segments_of d with
     | None => ret tt
     | Some segs =>
         k <~ draw (length segs) ;;
         let records := traffic_records k segs in
         bulkCreate_traffic records ;;;
         log (LogDebug "Traffic data stored" (length records))
     end)
    (fun error => log (LogError "Error storing traffic data" error)).

Definition live_cache_key (bounds : option string) : string :=
  ("live-traffic-" ++ str_or bounds "nairobi")%string.

Definition getLiveTrafficData (bounds : option string) : M value :=
  let cacheKey := live_cache_key bounds in
  cached <~ cache_get cacheKey ;;
  match hit cached with
  | Some v =>
      log (CacheOperation "get" cacheKey true) ;;;
      ret v
  | None =>
      try_catch
        (let nairobiBounds := str_or bounds getNairobiBounds in
         d <~ fetchTomTomTraffic nairobiBounds ;;
         cache_set cacheKey (VTraffic d) ;;;
         log (ExternalApiCall "tomtom" "traffic" true) ;;;
         storeTrafficData d ;;;
         ret (VTraffic d))
        (fun error =>
           log (ExternalApiCall "tomtom" "traffic" false) ;;;
           log (LogError "Error fetching live traffic data" error) ;;;
           ret (VTraffic getFallbackTrafficData))
  end.

(** *** Incidents *)

Definition lookup_or (table : list (string * string)) (key d : string) : string :=
  match List.find (fun '(k, _) => String.eqb k key) table with
  | Some (_, v) => v
  | None => d
  end.

Definition mapIncidentType (type : string) : string :=
  lookup_or [("accident", "accident"); ("construction", "construction");
             ("weather", "weather"); ("roadblock", "roadblock");
             ("breakdown", "breakdown")]%string type "other".

Definition mapIncidentSeverity (severity : string) : string :=
  lookup_or [("minor", "low"); ("moderate", "medium"); ("major", "high");
             ("severe", "severe")]%string severity "medium".

Definition z_or (x d : Z) : Z := if x =? 0 then d else x.

Definition incident_record (k : nat) (incident : apiIncident) : TrafficIncident.row :=
  {| TrafficIncident.id := uuidv4 k;
     TrafficIncident.location := str_or (ai_description incident) "Unknown location";
     TrafficIncident.coordinates :=
       match ai_geometry incident with
       | Some c => c
       | None => (36.8219, -1.2921)%float
       end;
     TrafficIncident.type := mapIncidentType (ai_type incident);
     TrafficIncident.severity := mapIncidentSeverity (ai_severity incident);
     TrafficIncident.description := str_or (ai_description incident) "Traffic incident";
     TrafficIncident.estimated_duration := z_or (ai_estimatedDuration incident) 60;
     TrafficIncident.delay_seconds := z_or (ai_delayInSeconds incident) 0;
     TrafficIncident.status := "active";
     TrafficIncident.verified := false;
     TrafficIncident.source := "tomtom";
     TrafficIncident.external_id := ai_id incident;
     TrafficIncident.started_at :=
       match ai_startTime incident with
       | Some t => t
       | None => now
       end |}.

Definition bulkCreate_incidents (records : list TrafficIncident.row) : M unit :=
  db_operation (fun w =>
    (tt, {| cache := cache w; traffic_data := traffic_data w;
            traffic_incidents := traffic_incidents w ++ records;
            requests := requests w; journal := journal w;
            db_ops := db_ops w; draws := draws w |})).

Definition storeIncidentData (incidents : list apiIncident) : M unit :=
  try_catch
    (k <~ draw (length incidents) ;;
     let records := imap (fun i a => incident_record (k + i) a) incidents in
     bulkCreate_incidents records ;;;
     log (LogDebug "Incident data stored" (length records)))
    (fun error => log (LogError "Error storing incident data" error)).

Definition incidents_url : string :=
  "https://api.tomtom.com/traffic/services/5/incidentDetails/json".

Definition fetchTomTomIncidents : M (list apiIncident) :=
  if negb (present tomtom_key) then throw "TomTom API key not configured"
  else
    data <~ axios_get tomtom_incidents incidents_url ;;
    ret (match data with
         | Some incidents => incidents
         | None => []
         end).

(** The model's [findActive], as a database operation. *)
Definition findActive (o : TrafficIncident.options) : M (list TrafficIncident.row) :=
  db_operation (fun w => (TrafficIncident.findActive (traffic_incidents w) o, w)).

Definition getTrafficIncidents : M value :=
  let cacheKey := "traffic-incidents"%string in
  cached <~ cache_get cacheKey ;;
  match hit cached with
  | Some v =>
      log (CacheOperation "get" cacheKey true) ;;;
      ret v
  | None =>
      try_catch
        (dbIncidents <~ findActive
           {| TrafficIncident.where_ := None;
              TrafficIncident.order :=
                Some [(TrafficIncident.Severity, TrafficIncident.DESC);
                      (TrafficIncident.StartedAt, TrafficIncident.DESC)];
              TrafficIncident.limit := Some 50%nat |} ;;
         if (0 <? length dbIncidents)%nat then
           let incidents := map (TrafficIncident.toJSON now) dbIncidents in
           cache_set cacheKey (VIncidents incidents) ;;;
           ret (VIncidents incidents)
         else
           incidents <~ fetchTomTomIncidents ;;
           storeIncidentData incidents ;;;
           cache_set cacheKey (VApiIncidents incidents) ;;;
           log (ExternalApiCall "tomtom" "incidents" true) ;;;
           ret (VApiIncidents incidents))
        (fun error =>
           log (ExternalApiCall "tomtom" "incidents" false) ;;;
           log (LogError "Error fetching traffic incidents" error) ;;;
           try_catch
             (fallbackIncidents <~ findActive
                {| TrafficIncident.where_ := None;
                   TrafficIncident.order :=
                     Some [(TrafficIncident.StartedAt, TrafficIncident.DESC)];
                   TrafficIncident.limit := Some 20%nat |} ;;
              ret (VIncidents (map (TrafficIncident.toJSON now) fallbackIncidents)))
             (fun dbError =>
                log (LogError "Error fetching fallback incidents" dbError) ;;;
                ret (VIncidents [])))
  end.

End Service.
End TrafficDataService.

(** ** The warning system of the browser (class WarningSystem) *)
Module WarningSystem.

(** A template literal, kept as its pieces. *)
Inductive piece :=
| Lit (s : string)
| Num (x : Js.num)
| Fixed (digits : nat) (x : Js.num).

(** The keys of [alertLevels]: the levels a warning can carry. *)
Inductive alertLevel := CRITICAL | HIGH | MEDIUM | LOW | INFO.

Record warning := {
  level : alertLevel;
  title : string;
  message : list piece;
  location : string;
  timestamp : Z;
  type : string;
  severity : option Js.num;
  (* set on predictive warnings only *)
  predictionTime : option Z;
  factors : list string;
  confidence : option Js.num
}.

(** The alerts held by the system, and the warnings it has triggered (each
    one a notification, a sound and, when CRITICAL, an overlay). *)
Record t := {
  alerts : list warning;
  triggered : list warning
}.

Definition count_level (l : string) (congestionLevels : list string) : nat :=
  length (filter (fun level => level = l) congestionLevels).

(** [analyzeTrafficFlow], read at clock reading [now]. *)
Definition analyzeTrafficFlow (now : Z) (segments : list segment) : list warning :=
  let warnings := [] in
  let congestionLevels := map trafficLevel segments in
  let speeds := map currentSpeed segments in
  let severeCount := count_level "severe" congestionLevels in
  let highCount := count_level "high" congestionLevels in
  let avgSpeed := (Js.sum speeds / Js.of_nat (length speeds))%float in
  let warnings :=
    if (3 <? severeCount)%nat then
      warnings ++ [{| level := CRITICAL;
                      title := "Severe Traffic Congestion";
                      message := [Num (Js.of_nat severeCount);
                                  Lit " road segments experiencing severe congestion"];
                      location := "Multiple locations";
                      timestamp := now;
                      type := "congestion";
                      severity := Some (Js.of_nat severeCount);
                      predictionTime := None; factors := []; confidence := None |}]
    else warnings in
  let warnings :=
    if (5 <? highCount)%nat then
      warnings ++ [{| level := HIGH;
                      title := "High Traffic Volume";
                      message := [Num (Js.of_nat highCount);
                                  Lit " road segments with heavy traffic"];
                      location := "City-wide";
                      timestamp := now;
                      type := "congestion";
                      severity := Some (Js.of_nat highCount);
                      predictionTime := None; factors := []; confidence := None |}]
    else warnings in
  let warnings :=
    if Js.lt avgSpeed 15 then
      warnings ++ [{| level := HIGH;
                      title := "Very Low Average Speed";
                      message := [Lit "City-wide average speed: ";
                                  Fixed 1 avgSpeed; Lit " km/h"];
                      location := "Nairobi metropolitan";
                      timestamp := now;
                      type := "speed";
                      severity := Some avgSpeed;
                      predictionTime := None; factors := []; confidence := None |}]
    else warnings in
  let gridlockSegments :=
    length (filter (fun s => Js.lt (currentSpeed s) 5 = true) segments) in
  let warnings :=
    if (0 <? gridlockSegments)%nat then
      warnings ++ [{| level := CRITICAL;
                      title := "Gridlock Risk Detected";
                      message := [Num (Js.of_nat gridlockSegments);
                                  Lit " segments at near-standstill speeds"];
                      location := "Critical intersections";
                      timestamp := now;
                      type := "gridlock";
                      severity := Some (Js.of_nat gridlockSegments);
                      predictionTime := None; factors := []; confidence := None |}]
    else warnings in
  warnings.

(** [existing.title === warning.title && existing.location === warning.location] *)
Definition same_alert (existing w : warning) : bool :=
  String.eqb (title existing) (title w)
  && String.eqb (location existing) (location w).

Definition triggerWarning (w : warning) (ws : t) : t :=
  {| alerts := alerts ws; triggered := triggered ws ++ [w] |}.

(** An alert is kept while it is less than 30 minutes old. *)
Definition recent (now : Z) (alert : warning) : bool :=
  let alertTime := timestamp alert in
  let ageMinutes := (Js.of_Z (now - alertTime) / (1000 * 60))%float in
  Js.lt ageMinutes 30.

Definition cleanupOldWarnings (now : Z) (ws : t) : t :=
  {| alerts := filter (fun alert => recent now alert = true) (alerts ws);
     triggered := triggered ws |}.

(** [processWarnings], run at clock reading [now]. *)
Definition processWarnings (now : Z) (warnings : list warning) (ws : t) : t :=
  let newWarnings :=
    filter (fun w => existsb (fun existing => same_alert existing w) (alerts ws) = false)
           warnings in
  let ws := fold_left
              (fun ws w =>
                 triggerWarning w {| alerts := alerts ws ++ [w];
                                     triggered := triggered ws |})
              newWarnings ws in
  cleanupOldWarnings now ws.

End WarningSystem.

(** ** The predictive warning system of the browser
       (public/js/predictiveWarningSystem.js) *)
Module PredictiveWarningSystem.

(** An incident as the incidents endpoint serves it. *)
Record incident := {
  description : string;
  severity : string;
  delayInSeconds : Js.num
}.

Record dataPoint := {
  timestamp : Z;
  trafficSegments : list segment;
  incidentCount : nat;
  incidents : list incident;
  averageSpeed : Js.num;
  congestionLevel : string;
  hour : Z;
  dayOfWeek : Z;
  weather : string
}.

Record conditions := {
  c_timestamp : Z;
  c_averageSpeed : Js.num;
  c_congestionLevel : string;
  c_incidentCount : nat;
  c_hour : Z;
  c_dayOfWeek : Z;
  recentTrend : string
}.

Record prediction := {
  p_timestamp : Z;
  minutesAhead : Z;
  p_congestionLevel : string;
  p_confidence : Js.num;
  predictedSpeed : Js.num;
  incidentProbability : Js.num;
  riskLevel : string;
  p_factors : list string
}.

Record t := {
  historicalData : list dataPoint;
  predictions : list prediction
}.

(** The page: the predictive system and [window.warningSystem], which may
    be missing. *)
Record window := {
  predictive : t;
  warningSystem : option WarningSystem.t
}.

(** *** Divisions that record their divisor

    The value is the quotient the engine computes; the list names the
    divisors of the divisions that were executed, in order. *)
Definition traced (A : Type) : Type := (A * list nat)%type.

Definition divide (x : Js.num) (divisor : nat) : traced Js.num :=
  ((x / Js.of_nat divisor)%float, [divisor]).

Definition calculateAverageSpeed (segments : option (list segment)) : traced Js.num :=
  match segments with
  | None | Some [] => (0%float, [])
  | Some segs =>
      let totalSpeed :=
        fold_left (fun sum s => (sum + currentSpeed s)%float) segs 0%float in
      let '(mean, ds) := divide totalSpeed (length segs) in
      (Js.round mean, ds)
  end.

(** An object used as a table of counters, its keys in insertion order. *)
Definition counters := list (string * nat).

Definition levelCounts0 : counters :=
  [("low", 0); ("medium", 0); ("high", 0); ("severe", 0)]%nat.

(** [if (counts.hasOwnProperty(key)) counts[key]++] *)
Definition increment (key : string) (counts : counters) : counters :=
  map (fun '(k, n) => if String.eqb k key then (k, S n) else (k, n)) counts.

Definition count_of (key : string) (counts : counters) : nat :=
  match List.find (fun '(k, _) => String.eqb k key) counts with
  | Some (_, n) => n
  | None => 0
  end.

Definition calculateOverallCongestion (segments : option (list segment)) : traced string :=
  match segments with
  | None | Some [] => ("low", [])
  | Some segs =>
      let levelCounts :=
        fold_left (fun counts s => increment (trafficLevel s) counts) segs levelCounts0 in
      let total := length segs in
      let '(severeShare, d1) := divide (Js.of_nat (count_of "severe" levelCounts)) total in
      if Js.gt severeShare 0.3 then ("severe", d1) else
      let '(highShare, d2) := divide (Js.of_nat (count_of "high" levelCounts)) total in
      if Js.gt highShare 0.4 then ("high", d1 ++ d2) else
      let '(mediumShare, d3) := divide (Js.of_nat (count_of "medium" levelCounts)) total in
      if Js.gt mediumShare 0.5 then ("medium", d1 ++ d2 ++ d3) else
      ("low", d1 ++ d2 ++ d3)
  end.

Definition mean (xs : list Js.num) : Js.num :=
  (Js.sum xs / Js.of_nat (length xs))%float.

(** The history entries the three models draw on. *)
Definition similar (currentConditions : conditions) (targetHour : Z)
    (historicalData : list dataPoint) : list dataPoint :=
  filter (fun d => Z.abs (hour d - targetHour) <= 1
                   /\ dayOfWeek d = c_dayOfWeek currentConditions)
         historicalData.

Definition model_confidence (similarConditions : list dataPoint) : Js.num :=
  Js.min 0.9 (Js.of_nat (length similarConditions) / 20)%float.

(** [CongestionModel.predict]: the level and the confidence. *)
Module CongestionModel.
Definition predict (currentConditions : conditions) (targetHour : Z)
    (historicalData : list dataPoint) : string * Js.num :=
  let similarConditions := similar currentConditions targetHour historicalData in
  if (length similarConditions =? 0)%nat then ("medium", 0.3%float) else
  let levelCounts :=
    fold_left (fun counts d => increment (congestionLevel d) counts)
              similarConditions levelCounts0 in
  let maxCount := foldr Nat.max 0%nat (map snd levelCounts) in
  let predictedLevel :=
    match List.find (fun '(_, n) => (n =? maxCount)%nat) levelCounts with
    | Some (key, _) => key
    | None => "undefined"
    end in
  (predictedLevel, model_confidence similarConditions).
End CongestionModel.

(** [SpeedModel.predict]: the speed and the confidence. *)
Module SpeedModel.
Definition predict (currentConditions : conditions) (targetHour : Z)
    (historicalData : list dataPoint) : Js.num * Js.num :=
  let similarConditions := similar currentConditions targetHour historicalData in
  if (length similarConditions =? 0)%nat
  then (c_averageSpeed currentConditions, 0.3%float) else
  let avgSpeed := mean (map averageSpeed similarConditions) in
  let adjustedSpeed :=
    if String.eqb (recentTrend currentConditions) "deteriorating"
    then (avgSpeed * 0.9)%float
    else if String.eqb (recentTrend currentConditions) "improving"
    then (avgSpeed * 1.1)%float
    else avgSpeed in
  (Js.round adjustedSpeed, model_confidence similarConditions).
End SpeedModel.

Definition rush_hour (h : Z) : bool :=
  ((7 <=? h) && (h <=? 9)) || ((17 <=? h) && (h <=? 19)).

(** [IncidentModel.predict]: the probability and the confidence. *)
Module IncidentModel.
Definition predict (currentConditions : conditions) (targetHour : Z)
    (historicalData : list dataPoint) : Js.num * Js.num :=
  let similarConditions := similar currentConditions targetHour historicalData in
  if (length similarConditions =? 0)%nat then (0.1%float, 0.3%float) else
  let avgIncidents :=
    mean (map (fun d => Js.of_nat (incidentCount d)) similarConditions) in
  let probability := Js.min 0.8 (avgIncidents * 0.1)%float in
  let probability :=
    if rush_hour targetHour then (probability * 1.5)%float else probability in
  let probability :=
    if (2 <? c_incidentCount currentConditions)%nat
    then (probability * 1.2)%float else probability in
  (Js.min 0.9 probability, model_confidence similarConditions).
End IncidentModel.

Section Browser.

(** [getHours] and [getDay] of a clock reading, in the browser's time zone. *)
Variable getHours : Z -> Z.
Variable getDay : Z -> Z.

(** [storeHistoricalData]: [stamp] is the reading of [new Date()] for the
    data point and [now] the later reading of [Date.now()]. *)
Definition storeHistoricalData (stamp now : Z) (trafficData : trafficData)
    (incidents : list incident) (s : t) : t :=
  let dataPoint :=
    {| timestamp := stamp;
       trafficSegments := match segments_of trafficData with
                          | Some segs => segs
                          | None => []
                          end;
       incidentCount := length incidents;
       incidents := incidents;
       averageSpeed := fst (calculateAverageSpeed (segments_of trafficData));
       congestionLevel := fst (calculateOverallCongestion (segments_of trafficData));
       hour := getHours stamp;
       dayOfWeek := getDay stamp;
       weather := "clear" |} in
  let historicalData := historicalData s ++ [dataPoint] in
  let weekAgo := now - 7 * 24 * 60 * 60 * 1000 in
  {| historicalData := filter (fun d => weekAgo < timestamp d) historicalData;
     predictions := predictions s |}.

Definition calculateRecentTrend (s : t) : string :=
  let recent := drop (length (historicalData s) - 6) (historicalData s) in
  if (length recent <? 3)%nat then "stable" else
  let speeds := map averageSpeed recent in
  let firstHalf := take (length speeds / 2) speeds in
  let secondHalf := drop (length speeds / 2) speeds in
  let firstAvg := mean firstHalf in
  let secondAvg := mean secondHalf in
  let change := ((secondAvg - firstAvg) / firstAvg)%float in
  if Js.lt change (-0.2) then "deteriorating"
  else if Js.gt change 0.2 then "improving"
  else "stable".

(** [getCurrentConditions]; on an empty history [latest] is [undefined] and
    reading it throws, which is [None]. *)
Definition getCurrentConditions (now : Z) (s : t) : option conditions :=
  match last (historicalData s) with
  | Some latest =>
      Some {| c_timestamp := timestamp latest;
              c_averageSpeed := averageSpeed latest;
              c_congestionLevel := congestionLevel latest;
              c_incidentCount := incidentCount latest;
              c_hour := getHours now;
              c_dayOfWeek := getDay now;
              recentTrend := calculateRecentTrend s |}
  | None => None
  end.

Definition mapCongestionToRisk (congestionLevel : string) : Js.num :=
  if String.eqb congestionLevel "low" then 0.2%float
  else if String.eqb congestionLevel "medium" then 0.4%float
  else if String.eqb congestionLevel "high" then 0.7%float
  else if String.eqb congestionLevel "severe" then 0.9%float
  else 0.3%float.

Definition calculateOverallRisk (congestionLevel : string) (probability : Js.num) : string :=
  let congestionRisk := mapCongestionToRisk congestionLevel in
  let incidentRisk := probability in
  let combinedRisk := ((congestionRisk * 0.7) + (incidentRisk * 0.3))%float in
  if Js.gt combinedRisk 0.8 then "CRITICAL"
  else if Js.gt combinedRisk 0.6 then "HIGH"
  else if Js.gt combinedRisk 0.4 then "MEDIUM"
  else "LOW".

Definition identifyRiskFactors (currentConditions : conditions)
    (confidence : Js.num) : list string :=
  let factors := [] in
  let h := c_hour currentConditions in
  let factors := if (7 <=? h) && (h <=? 9)
                 then factors ++ ["Morning rush hour"%string] else factors in
  let factors := if (17 <=? h) && (h <=? 19)
                 then factors ++ ["Evening rush hour"%string] else factors in
  let factors := if String.eqb (recentTrend currentConditions) "deteriorating"
                 then factors ++ ["Deteriorating traffic conditions"%string]
                 else factors in
  let factors := if (2 <? c_incidentCount currentConditions)%nat
                 then factors ++ ["Multiple active incidents"%string] else factors in
  let factors := if Js.lt confidence 0.6
                 then factors ++ ["Low prediction confidence"%string] else factors in
  let factors := if (c_dayOfWeek currentConditions =? 1)
                    || (c_dayOfWeek currentConditions =? 5)
                 then factors ++ ["High traffic day"%string] else factors in
  factors.

(** [generatePredictions]: one prediction for each quarter of the hour ahead. *)
Definition generatePredictions (now : Z) (currentConditions : conditions)
    (s : t) : list prediction :=
  map (fun minutesAhead =>
         let predictionTime := now + minutesAhead * 60 * 1000 in
         let hour := getHours predictionTime in
         let congestionPrediction :=
           CongestionModel.predict currentConditions hour (historicalData s) in
         let speedPrediction :=
           SpeedModel.predict currentConditions hour (historicalData s) in
         let incidentPrediction :=
           IncidentModel.predict currentConditions hour (historicalData s) in
         {| p_timestamp := predictionTime;
            minutesAhead := minutesAhead;
            p_congestionLevel := fst congestionPrediction;
            p_confidence := snd congestionPrediction;
            predictedSpeed := fst speedPrediction;
            incidentProbability := fst incidentPrediction;
            riskLevel := calculateOverallRisk (fst congestionPrediction)
                                              (fst incidentPrediction);
            p_factors := identifyRiskFactors currentConditions
                                             (snd congestionPrediction) |})
      [15; 30; 45; 60].

Definition predictive_warning (now : Z) (p : prediction) : WarningSystem.warning :=
  {| WarningSystem.level :=
       if String.eqb (riskLevel p) "CRITICAL"
       then WarningSystem.HIGH else WarningSystem.MEDIUM;
     WarningSystem.title := "Predictive Traffic Alert";
     WarningSystem.message :=
       [WarningSystem.Lit (riskLevel p);
        WarningSystem.Lit " traffic conditions expected in ";
        WarningSystem.Num (Js.of_Z (minutesAhead p));
        WarningSystem.Lit " minutes"];
     WarningSystem.location := "City-wide forecast";
     WarningSystem.timestamp := now;
     WarningSystem.type := "predictive";
     WarningSystem.severity := None;
     WarningSystem.predictionTime := Some (p_timestamp p);
     WarningSystem.factors := p_factors p;
     WarningSystem.confidence := Some (Js.round (p_confidence p * 100)%float) |}.

Definition processPredictiveWarnings (now : Z) (predictions : list prediction)
    (w : window) : window :=
  let highRiskPredictions :=
    filter (fun p => String.eqb (riskLevel p) "CRITICAL"
                     || String.eqb (riskLevel p) "HIGH" = true) predictions in
  fold_left
    (fun w p =>
       let warning := predictive_warning now p in
       match warningSystem w with
       | Some ws =>
           {| predictive := predictive w;
              warningSystem := Some (WarningSystem.processWarnings now [warning] ws) |}
       | None => w
       end)
    highRiskPredictions w.

(** [updatePredictions], run at clock reading [now]. *)
Definition updatePredictions (now : Z) (w : window) : window :=
  if (length (historicalData (predictive w)) <? 10)%nat then w else
  match getCurrentConditions now (predictive w) with
  | None => w
  | Some currentConditions =>
      let predictions := generatePredictions now currentConditions (predictive w) in
      let w := {| predictive := {| historicalData := historicalData (predictive w);
                                   predictions := predictions |};
                  warningSystem := warningSystem w |} in
      processPredictiveWarnings now predictions w
  end.

End Browser.
End PredictiveWarningSystem.

(** ** The engine's reading of a string as a number *)
Module StringToNumber.

(** A string is kept as the bytes of its UTF-8 form. *)
Definition bytes (codes : list nat) : string :=
  fold_right (fun n s => String (ascii_of_nat n) s) EmptyString codes.

(** [StrWhiteSpaceChar]: the white space and the line terminators of the
    language, from the tab to the byte order mark. *)
Definition white_space : list string :=
  map bytes
    [[9]; [10]; [11]; [12]; [13]; [32]; [194; 160]; [225; 154; 128];
     [226; 128; 128]; [226; 128; 129]; [226; 128; 130]; [226; 128; 131];
     [226; 128; 132]; [226; 128; 133]; [226; 128; 134]; [226; 128; 135];
     [226; 128; 136]; [226; 128; 137]; [226; 128; 138]; [226; 128; 168];
     [226; 128; 169]; [226; 128; 175]; [226; 129; 159]; [227; 128; 128];
     [239; 187; 191]]%nat.

(** What follows [prefix] in [s], when [s] starts with it. *)
Fixpoint strip (prefix s : string) : option string :=
  match prefix, s with
  | EmptyString, _ => Some s
  | String a p, String b r => if Ascii.eqb a b then strip p r else None
  | String _ _, EmptyString => None
  end.

Definition strip_space (s : string) : option string :=
  fold_right (fun space found => match strip space s with
                                 | Some r => Some r
                                 | None => found
                                 end) None white_space.

Fixpoint trim_start (fuel : nat) (s : string) : string :=
  match fuel with
  | O => s
  | S n => match strip_space s with
           | Some r => trim_start n r
           | None => s
           end
  end.

Definition blank (s : string) : bool :=
  match trim_start (String.length s) s with
  | EmptyString => true
  | String _ _ => false
  end.

Fixpoint trim_end (s : string) : string :=
  match s with
  | EmptyString => EmptyString
  | String c r => if blank s then EmptyString else String c (trim_end r)
  end.

Definition trim (s : string) : string :=
  trim_end (trim_start (String.length s) s).

(** The value of a digit of the base, up to sixteen. *)
Definition digit (base : Z) (c : ascii) : option Z :=
  let n := Z.of_nat (nat_of_ascii c) in
  let d := if (48 <=? n) && (n <=? 57) then n - 48
           else if (97 <=? n) && (n <=? 102) then n - 87
           else if (65 <=? n) && (n <=? 70) then n - 55
           else base in
  if d <? base then Some d else None.

(** The digits at the head of [s]: their value, continued from [so_far],
    how many they are, counted from [count], and what follows them. *)
Fixpoint digits (base so_far count : Z) (s : string) : Z * Z * string :=
  match s with
  | EmptyString => (so_far, count, s)
  | String c rest =>
      match digit base c with
      | Some d => digits base (base * so_far + d) (count + 1) rest
      | None => (so_far, count, s)
      end
  end.

(** [SignedInteger], all of [s]. *)
Definition signed_integer (s : string) : option Z :=
  let '(negative, t) := match s with
                        | String "+" r => (false, r)
                        | String "-" r => (true, r)
                        | _ => (false, s)
                        end in
  let '(v, n, rest) := digits 10 0 0 t in
  match rest with
  | EmptyString => if n =? 0 then None else Some (if negative then - v else v)
  | String _ _ => None
  end.

(** The mathematical value of a literal: infinite, or a whole number times
    a power of ten. *)
Inductive literal :=
| Infinite
| Decimal (mantissa exponent : Z).

(** [StrUnsignedDecimalLiteral], all of [u]. *)
Definition unsigned_decimal (u : string) : option literal :=
  if String.eqb u "Infinity" then Some Infinite else
  let '(whole, n, r1) := digits 10 0 0 u in
  let '(m, k, r2) := match r1 with
                     | String "." r => digits 10 whole 0 r
                     | _ => (whole, 0, r1)
                     end in
  if n + k =? 0 then None else
  match r2 with
  | EmptyString => Some (Decimal m (- k))
  | String c r3 =>
      if Ascii.eqb c "e" || Ascii.eqb c "E" then
        match signed_integer r3 with
        | Some x => Some (Decimal m (x - k))
        | None => None
        end
      else None
  end.

(** The base a literal announces, and what follows the announcement. *)
Definition radix (t : string) : option (Z * string) :=
  match t with
  | String zero (String x r) =>
      if Ascii.eqb zero "0" then
        if Ascii.eqb x "x" || Ascii.eqb x "X" then Some (16, r)
        else if Ascii.eqb x "o" || Ascii.eqb x "O" then Some (8, r)
        else if Ascii.eqb x "b" || Ascii.eqb x "B" then Some (2, r)
        else None
      else None
  | _ => None
  end.

(** [StrNumericLiteral], all of [t]: the sign and the value. *)
Definition numeric_literal (t : string) : option (bool * literal) :=
  match radix t with
  | Some (base, r) =>
      let '(v, n, rest) := digits base 0 0 r in
      match rest with
      | EmptyString => if n =? 0 then None else Some (false, Decimal v 0)
      | String _ _ => None
      end
  | None =>
      match t with
      | String c u =>
          if Ascii.eqb c "+" then option_map (pair false) (unsigned_decimal u)
          else if Ascii.eqb c "-" then option_map (pair true) (unsigned_decimal u)
          else option_map (pair false) (unsigned_decimal t)
      | EmptyString => None
      end
  end.

(** The binary64 number nearest to [m * 10 ^ e], for [0 <= m], a tie going
    to the even one.  Beyond the two bounds on the exponent the result is
    infinite or zero whatever [m] is; below zero the quotient is taken with
    seventy bits to spare and a last bit that tells whether anything was
    left, which is enough to round it. *)
Definition nearest (negative : bool) (m e : Z) : spec_float :=
  let sign := if negative then -1 else 1 in
  if m =? 0 then S754_zero negative
  else if 400 <? e then S754_infinity negative
  else if e + Z.log2 m + 1 <? -400 then S754_zero negative
  else if 0 <=? e then
    binary_normalize prec emax (sign * (m * 10 ^ e)) 0 negative
  else
    let d := 10 ^ (- e) in
    let s := Z.log2 d + 70 in
    let q := (m * 2 ^ s) / d in
    let left := if (m * 2 ^ s) mod d =? 0 then 0 else 1 in
    binary_normalize prec emax (sign * (2 * q + left)) (- (s + 1)) negative.

Definition value (negative : bool) (l : literal) : Js.num :=
  match l with
  | Infinite => if negative then neg_infinity else infinity
  | Decimal m e => SF2Prim (nearest negative m e)
  end.

(** [Number(s)]: white space around the literal is dropped, nothing at all
    is [0], and what is no literal is [NaN]. *)
Definition Number (s : string) : Js.num :=
  match trim s with
  | EmptyString => 0%float
  | String c t =>
      match numeric_literal (String c t) with
      | Some (negative, l) => value negative l
      | None => nan
      end
  end.

End StringToNumber.

(** ** Request validation (middleware/validation.js) *)
Module Validation.
Import StringToNumber.

(** A query parameter as the framework hands it over: the text of a
    parameter that is given once, an array for one that is repeated or
    written with brackets, an object for one that is written with keys. *)
#[warnings="-register-all"]
Inductive param :=
| Text (s : string)
| Items (l : list param)
| Fields.

Record query := {
  lat : option param;
  lng : option param;
  bounds : option param
}.

(** What the middleware does with the request: hand it to the next handler
    as it is, answer with status 400 and an error text, or throw. *)
Inductive verdict :=
| Next
| Status400 (error : string)
| TypeError (message : string).

Definition dquote : string := String (ascii_of_nat 34) EmptyString.

(** [ToBoolean] of a parameter: a missing one and the empty text are falsy,
    arrays and objects are truthy. *)
Definition given (p : option param) : bool :=
  match p with
  | Some (Text s) => present (Some s)
  | Some _ => true
  | None => false
  end.

(** [ToString] of a parameter: the items of an array joined by commas, and
    '[object Object]' for an object. *)
Fixpoint text (p : param) : string :=
  match p with
  | Text s => s
  | Items l =>
      (fix items (l : list param) : string :=
         match l with
         | [] => EmptyString
         | [x] => text x
         | x :: rest => (text x ++ "," ++ items rest)%string
         end) l
  | Fields => "[object Object]"
  end.

(** A query parameter compared with a number is converted first; a missing
    one is [undefined], which is [NaN]. *)
Definition param_number (p : option param) : Js.num :=
  match p with
  | Some v => Number (text v)
  | None => nan
  end.

Definition validateCoordinates (q : query) : verdict :=
  if given (lat q)
     && (Js.lt (param_number (lat q)) (-90) || Js.gt (param_number (lat q)) 90)
  then Status400 "Latitude must be between -90 and 90"
  else if given (lng q)
          && (Js.lt (param_number (lng q)) (-180) || Js.gt (param_number (lng q)) 180)
  then Status400 "Longitude must be between -180 and 180"
  else if given (bounds q) then
    match bounds q with
    | Some (Text b) =>
        let coords := map Number (split "," b) in
        if negb (length coords =? 4)%nat || existsb is_nan coords
        then Status400 ("Bounds must be in format " ++ dquote
                        ++ "minLat,minLon,maxLat,maxLon" ++ dquote)%string
        else
          let minLat := nth 0 coords nan in
          let minLon := nth 1 coords nan in
          let maxLat := nth 2 coords nan in
          let maxLon := nth 3 coords nan in
          if Js.ge minLat maxLat || Js.ge minLon maxLon
          then Status400 "Invalid bounds: min values must be less than max values"
          else Next
    | _ => TypeError "bounds.split is not a function"
    end
  else Next.

End Validation.

(** ** Routes of the traffic data service (services/trafficDataService.js) *)
Module RouteInfo.
Import TrafficDataService.

Section Routes.

(** The configured TomTom key, and the answer of TomTom's routing service to
    a request for a URL with the [alternatives] parameter: the data of the
    response, or [None] when the request fails. *)
Variable tomtom_key : option string.
Variable tomtom_route : string -> bool -> option routeData.

(** A boolean in a template literal. *)
Definition show_bool (b : bool) : string := if b then "true" else "false".

Definition route_url (start end_ : string) : string :=
  ("https://api.tomtom.com/routing/1/calculateRoute/" ++ start ++ ":" ++ end_
   ++ "/json")%string.

Definition fetchTomTomRoute (start end_ : string) (alternatives : bool) :
    M routeData :=
  if negb (present tomtom_key) then throw "TomTom API key not configured"
  else axios_get (fun url => tomtom_route url alternatives) (route_url start end_).

Definition route_cache_key (start end_ : string) (alternatives : bool) : string :=
  ("route-" ++ start ++ "-" ++ end_ ++ "-" ++ show_bool alternatives)%string.

(** [getRouteInfo]: unlike the live traffic, a failed fetch is thrown again.
    The data is cached whatever it is, so a falsy one is never a hit. *)
Definition getRouteInfo (start end_ : string) (alternatives : bool) : M value :=
  let cacheKey := route_cache_key start end_ alternatives in
  cached <~ cache_get cacheKey ;;
  match hit cached with
  | Some v =>
      log (CacheOperation "get" cacheKey true) ;;;
      ret v
  | None =>
      try_catch
        (routeData <~ fetchTomTomRoute start end_ alternatives ;;
         cache_set cacheKey (VRoute routeData) ;;;
         log (ExternalApiCall "tomtom" "route" true) ;;;
         ret (VRoute routeData))
        (fun error =>
           log (ExternalApiCall "tomtom" "route" false) ;;;
           log (LogError "Error calculating route" error) ;;;
           throw error)
  end.

End Routes.
End RouteInfo.

(** ** The request handlers of the server (server.js) *)
Module Server.
Import TrafficDataService.

(** What a handler answers: the status, and the JSON body with either the
    data or an error text. *)
Record response := {
  status : nat;
  success : bool;
  data : option value;
  error : option string;
  timestamp : Z
}.

Definition ok (now : Z) (v : value) : response :=
  {| status := 200; success := true; data := Some v; error := None;
     timestamp := now |}.

Definition failed (now : Z) (message : string) : response :=
  {| status := 500; success := false; data := None; error := Some message;
     timestamp := now |}.

(** A handler runs a call of the service and answers with its value, or
    with status 500 when the call throws. *)
Definition handle (now : Z) (call : M value) (message : string) : M response :=
  try_catch (v <~ call ;; ret (ok now v))
            (fun _ => ret (failed now message)).

Section Handlers.

Variable tomtom_key : option string.
Variable tomtom_flow : string -> option flowSegmentData.
Variable tomtom_incidents : string -> option (option (list apiIncident)).
Variable tomtom_route : string -> bool -> option routeData.
Variable db_ok : nat -> bool.
Variable now : Z.
Variable uuidv4 : nat -> string.
Variable random : nat -> Js.num.

(** [GET /api/traffic/live] *)
Definition get_traffic_live (bounds : option string) : M response :=
  handle now
    (getLiveTrafficData tomtom_key tomtom_flow db_ok now uuidv4 random bounds)
    "Failed to fetch live traffic data".

(** [GET /api/traffic/incidents] *)
Definition get_traffic_incidents : M response :=
  handle now
    (getTrafficIncidents tomtom_key tomtom_incidents db_ok now uuidv4)
    "Failed to fetch traffic incidents".

(** [GET /api/traffic/route] *)
Definition get_traffic_route (start end_ : string) (alternatives : bool) : M response :=
  handle now
    (RouteInfo.getRouteInfo tomtom_key tomtom_route start end_ alternatives)
    "Failed to calculate route".

End Handlers.
End Server.

(** ** More of the two models (config/models) *)
Module TrafficDataHooks.
Import TrafficDataModel.

(** The [beforeUpdate] hook; [changed] names the attributes that were changed
    since the instance was loaded. *)
Definition beforeUpdate (changed : list string) (trafficData : instance) : instance :=
  if existsb (String.eqb "current_speed") changed
     || existsb (String.eqb "free_flow_speed") changed
  then
    if num_present (current_speed trafficData)
       && num_present (free_flow_speed trafficData)
    then
      let ratio := (to_number (current_speed trafficData)
                    / to_number (free_flow_speed trafficData))%float in
      if Js.gt ratio 0.8 then set_congestion_level "low" trafficData
      else if Js.gt ratio 0.5 then set_congestion_level "medium" trafficData
      else if Js.gt ratio 0.3 then set_congestion_level "high" trafficData
      else set_congestion_level "severe" trafficData
    else trafficData
  else trafficData.

End TrafficDataHooks.

Module TrafficIncidentQueries.
Import TrafficIncident.

(** [TrafficIncident.findByType] *)
Definition findByType (table : list row) (type : string) (o : options) : list row :=
  let defaultOptions :=
    {| where_ := Some [(Type_, type)];
       order := Some [(StartedAt, DESC)];
       limit := None |} in
  findAll table (spread defaultOptions o).

(** [TrafficIncident.findBySeverity] *)
Definition findBySeverity (table : list row) (severity : string) (o : options) :
    list row :=
  let defaultOptions :=
    {| where_ := Some [(Severity, severity)];
       order := Some [(StartedAt, DESC)];
       limit := None |} in
  findAll table (spread defaultOptions o).

End TrafficIncidentQueries.

(** ** The analyses and the panel of the warning system (class WarningSystem) *)
Module WarningAnalysis.
Import WarningSystem.

(** [pieces.join(sep)] *)
Fixpoint join (sep : string) (pieces : list string) : string :=
  match pieces with
  | [] => EmptyString
  | [x] => x
  | x :: rest => (x ++ sep ++ join sep rest)%string
  end.

Definition is_serious (i : PredictiveWarningSystem.incident) : bool :=
  String.eqb (PredictiveWarningSystem.severity i) "high"
  || String.eqb (PredictiveWarningSystem.severity i) "severe".

(** [analyzeIncidents], read at clock reading [now]. *)
Definition analyzeIncidents (now : Z)
    (incidents : list PredictiveWarningSystem.incident) : list warning :=
  let warnings := [] in
  let severeIncidents := filter (fun i => is_serious i = true) incidents in
  let totalDelay :=
    fold_left (fun sum i =>
                 (sum + Js.or_else (PredictiveWarningSystem.delayInSeconds i) 0)%float)
              incidents 0%float in
  let warnings :=
    if (0 <? length severeIncidents)%nat then
      warnings ++ [{| level := HIGH;
                      title := "Severe Traffic Incidents";
                      message := [Num (Js.of_nat (length severeIncidents));
                                  Lit " serious incidents reported"];
                      location :=
                        join ", " (map PredictiveWarningSystem.description
                                       severeIncidents);
                      timestamp := now;
                      type := "incident";
                      severity := Some (Js.of_nat (length severeIncidents));
                      predictionTime := None; factors := []; confidence := None |}]
    else warnings in
  let warnings :=
    if (5 <? length incidents)%nat then
      warnings ++ [{| level := MEDIUM;
                      title := "Multiple Traffic Incidents";
                      message := [Num (Js.of_nat (length incidents));
                                  Lit " total incidents affecting traffic flow"];
                      location := "City-wide";
                      timestamp := now;
                      type := "incident";
                      severity := Some (Js.of_nat (length incidents));
                      predictionTime := None; factors := []; confidence := None |}]
    else warnings in
  let warnings :=
    if Js.gt totalDelay 1800 then
      warnings ++ [{| level := MEDIUM;
                      title := "Significant Traffic Delays";
                      message := [Lit "Total delay time: ";
                                  Num (Js.floor (totalDelay / 60)%float);
                                  Lit " minutes"];
                      location := "Affected routes";
                      timestamp := now;
                      type := "delay";
                      severity := Some totalDelay;
                      predictionTime := None; factors := []; confidence := None |}]
    else warnings in
  warnings.

(** [analyzeSystemHealth]; [statisticsAge] is
    [window.trafficManager?.statistics?.dataAge], [None] when it is missing. *)
Definition analyzeSystemHealth (now : Z) (statisticsAge : option Js.num) :
    list warning :=
  let warnings := [] in
  let dataAge := match statisticsAge with
                 | Some age => Js.or_else age 0
                 | None => 0%float
                 end in
  let warnings :=
    if Js.gt dataAge 10 then
      warnings ++ [{| level := MEDIUM;
                      title := "Stale Traffic Data";
                      message := [Lit "Traffic data is "; Num dataAge;
                                  Lit " minutes old"];
                      location := "System-wide";
                      timestamp := now;
                      type := "system";
                      severity := Some dataAge;
                      predictionTime := None; factors := []; confidence := None |}]
    else warnings in
  let warnings :=
    if Js.gt dataAge 30 then
      warnings ++ [{| level := HIGH;
                      title := "Data Connection Issues";
                      message := [Lit "No fresh data for "; Num dataAge;
                                  Lit " minutes"];
                      location := "System-wide";
                      timestamp := now;
                      type := "system";
                      severity := Some dataAge;
                      predictionTime := None; factors := []; confidence := None |}]
    else warnings in
  warnings.

(** [analyzeTrafficData]: the traffic data and the incidents may be missing
    ([null]). *)
Definition analyzeTrafficData (now : Z) (statisticsAge : option Js.num)
    (trafficData : option trafficData)
    (incidents : option (list PredictiveWarningSystem.incident)) : list warning :=
  let warnings := [] in
  let warnings :=
    match trafficData with
    | Some d =>
        match segments_of d with
        | Some segments => warnings ++ analyzeTrafficFlow now segments
        | None => warnings
        end
    | None => warnings
    end in
  let warnings :=
    match incidents with
    | Some l => if (0 <? length l)%nat then warnings ++ analyzeIncidents now l
                else warnings
    | None => warnings
    end in
  warnings ++ analyzeSystemHealth now statisticsAge.

(** [alertLevels[level].priority] *)
Definition priority (l : alertLevel) : nat :=
  match l with
  | CRITICAL => 1
  | HIGH => 2
  | MEDIUM => 3
  | LOW => 4
  | INFO => 5
  end.

(** [[...alerts].sort((a, b) => priority(a) - priority(b))]: the sort of the
    engine is stable, so its result is the one of this insertion sort. *)
Fixpoint insert_by_priority (a : warning) (sorted : list warning) : list warning :=
  match sorted with
  | [] => [a]
  | b :: rest =>
      if (priority (level a) <=? priority (level b))%nat then a :: b :: rest
      else b :: insert_by_priority a rest
  end.

Definition sort_by_priority (alerts : list warning) : list warning :=
  foldr insert_by_priority [] alerts.

(** The alerts that [updateWarningDisplay] renders in the panel, in order;
    the empty list stands for the line 'No active warnings'. *)
Definition updateWarningDisplay (ws : t) : list warning :=
  take 10 (sort_by_priority (alerts ws)).

End WarningAnalysis.

(** ** The traffic manager of the browser (public/js/traffic.js) *)
Module TrafficManager.

Record statistics := {
  averageSpeed : Js.num;
  congestionLevel : string;
  incidentCount : nat;
  dataAge : Js.num
}.

(** The counters of [calculateOverallCongestion]: a counter that was never
    a number ([undefined] before its first increment) is [None], which
    stands for [NaN]. *)
Definition tally := list (string * option nat).

Definition tally0 : tally :=
  [("low", Some 0); ("medium", Some 0); ("high", Some 0); ("severe", Some 0)]%nat.

(** [levelCounts[level]++], without a test for the key: an unknown level
    gets a counter of its own, which is [NaN] and is never read. *)
Definition bump (level : string) (counts : tally) : tally :=
  if existsb (fun '(k, _) => String.eqb k level) counts
  then map (fun '(k, n) => if String.eqb k level then (k, option_map S n) else (k, n))
           counts
  else counts ++ [(level, None)].

Definition tally_number (key : string) (counts : tally) : Js.num :=
  match List.find (fun '(k, _) => String.eqb k key) counts with
  | Some (_, Some n) => Js.of_nat n
  | _ => nan
  end.

(** [calculateOverallCongestion] of the traffic manager. *)
Definition calculateOverallCongestion (segments : list segment) : string :=
  let congestionLevels := map trafficLevel segments in
  let levelCounts := fold_left (fun counts level => bump level counts)
                               congestionLevels tally0 in
  let total := Js.of_nat (length segments) in
  if Js.gt (tally_number "severe" levelCounts / total)%float 0.3 then "severe"
  else if Js.gt (tally_number "high" levelCounts / total)%float 0.4 then "high"
  else if Js.gt (tally_number "medium" levelCounts / total)%float 0.5 then "medium"
  else "low".

(** [calculateDataAge], at clock reading [now]. *)
Definition calculateDataAge (now timestamp : Z) : Js.num :=
  Js.floor (Js.of_Z (now - timestamp) / (1000 * 60))%float.

(** [updateStatistics]; the traffic data may be missing. *)
Definition updateStatistics (now : Z) (trafficData : option trafficData)
    (s : statistics) : statistics :=
  match trafficData with
  | Some (TrafficObject timestamp _ _ segments) =>
      let totalSpeed :=
        fold_left (fun sum s => (sum + currentSpeed s)%float) segments 0%float in
      {| averageSpeed := Js.round (totalSpeed / Js.of_nat (length segments))%float;
         congestionLevel := calculateOverallCongestion segments;
         incidentCount := incidentCount s;
         dataAge := calculateDataAge now timestamp |}
  | _ => s
  end.

End TrafficManager.

(** ** The vocabulary of the properties *)
Module Spec.

(** Severity descending, then [started_at] descending. *)
Definition by_severity_then_start (a b : TrafficIncident.row) : Prop :=
  TrafficIncident.sort_key TrafficIncident.Severity b
  < TrafficIncident.sort_key TrafficIncident.Severity a
  \/ (TrafficIncident.sort_key TrafficIncident.Severity a
      = TrafficIncident.sort_key TrafficIncident.Severity b
      /\ TrafficIncident.started_at b <= TrafficIncident.started_at a).

(** The query [getTrafficIncidents] puts to [findActive] first. *)
Definition first_query : TrafficIncident.options :=
  {| TrafficIncident.where_ := None;
     TrafficIncident.order :=
       Some [(TrafficIncident.Severity, TrafficIncident.DESC);
             (TrafficIncident.StartedAt, TrafficIncident.DESC)];
     TrafficIncident.limit := Some 50%nat |}.

(** *** What it is to store a segment

    The row of a segment carries its numbers and labels, one that is
    missing, zero or empty replaced by the default of its column, names
    TomTom as the source and is stamped with the time of the call. *)
Definition unset (x : Js.num) : bool := is_zero x || is_nan x.

Definition number_or (given default stored : Js.num) : Prop :=
  (unset given = false -> stored = given)
  /\ (unset given = true -> stored = default).

Definition text_or (given : option string) (default stored : string) : Prop :=
  match given with
  | Some (String c rest) => stored = String c rest
  | Some EmptyString | None => stored = default
  end.

Definition stores (now : Z) (s : segment) (r : TrafficRow.t) : Prop :=
  number_or (currentSpeed s) 0 (TrafficRow.current_speed r)
  /\ number_or (freeFlowSpeed s) 60 (TrafficRow.free_flow_speed r)
  /\ number_or (currentTravelTime s) 0 (TrafficRow.travel_time r)
  /\ number_or (freeFlowTravelTime s) 0 (TrafficRow.free_flow_travel_time r)
  /\ number_or (confidence s) 0.8 (TrafficRow.confidence r)
  /\ text_or (Some (trafficLevel s)) "medium" (TrafficRow.congestion_level r)
  /\ text_or (roadCategory s) "local" (TrafficRow.road_type r)
  /\ text_or (location s) "Unknown" (TrafficRow.location r)
  /\ text_or (weatherCondition s) "clear" (TrafficRow.weather_condition r)
  /\ (forall count, vehicleCount s = Some count -> unset count = false ->
      TrafficRow.vehicle_count r = count)
  /\ (forall point, head (coordinates s) = Some point ->
      TrafficRow.coordinates r = point)
  /\ TrafficRow.data_source r = "tomtom"%string
  /\ TrafficRow.recorded_at r = now.

(** The segments at a congestion level, counted on the segments
    themselves. *)
Definition segments_at (l : string) (segments : list segment) : nat :=
  length (filter (fun s => trafficLevel s = l) segments).

(** The speeds added up from the first segment on, starting at zero, and
    their mean. *)
Fixpoint added_up (so_far : Js.num) (segments : list segment) : Js.num :=
  match segments with
  | [] => so_far
  | s :: rest => added_up (so_far + currentSpeed s)%float rest
  end.

Definition mean_speed (segments : list segment) : Js.num :=
  (added_up 0 segments / Js.of_nat (length segments))%float.

Definition emits (lvl : WarningSystem.alertLevel) (ttl : string)
    (warnings : list WarningSystem.warning) : Prop :=
  exists w, w ∈ warnings /\ WarningSystem.level w = lvl /\ WarningSystem.title w = ttl.

(** The warnings of a list that no alert matches. *)
Definition unmatched (warnings current : list WarningSystem.warning) :
    list WarningSystem.warning :=
  filter (fun w => existsb (fun existing => WarningSystem.same_alert existing w) current = false)
         warnings.

(** *** The words of the claim about the validation *)











End Spec.

(** ** Concrete surroundings and inputs for the examples *)
Module Scenario.
Import TrafficDataService.

Definition empty_world : world :=
  {| cache := ∅; traffic_data := []; traffic_incidents := [];
     requests := []; journal := []; db_ops := 0; draws := 0 |}.

Definition clock : Z := 1700000000000.
Definition api_key : option string := Some "tomtom-key"%string.
Definition uuid (n : nat) : string := "7d9f2a61-5c3e-4b8a-9f10-2e6b1c4d8a90".
Definition halves (n : nat) : Js.num := 0.5%float.
Definition db_up (n : nat) : bool := true.
Definition db_down (n : nat) : bool := false.

(** One segment on Uhuru Highway, at 20 km/h where 50 km/h flows freely. *)
Definition uhuru : flowSegment :=
  {| fs_coordinates := [(36.8172, -1.2864)%float];
     fs_currentSpeed := 20; fs_freeFlowSpeed := 50;
     fs_currentTravelTime := 180; fs_freeFlowTravelTime := 72;
     fs_confidence := 0.95; fs_roadCategory := Some "highway"%string |}.

Definition tomtom_answers (url : string) : option flowSegmentData :=
  Some (FlowSegments [uhuru]).
Definition tomtom_unreachable (url : string) : option flowSegmentData := None.

Definition uhuru_segment : segment :=
  {| coordinates := [(36.8172, -1.2864)%float];
     currentSpeed := 20; freeFlowSpeed := 50;
     currentTravelTime := 180; freeFlowTravelTime := 72;
     confidence := 0.95; roadCategory := Some "highway"%string;
     trafficLevel := "high";
     location := None; vehicleCount := None; weatherCondition := None |}.

(** A segment of the same road on which the traffic moves at [speed]. *)
Definition moving_at (speed : Js.num) : segment :=
  {| coordinates := [(36.8172, -1.2864)%float];
     currentSpeed := speed; freeFlowSpeed := 50;
     currentTravelTime := 180; freeFlowTravelTime := 72;
     confidence := 0.95; roadCategory := Some "highway"%string;
     trafficLevel := "medium";
     location := None; vehicleCount := None; weatherCondition := None |}.

Definition uhuru_data : trafficData :=
  TrafficObject clock "tomtom" None [uhuru_segment].

Definition cbd_bounds : option string := Some "-1.30,36.80,-1.25,36.85"%string.

(** A world whose cache already holds the city-wide entry. *)
Definition warm_world : world :=
  {| cache := {[ live_cache_key None := VTraffic uhuru_data ]};
     traffic_data := []; traffic_incidents := [];
     requests := []; journal := []; db_ops := 0; draws := 0 |}.

(** Three incidents: a resolved closure and two active ones. *)
Definition closure : TrafficIncident.row :=
  {| TrafficIncident.id := "a1"; TrafficIncident.location := "Mombasa Road";
     TrafficIncident.coordinates := (36.85, -1.32)%float;
     TrafficIncident.type := "roadblock"; TrafficIncident.severity := "severe";
     TrafficIncident.description := "Road closed for repairs";
     TrafficIncident.estimated_duration := 240;
     TrafficIncident.delay_seconds := 900;
     TrafficIncident.status := "resolved"; TrafficIncident.verified := true;
     TrafficIncident.source := "user_report";
     TrafficIncident.external_id := None;
     TrafficIncident.started_at := 1699990000000 |}.

Definition breakdown : TrafficIncident.row :=
  {| TrafficIncident.id := "b2"; TrafficIncident.location := "Thika Road";
     TrafficIncident.coordinates := (36.88, -1.22)%float;
     TrafficIncident.type := "breakdown"; TrafficIncident.severity := "medium";
     TrafficIncident.description := "Stalled lorry on the left lane";
     TrafficIncident.estimated_duration := 60;
     TrafficIncident.delay_seconds := 300;
     TrafficIncident.status := "active"; TrafficIncident.verified := false;
     TrafficIncident.source := "user_report";
     TrafficIncident.external_id := None;
     TrafficIncident.started_at := 1699999000000 |}.

Definition pileup : TrafficIncident.row :=
  {| TrafficIncident.id := "c3"; TrafficIncident.location := "Waiyaki Way";
     TrafficIncident.coordinates := (36.78, -1.26)%float;
     TrafficIncident.type := "accident"; TrafficIncident.severity := "high";
     TrafficIncident.description := "Multiple vehicle collision";
     TrafficIncident.estimated_duration := 120;
     TrafficIncident.delay_seconds := 1200;
     TrafficIncident.status := "active"; TrafficIncident.verified := true;
     TrafficIncident.source := "tomtom";
     TrafficIncident.external_id := Some "tt-991"%string;
     TrafficIncident.started_at := 1699995000000 |}.

Definition incident_world : world :=
  {| cache := ∅; traffic_data := [];
     traffic_incidents := [closure; breakdown; pileup];
     requests := []; journal := []; db_ops := 0; draws := 0 |}.

Definition no_incident_feed (url : string) : option (option (list apiIncident)) :=
  None.

Definition resolved_only : TrafficIncident.options :=
  {| TrafficIncident.where_ := Some [(TrafficIncident.Status, "resolved"%string)];
     TrafficIncident.order := None;
     TrafficIncident.limit := None |}.

(** An alert raised 31 minutes before [clock], and a warning raised at
    [clock] under the same title and location. *)
Definition stale_alert : WarningSystem.warning :=
  {| WarningSystem.level := WarningSystem.HIGH;
     WarningSystem.title := "High Traffic Volume";
     WarningSystem.message := [WarningSystem.Num 7;
                               WarningSystem.Lit " road segments with heavy traffic"];
     WarningSystem.location := "City-wide";
     WarningSystem.timestamp := clock - 31 * 60 * 1000;
     WarningSystem.type := "congestion";
     WarningSystem.severity := Some 7%float;
     WarningSystem.predictionTime := None;
     WarningSystem.factors := []; WarningSystem.confidence := None |}.

Definition fresh_warning : WarningSystem.warning :=
  {| WarningSystem.level := WarningSystem.HIGH;
     WarningSystem.title := "High Traffic Volume";
     WarningSystem.message := [WarningSystem.Num 6;
                               WarningSystem.Lit " road segments with heavy traffic"];
     WarningSystem.location := "City-wide";
     WarningSystem.timestamp := clock;
     WarningSystem.type := "congestion";
     WarningSystem.severity := Some 6%float;
     WarningSystem.predictionTime := None;
     WarningSystem.factors := []; WarningSystem.confidence := None |}.

Definition stale_system : WarningSystem.t :=
  {| WarningSystem.alerts := [stale_alert]; WarningSystem.triggered := [] |}.

Definition quiet_system : WarningSystem.t :=
  {| WarningSystem.alerts := []; WarningSystem.triggered := [] |}.

Definition gridlock_warning : WarningSystem.warning :=
  {| WarningSystem.level := WarningSystem.CRITICAL;
     WarningSystem.title := "Gridlock Risk Detected";
     WarningSystem.message := [WarningSystem.Num 2;
                               WarningSystem.Lit " segments at near-standstill speeds"];
     WarningSystem.location := "Critical intersections";
     WarningSystem.timestamp := clock;
     WarningSystem.type := "gridlock";
     WarningSystem.severity := Some 2%float;
     WarningSystem.predictionTime := None;
     WarningSystem.factors := []; WarningSystem.confidence := None |}.

Definition alert_system : WarningSystem.t :=
  {| WarningSystem.alerts := [fresh_warning]; WarningSystem.triggered := [] |}.

(** The browser in UTC: the hour of the day and the day of the week (the
    epoch fell on a Thursday). *)
Definition utc_hours (t : Z) : Z := (t / 3600000) mod 24.
Definition utc_day (t : Z) : Z := (t / 86400000 + 4) mod 7.

Definition sample (t : Z) : PredictiveWarningSystem.dataPoint :=
  {| PredictiveWarningSystem.timestamp := t;
     PredictiveWarningSystem.trafficSegments := [uhuru_segment];
     PredictiveWarningSystem.incidentCount := 3;
     PredictiveWarningSystem.incidents := [];
     PredictiveWarningSystem.averageSpeed := 20;
     PredictiveWarningSystem.congestionLevel := "severe";
     PredictiveWarningSystem.hour := utc_hours t;
     PredictiveWarningSystem.dayOfWeek := utc_day t;
     PredictiveWarningSystem.weather := "clear" |}.

(** A page with two data points, and one with ten: one every five minutes
    up to [clock]. *)
Definition young_page : PredictiveWarningSystem.window :=
  {| PredictiveWarningSystem.predictive :=
       {| PredictiveWarningSystem.historicalData :=
            [sample (clock - 300000); sample clock];
          PredictiveWarningSystem.predictions := [] |};
     PredictiveWarningSystem.warningSystem := Some quiet_system |}.

Definition seasoned_page : PredictiveWarningSystem.window :=
  {| PredictiveWarningSystem.predictive :=
       {| PredictiveWarningSystem.historicalData :=
            map (fun k => sample (clock - (9 - k) * 300000))
                [0; 1; 2; 3; 4; 5; 6; 7; 8; 9];
          PredictiveWarningSystem.predictions := [] |};
     PredictiveWarningSystem.warningSystem := Some quiet_system |}.





(** A sample about to be created without a congestion level. *)
Definition unlabelled_sample : TrafficDataModel.instance :=
  {| TrafficDataModel.current_speed := Some 20%float;
     TrafficDataModel.free_flow_speed := Some 50%float;
     TrafficDataModel.congestion_level := None |}.

End Scenario.

(** ** The vocabulary of the further properties *)
Module Terms.

(** What holds of every row that [storeTrafficData] writes. *)
Definition stored_row (now : Z) (r : TrafficRow.t) : Prop :=
  TrafficRow.congestion_level r ∈ ["low"; "medium"; "high"; "severe"]%string
  /\ TrafficRow.data_source r = "tomtom"%string
  /\ Js.truthy (TrafficRow.free_flow_speed r) = true
  /\ is_nan (TrafficRow.current_speed r) = false
  /\ is_nan (TrafficRow.confidence r) = false
  /\ TrafficRow.recorded_at r = now.

(** The query [getTrafficIncidents] falls back on when its first attempt
    fails. *)
Definition fallback_query : TrafficIncident.options :=
  {| TrafficIncident.where_ := None;
     TrafficIncident.order :=
       Some [(TrafficIncident.StartedAt, TrafficIncident.DESC)];
     TrafficIncident.limit := Some 20%nat |}.

(** The later start first. *)
Definition newest_first (a b : TrafficIncident.row) : Prop :=
  TrafficIncident.started_at b <= TrafficIncident.started_at a.

(** What holds of every row that [storeIncidentData] writes. *)
Definition stored_incident (r : TrafficIncident.row) : Prop :=
  TrafficIncident.status r = "active"%string
  /\ TrafficIncident.source r = "tomtom"%string
  /\ TrafficIncident.verified r = false.


(** The titles of the three analyses, in the order they are pushed. *)
Definition flow_titles : list string :=
  ["Severe Traffic Congestion"; "High Traffic Volume";
   "Very Low Average Speed"; "Gridlock Risk Detected"]%string.

Definition incident_titles : list string :=
  ["Severe Traffic Incidents"; "Multiple Traffic Incidents";
   "Significant Traffic Delays"]%string.

Definition health_titles : list string :=
  ["Stale Traffic Data"; "Data Connection Issues"]%string.

(** What [processWarnings] compares of two warnings. *)
Definition alert_key (w : WarningSystem.warning) : string * string :=
  (WarningSystem.title w, WarningSystem.location w).

(** The more urgent level first. *)
Definition more_urgent (a b : WarningSystem.warning) : Prop :=
  (WarningAnalysis.priority (WarningSystem.level a)
   <= WarningAnalysis.priority (WarningSystem.level b))%nat.

(** A system that holds no alert and has triggered none. *)
Definition fresh_system : WarningSystem.t :=
  {| WarningSystem.alerts := []; WarningSystem.triggered := [] |}.


(** How many data points carry a congestion level. *)
Definition level_count (l : string)
    (points : list PredictiveWarningSystem.dataPoint) : nat :=
  length (filter (fun d => PredictiveWarningSystem.congestionLevel d = l) points).

Definition congestion_labels : list string :=
  ["low"; "medium"; "high"; "severe"]%string.


(** An alert with the title and the location of the predictive warnings
    that is less than 30 minutes old at [now]. *)
Definition forecast_held (now : Z) (a : WarningSystem.warning) : bool :=
  String.eqb (WarningSystem.title a) "Predictive Traffic Alert"
  && String.eqb (WarningSystem.location a) "City-wide forecast"
  && WarningSystem.recent now a.


(** A number that is at most 0.9, or is not a number. *)
Definition capped (x : Js.num) : Prop := Js.le x 0.9 = true \/ is_nan x = true.


(** Data that a test reads as absent: [null], [false], the empty string,
    zero and [NaN]. *)
Definition falsy (data : TrafficDataService.routeData) : Prop :=
  data = TrafficDataService.RouteNull
  \/ data = TrafficDataService.RouteBoolean false
  \/ data = TrafficDataService.RouteText EmptyString
  \/ exists x, data = TrafficDataService.RouteNumber x
               /\ (is_zero x = true \/ is_nan x = true).



End Terms.

(** ** Concrete inputs for the further properties *)
Module Cases.
Import TrafficDataService.


(** A world whose only incident is resolved. *)
Definition resolved_world : world :=
  {| cache := ∅; traffic_data := [];
     traffic_incidents := [Scenario.closure];
     requests := []; journal := []; db_ops := 0; draws := 0 |}.

(** An accident as TomTom reports it. *)
Definition tomtom_accident : apiIncident :=
  {| ai_id := Some "tt-1042"%string;
     ai_description := Some "Collision near Museum Hill"%string;
     ai_geometry := Some (36.8125, -1.2741)%float;
     ai_type := "accident"; ai_severity := "major";
     ai_estimatedDuration := 45; ai_delayInSeconds := 600;
     ai_startTime := Some 1699998000000 |}.

Definition incident_feed (url : string) : option (option (list apiIncident)) :=
  Some (Some [tomtom_accident]).

(** An incident reported after the cache was filled. *)
Definition late_report : TrafficIncident.row :=
  {| TrafficIncident.id := "d4"; TrafficIncident.location := "Ngong Road";
     TrafficIncident.coordinates := (36.76, -1.30)%float;
     TrafficIncident.type := "accident"; TrafficIncident.severity := "severe";
     TrafficIncident.description := "Overturned bus blocking two lanes";
     TrafficIncident.estimated_duration := 240;
     TrafficIncident.delay_seconds := 1800;
     TrafficIncident.status := "active"; TrafficIncident.verified := false;
     TrafficIncident.source := "user_report";
     TrafficIncident.external_id := None;
     TrafficIncident.started_at := 1700000000000 |}.


(** A routing service that answers every request, and one that is down. *)
Definition route_body : routeData :=
  RouteObject "{routes:[{summary:{lengthInMeters:14250}}]}".

Definition route_choice : routeData :=
  RouteObject "{routes:[{summary:{lengthInMeters:14250}},{summary:{lengthInMeters:15900}}]}".

Definition route_service (url : string) (alternatives : bool) : option routeData :=
  Some (if alternatives then route_choice else route_body).

Definition route_service_down (url : string) (alternatives : bool) :
    option routeData := None.

(** A routing service whose responses have no body. *)
Definition route_service_mute (url : string) (alternatives : bool) :
    option routeData := Some (RouteText EmptyString).


(** A reading of 12 km/h on a road that flows at 50 km/h, with no level. *)
Definition slow_reading : TrafficDataModel.instance :=
  {| TrafficDataModel.current_speed := Some 12%float;
     TrafficDataModel.free_flow_speed := Some 50%float;
     TrafficDataModel.congestion_level := None |}.


(** The conditions of a Tuesday at ten in the evening, and a history of
    three data points of that hour, two of them severe. *)
Definition tuesday_night : PredictiveWarningSystem.conditions :=
  {| PredictiveWarningSystem.c_timestamp := Scenario.clock;
     PredictiveWarningSystem.c_averageSpeed := 20;
     PredictiveWarningSystem.c_congestionLevel := "severe";
     PredictiveWarningSystem.c_incidentCount := 3;
     PredictiveWarningSystem.c_hour := 22;
     PredictiveWarningSystem.c_dayOfWeek := 2;
     PredictiveWarningSystem.recentTrend := "stable" |}.

Definition calm_sample (t : Z) : PredictiveWarningSystem.dataPoint :=
  {| PredictiveWarningSystem.timestamp := t;
     PredictiveWarningSystem.trafficSegments := [];
     PredictiveWarningSystem.incidentCount := 0;
     PredictiveWarningSystem.incidents := [];
     PredictiveWarningSystem.averageSpeed := 48;
     PredictiveWarningSystem.congestionLevel := "low";
     PredictiveWarningSystem.hour := Scenario.utc_hours t;
     PredictiveWarningSystem.dayOfWeek := Scenario.utc_day t;
     PredictiveWarningSystem.weather := "clear" |}.

Definition tuesday_history : list PredictiveWarningSystem.dataPoint :=
  [calm_sample (Scenario.clock - 600000);
   Scenario.sample (Scenario.clock - 300000);
   Scenario.sample Scenario.clock].


(** The statistics of the traffic manager before the first update. *)
Definition no_statistics : TrafficManager.statistics :=
  {| TrafficManager.averageSpeed := 0;
     TrafficManager.congestionLevel := "unknown";
     TrafficManager.incidentCount := 0;
     TrafficManager.dataAge := 0 |}.

End Cases.

(** * Properties *)

(** ** Comparisons of numbers *)
Module JsFacts.
Import Js.

Lemma SFcompare_antisym (a b : spec_float) :
  SFcompare b a = option_map CompOpp (SFcompare a b).
Proof.
  destruct a as [sa|sa| |sa ma ea], b as [sb|sb| |sb mb eb]; simpl;
    try reflexivity;
    try (destruct sa; reflexivity); try (destruct sb; reflexivity);
    try (destruct sa, sb; reflexivity).
  destruct sa, sb; simpl; try reflexivity;
    rewrite (Z.compare_antisym ea eb); destruct (ea ?= eb)%Z; simpl;
    try reflexivity;
    change (PosDef.Pos.compare_cont Eq mb ma) with (Pos.compare mb ma);
    change (PosDef.Pos.compare_cont Eq ma mb) with (Pos.compare ma mb);
    rewrite (Pos.compare_antisym ma mb); destruct (ma ?= mb)%positive;
    reflexivity.
Qed.

(** On numbers that can be compared, [x > y] is the negation of [x <= y]. *)
Lemma gt_negb_le (x y : num) :
  SFcompare (Prim2SF x) (Prim2SF y) <> None -> gt x y = negb (le x y).
Proof.
  unfold gt, le. rewrite ltb_spec, leb_spec. unfold SFltb, SFleb.
  rewrite (SFcompare_antisym (Prim2SF x) (Prim2SF y)).
  destruct (SFcompare (Prim2SF x) (Prim2SF y)) as [[]|]; simpl; congruence.
Qed.

Lemma gt_comparable (x y : num) :
  gt x y = true -> SFcompare (Prim2SF x) (Prim2SF y) <> None.
Proof.
  unfold gt. rewrite ltb_spec. unfold SFltb.
  rewrite (SFcompare_antisym (Prim2SF x) (Prim2SF y)).
  destruct (SFcompare (Prim2SF x) (Prim2SF y)); simpl; congruence.
Qed.

(** A number that exceeds one threshold is "at most" every threshold it does
    not exceed. *)
Lemma between (r lo hi : num) :
  is_nan hi = false -> gt r lo = true ->
  (gt r hi = false <-> le r hi = true).
Proof.
  intros Hhi Hlo.
  assert (Hr : Prim2SF r <> S754_nan).
  { intros E. apply gt_comparable in Hlo. rewrite E in Hlo. simpl in Hlo.
    congruence. }
  assert (Hh : Prim2SF hi <> S754_nan).
  { intros E. unfold is_nan in Hhi. rewrite FloatAxioms.eqb_spec, E in Hhi.
    discriminate Hhi. }
  rewrite gt_negb_le.
  - destruct (le r hi); simpl; split; congruence.
  - destruct (Prim2SF r), (Prim2SF hi); simpl; congruence.
Qed.

Lemma SFltb_trans (x y z : spec_float) :
  SFltb x y = true -> SFltb y z = true -> SFltb x z = true.
Proof.
  unfold SFltb, SFcompare.
  destruct x as [sx|sx| |sx mx ex], y as [sy|sy| |sy my ey],
           z as [sz|sz| |sz mz ez];
    try destruct sx; try destruct sy; try destruct sz; simpl;
    try congruence;
    change (PosDef.Pos.compare_cont Eq) with Pos.compare;
    repeat match goal with
           | |- context [Z.compare ?a ?b] => destruct (Z.compare_spec a b)
           | |- context [Pos.compare ?a ?b] => destruct (Pos.compare_spec a b)
           end; simpl; try congruence; try lia.
Qed.

(** A number above a threshold is above every smaller threshold. *)
Lemma gt_trans (r hi lo : num) :
  gt r hi = true -> gt hi lo = true -> gt r lo = true.
Proof.
  unfold gt. rewrite !ltb_spec. intros H1 H2.
  exact (SFltb_trans _ _ _ H2 H1).
Qed.



End JsFacts.

(** ** Congestion level *)

Lemma threshold_08 : is_nan 0.8%float = false.
Proof. reflexivity. Qed.
Lemma threshold_05 : is_nan 0.5%float = false.
Proof. reflexivity. Qed.
Lemma gt_08_05 : Js.gt 0.8 0.5 = true.
Proof. reflexivity. Qed.
Lemma gt_05_03 : Js.gt 0.5 0.3 = true.
Proof. reflexivity. Qed.

(** The hook and the service bucket a ratio in the same way. *)
Lemma beforeCreate_level (t : TrafficDataModel.instance) :
  TrafficDataModel.beforeCreate t =
  if negb (present (TrafficDataModel.congestion_level t))
     && TrafficDataModel.num_present (TrafficDataModel.current_speed t)
     && TrafficDataModel.num_present (TrafficDataModel.free_flow_speed t)
  then TrafficDataModel.set_congestion_level
         (calculateTrafficLevel
            (TrafficDataModel.to_number (TrafficDataModel.current_speed t))
            (TrafficDataModel.to_number (TrafficDataModel.free_flow_speed t))) t
  else t.
Proof.
  unfold TrafficDataModel.beforeCreate, calculateTrafficLevel.
  destruct (negb _ && _ && _); [|reflexivity].
  cbv zeta.
  repeat match goal with
         | |- context [Js.gt ?r ?c] => destruct (Js.gt r c)
         end; reflexivity.
Qed.

(** C1: [calculateTrafficLevel] returns 'low' exactly when the ratio
    currentSpeed / freeFlowSpeed is greater than 0.8, 'medium' exactly when
    it is greater than 0.5 and at most 0.8, 'high' exactly when it is
    greater than 0.3 and at most 0.5, and 'severe' in every other case
    (among them a ratio that is not a number); and whenever the
    [beforeCreate] hook of TrafficData computes [congestion_level] (none was
    given and both speeds are present), it is the bucket that
    [calculateTrafficLevel] gives for [current_speed] and
    [free_flow_speed]. *)
Theorem calculateTrafficLevel_buckets :
  forall currentSpeed freeFlowSpeed : Js.num,
    let ratio := (currentSpeed / freeFlowSpeed)%float in
    let level := calculateTrafficLevel currentSpeed freeFlowSpeed in
    (level = "low" <-> Js.gt ratio 0.8 = true)
    /\ (level = "medium" <-> Js.gt ratio 0.5 = true /\ Js.le ratio 0.8 = true)
    /\ (level = "high" <-> Js.gt ratio 0.3 = true /\ Js.le ratio 0.5 = true)
    /\ (level = "severe" <-> Js.gt ratio 0.3 = false)
    /\ level ∈ ["low"; "medium"; "high"; "severe"]%string
    /\ forall t : TrafficDataModel.instance,
         TrafficDataModel.current_speed t = Some currentSpeed ->
         TrafficDataModel.free_flow_speed t = Some freeFlowSpeed ->
         present (TrafficDataModel.congestion_level t) = false ->
         Js.truthy currentSpeed = true ->
         Js.truthy freeFlowSpeed = true ->
         TrafficDataModel.congestion_level (TrafficDataModel.beforeCreate t)
         = Some level.
Proof.
  intros currentSpeed freeFlowSpeed ratio level.
  assert (H85 : Js.gt ratio 0.8 = true -> Js.gt ratio 0.5 = true)
    by (intros H; exact (JsFacts.gt_trans _ _ _ H gt_08_05)).
  assert (H53 : Js.gt ratio 0.5 = true -> Js.gt ratio 0.3 = true)
    by (intros H; exact (JsFacts.gt_trans _ _ _ H gt_05_03)).
  assert (B8 : Js.gt ratio 0.5 = true ->
               (Js.le ratio 0.8 = true -> Js.gt ratio 0.8 = false)
               /\ (Js.gt ratio 0.8 = false -> Js.le ratio 0.8 = true))
    by (intros H; split; apply (JsFacts.between ratio 0.5 0.8 threshold_08 H)).
  assert (B5 : Js.gt ratio 0.3 = true ->
               (Js.le ratio 0.5 = true -> Js.gt ratio 0.5 = false)
               /\ (Js.gt ratio 0.5 = false -> Js.le ratio 0.5 = true))
    by (intros H; split; apply (JsFacts.between ratio 0.3 0.5 threshold_05 H)).
  assert (Hook : forall t : TrafficDataModel.instance,
             TrafficDataModel.current_speed t = Some currentSpeed ->
             TrafficDataModel.free_flow_speed t = Some freeFlowSpeed ->
             present (TrafficDataModel.congestion_level t) = false ->
             Js.truthy currentSpeed = true ->
             Js.truthy freeFlowSpeed = true ->
             TrafficDataModel.congestion_level (TrafficDataModel.beforeCreate t)
             = Some level).
  { intros t Hc Hf Hl Tc Tf. rewrite beforeCreate_level, Hc, Hf, Hl.
    simpl. rewrite Tc, Tf. reflexivity. }
  split; [|split; [|split; [|split; [|split; [|exact Hook]]]]]; clear Hook;
    subst level; unfold calculateTrafficLevel; fold ratio;
    destruct (Js.gt ratio 0.8) eqn:G8;
    destruct (Js.gt ratio 0.5) eqn:G5;
    destruct (Js.gt ratio 0.3) eqn:G3;
    try (specialize (H85 eq_refl); discriminate H85);
    try (specialize (H53 eq_refl); discriminate H53);
    try (apply list_elem_of_In; simpl; tauto);
    intuition (try discriminate; try congruence).
Qed.


(** C1 at work: 20 km/h where 50 km/h flows freely is 'high', in the service
    and in the hook. *)
Lemma calculateTrafficLevel_buckets_witness :
  calculateTrafficLevel 20 50 = "high"%string
  /\ TrafficDataModel.congestion_level
       (TrafficDataModel.beforeCreate Scenario.unlabelled_sample)
     = Some (calculateTrafficLevel 20 50).
Proof.
  destruct (calculateTrafficLevel_buckets 20 50) as (_ & _ & Hhigh & _ & _ & Hook).
  split.
  - apply Hhigh. split; reflexivity.
  - apply (Hook Scenario.unlabelled_sample); reflexivity.
Defined.

(** ** The live traffic flow of the service *)

Create HintDb service_ops.
#[global] Hint Unfold TrafficDataService.bind TrafficDataService.ret
  TrafficDataService.throw TrafficDataService.get TrafficDataService.put
  TrafficDataService.try_catch TrafficDataService.log
  TrafficDataService.cache_get TrafficDataService.cache_set
  TrafficDataService.draw TrafficDataService.db_operation
  TrafficDataService.axios_get : service_ops.

(** Runs a computation of the service on the world at hand. *)
Ltac run_service := autounfold with service_ops; simpl.

Section ServiceFacts.
Import TrafficDataService.

Context (tomtom_key : option string)
        (tomtom_flow : string -> option flowSegmentData)
        (db_ok : nat -> bool) (now : Z)
        (uuidv4 : nat -> string) (random : nat -> Js.num).

Local Abbreviation fetch := (fetchTomTomTraffic tomtom_key tomtom_flow now).
Local Abbreviation store := (storeTrafficData db_ok now uuidv4 random).
Local Abbreviation live := (getLiveTrafficData tomtom_key tomtom_flow db_ok now uuidv4 random).
Local Abbreviation records := (traffic_records now uuidv4 random).

(** A fetch touches nothing but the list of requests. *)
Lemma fetch_frame (bounds : string) (w w1 : world) (r : outcome trafficData) :
  fetch bounds w = (r, w1) ->
  cache w1 = cache w /\ traffic_data w1 = traffic_data w
  /\ traffic_incidents w1 = traffic_incidents w
  /\ db_ops w1 = db_ops w /\ draws w1 = draws w /\ journal w1 = journal w.
Proof.
  unfold fetchTomTomTraffic, processTomTomTrafficData. run_service.
  destruct (negb (present tomtom_key)); simpl.
  - intros E. inversion E. subst. tauto.
  - destruct (tomtom_flow (traffic_url bounds)) as [[ | l | ]|]; simpl;
      intros E; inversion E; subst; simpl; tauto.
Qed.

(** A fetch that returns has asked TomTom, with the configured key. *)
Lemma fetch_returns (bounds : string) (w w1 : world) (d : trafficData) :
  fetch bounds w = (Return d, w1) ->
  present tomtom_key = true /\ requests w1 = requests w ++ [traffic_url bounds].
Proof.
  unfold fetchTomTomTraffic, processTomTomTrafficData. run_service.
  destruct (present tomtom_key); simpl.
  - destruct (tomtom_flow (traffic_url bounds)) as [[ | l | ]|]; simpl;
      intros E; inversion E; subst; simpl; auto.
  - intros E. inversion E.
Qed.

(** The store step never throws; it leaves the cache and the requests alone,
    appends the records of the segments when the insert is accepted, and
    writes one line to the journal: what it stored, or the error. *)
Lemma store_spec (d : trafficData) (w : world) :
  exists w', store d w = (Return tt, w')
    /\ cache w' = cache w /\ requests w' = requests w
    /\ traffic_incidents w' = traffic_incidents w
    /\ traffic_data w' =
         match segments_of d with
         | Some segs =>
             if db_ok (db_ops w)
             then traffic_data w ++ records (draws w) segs
             else traffic_data w
         | None => traffic_data w
         end
    /\ match segments_of d with
       | Some segs =>
           if db_ok (db_ops w)
           then journal w' = journal w ++ [LogDebug "Traffic data stored" (length segs)]
           else exists e,
                  journal w' = journal w ++ [LogError "Error storing traffic data" e]
       | None => journal w' = journal w
       end.
Proof.
  unfold storeTrafficData, bulkCreate_traffic. run_service.
  destruct (segments_of d) as [segs|]; simpl.
  - destruct (db_ok (db_ops w)); simpl; eexists; repeat split;
      try reflexivity.
    + unfold traffic_records. rewrite length_imap. reflexivity.
    + eexists. reflexivity.
  - eexists; repeat split; reflexivity.
Qed.

(** An entry that is there and truthy is a hit, and no entry is a miss. *)
Lemma hit_entry (cached : option value) (v : value) :
  cached = Some v -> truthy v = true -> hit cached = Some v.
Proof. intros -> H. simpl. rewrite H. reflexivity. Qed.

Lemma hit_none (cached : option value) : cached = None -> hit cached = None.
Proof. intros ->. reflexivity. Qed.

(** On a hit the cached value is returned, and only the journal changes. *)
Lemma live_hit (bounds : option string) (w : world) (v : value) :
  hit (cache w !! live_cache_key bounds) = Some v ->
  live bounds w =
  (Return v,
   {| cache := cache w; traffic_data := traffic_data w;
      traffic_incidents := traffic_incidents w; requests := requests w;
      journal := journal w ++ [CacheOperation "get" (live_cache_key bounds) true];
      db_ops := db_ops w; draws := draws w |}).
Proof.
  intros H. unfold getLiveTrafficData. run_service. rewrite H. reflexivity.
Qed.

(** On a miss with a successful fetch, the result is cached, handed to the
    store step and returned. *)
Lemma live_missed_fetched (bounds : option string) (w w1 : world)
    (d : trafficData) :
  hit (cache w !! live_cache_key bounds) = None ->
  fetch (str_or bounds getNairobiBounds) w = (Return d, w1) ->
  exists w',
    live bounds w = (Return (VTraffic d), w')
    /\ cache w' = <[live_cache_key bounds := VTraffic d]> (cache w)
    /\ requests w' = requests w ++ [traffic_url (str_or bounds getNairobiBounds)]
    /\ traffic_data w' =
         match segments_of d with
         | Some segs =>
             if db_ok (db_ops w)
             then traffic_data w ++ records (draws w) segs
             else traffic_data w
         | None => traffic_data w
         end
    /\ match segments_of d with
       | Some segs =>
           if db_ok (db_ops w)
           then journal w' = journal w
                             ++ [ExternalApiCall "tomtom" "traffic" true;
                                 LogDebug "Traffic data stored" (length segs)]
           else exists e,
                  journal w' = journal w
                               ++ [ExternalApiCall "tomtom" "traffic" true;
                                   LogError "Error storing traffic data" e]
       | None => journal w' = journal w ++ [ExternalApiCall "tomtom" "traffic" true]
       end.
Proof.
  intros Hmiss Hfetch.
  destruct (fetch_frame _ _ _ _ Hfetch) as (Fc & Ft & Fi & Fo & Fd & Fj).
  destruct (fetch_returns _ _ _ _ Hfetch) as (_ & Fr).
  set (w2 := {| cache := <[live_cache_key bounds := VTraffic d]> (cache w1);
                traffic_data := traffic_data w1;
                traffic_incidents := traffic_incidents w1;
                requests := requests w1;
                journal := journal w1 ++ [ExternalApiCall "tomtom" "traffic" true];
                db_ops := db_ops w1; draws := draws w1 |}).
  destruct (store_spec d w2) as (w' & Hs & Sc & Sr & Si & St & Sj).
  exists w'. split.
  - unfold getLiveTrafficData, cache_get, try_catch, bind, get, ret.
    simpl. rewrite Hmiss; cbn [hit]. unfold bind. rewrite Hfetch.
    unfold cache_set, log, bind, get, put, ret. simpl.
    fold w2. unfold bind in Hs. rewrite Hs. reflexivity.
  - rewrite Sc, Sr, St. subst w2. simpl in *. rewrite Fc, Fr, Ft, Fo, Fd.
    repeat split; try reflexivity.
    rewrite Fo, Fj in Sj.
    destruct (segments_of d) as [segs|].
    + destruct (db_ok (db_ops w)).
      * rewrite Sj, <- app_assoc. reflexivity.
      * destruct Sj as (e & Sj). exists e. rewrite Sj, <- app_assoc. reflexivity.
    + exact Sj.
Qed.

Lemma live_miss_fetched (bounds : option string) (w w1 : world) (d : trafficData) :
  cache w !! live_cache_key bounds = None ->
  fetch (str_or bounds getNairobiBounds) w = (Return d, w1) ->
  exists w',
    live bounds w = (Return (VTraffic d), w')
    /\ cache w' = <[live_cache_key bounds := VTraffic d]> (cache w)
    /\ requests w' = requests w ++ [traffic_url (str_or bounds getNairobiBounds)]
    /\ traffic_data w' =
         match segments_of d with
         | Some segs =>
             if db_ok (db_ops w)
             then traffic_data w ++ records (draws w) segs
             else traffic_data w
         | None => traffic_data w
         end.
Proof.
  intros Hmiss Hfetch.
  destruct (live_missed_fetched bounds w w1 d (hit_none _ Hmiss) Hfetch)
    as (w' & H1 & H2 & H3 & H4 & _).
  exists w'. auto.
Qed.

(** On a miss with a failed fetch, the fallback object is returned. *)
Lemma live_missed_failed (bounds : option string) (w w1 : world) (e : string) :
  hit (cache w !! live_cache_key bounds) = None ->
  fetch (str_or bounds getNairobiBounds) w = (Throw e, w1) ->
  exists w',
    live bounds w = (Return (VTraffic (getFallbackTrafficData now)), w')
    /\ cache w' = cache w /\ traffic_data w' = traffic_data w.
Proof.
  intros Hmiss Hfetch.
  destruct (fetch_frame _ _ _ _ Hfetch) as (Fc & Ft & Fi & Fo & Fd & Fj).
  eexists. split.
  - unfold getLiveTrafficData, cache_get, try_catch, bind, get, ret.
    simpl. rewrite Hmiss; cbn [hit]. unfold bind. rewrite Hfetch.
    unfold log, bind, get, put, ret. simpl. reflexivity.
  - simpl. auto.
Qed.

Lemma live_miss_failed (bounds : option string) (w w1 : world) (e : string) :
  cache w !! live_cache_key bounds = None ->
  fetch (str_or bounds getNairobiBounds) w = (Throw e, w1) ->
  exists w',
    live bounds w = (Return (VTraffic (getFallbackTrafficData now)), w')
    /\ cache w' = cache w /\ traffic_data w' = traffic_data w.
Proof.
  intros Hmiss. apply live_missed_failed, hit_none, Hmiss.
Qed.

(** A call of [getLiveTrafficData] returns, whatever the world. *)
Lemma live_call_returns (bounds : option string) (w : world) :
  exists (v : value) (w' : world), live bounds w = (Return v, w').
Proof.
  destruct (hit (cache w !! live_cache_key bounds)) as [v|] eqn:Hc.
  - eexists _, _. apply live_hit. exact Hc.
  - destruct (fetch (str_or bounds getNairobiBounds) w) as [[d|e] w1] eqn:Hf.
    + destruct (live_missed_fetched _ _ _ _ Hc Hf) as (w' & H & _).
      eexists _, _. exact H.
    + destruct (live_missed_failed _ _ _ _ Hc Hf) as (w' & H & _).
      eexists _, _. exact H.
Qed.

(** What the fetch does, by what TomTom is and answers: it throws without a
    key, for a request that fails, and for a response whose
    [flowSegmentData] is there and is not an array; it returns the empty
    array for a response without [flowSegmentData], and an object with one
    segment for each flow segment otherwise. *)
Lemma fetch_outcome (bounds : string) (w : world) :
  match present tomtom_key, tomtom_flow (traffic_url bounds) with
  | false, _ | true, None | true, Some FlowNotArray =>
      exists e w1, fetch bounds w = (Throw e, w1)
  | true, Some FlowMissing =>
      exists w1, fetch bounds w = (Return EmptyArray, w1)
  | true, Some (FlowSegments l) =>
      exists segs w1,
        fetch bounds w = (Return (TrafficObject now "tomtom" None segs), w1)
        /\ map currentSpeed segs = map fs_currentSpeed l
        /\ map freeFlowSpeed segs = map fs_freeFlowSpeed l
  end.
Proof.
  unfold fetchTomTomTraffic, processTomTomTrafficData. run_service.
  destruct (present tomtom_key); simpl; [|eexists _, _; reflexivity].
  destruct (tomtom_flow (traffic_url bounds)) as [[ | l | ]|]; simpl.
  - eexists. reflexivity.
  - eexists _, _. split; [reflexivity|]. rewrite !map_map. split; reflexivity.
  - eexists _, _. reflexivity.
  - eexists _, _. reflexivity.
Qed.

(** The records of the segments store them. *)
Lemma records_store (k : nat) (segs : list segment) :
  Forall2 (Spec.stores now) segs (records k segs).
Proof.
  unfold traffic_records. revert k.
  induction segs as [|s segs IH]; intros k; [constructor|].
  cbn [imap]. constructor.
  - unfold Spec.stores, Spec.number_or, Spec.text_or, Spec.unset,
      traffic_record, Js.or_else, Js.truthy. cbn.
    repeat split;
      try (intros H; rewrite H; reflexivity);
      try (destruct (trafficLevel s); reflexivity);
      try (destruct (roadCategory s) as [[|]|]; reflexivity);
      try (destruct (location s) as [[|]|]; reflexivity);
      try (destruct (weatherCondition s) as [[|]|]; reflexivity).
    + intros count Hc Hu. rewrite Hc. unfold num_or, Js.or_else, Js.truthy.
      change (is_zero count || is_nan count = false) in Hu.
      rewrite Hu. reflexivity.
    + intros point Hp. destruct (coordinates s); [discriminate|].
      inversion Hp. reflexivity.
  - rewrite (imap_ext _ (fun i s => traffic_record now uuidv4 random (S k + i) s)).
    + apply IH.
    + intros i x _. simpl. f_equal. lia.
Qed.

(** C2 (as amended): when the cache holds a truthy entry under the computed
    key, [getLiveTrafficData] returns that value unchanged, asks nothing of
    TomTom and leaves the database as it was.  When the cache misses and
    the TomTom fetch returns a result, the result is written to the cache
    under that key and returned.  When the result has a segments array and
    the bulk insert is accepted, one row for each segment, which stores it,
    is appended to [traffic_data], and the store step logs how many it
    stored; when the insert is refused the store step logs the error and
    the table is left as it was; a result without a segments array is not
    stored. *)
Theorem getLiveTrafficData_cache_aside (bounds : option string) (w : world) :
  (forall v : value,
     cache w !! live_cache_key bounds = Some v ->
     truthy v = true ->
     exists w',
       live bounds w = (Return v, w')
       /\ cache w' = cache w /\ requests w' = requests w
       /\ traffic_data w' = traffic_data w
       /\ traffic_incidents w' = traffic_incidents w
       /\ db_ops w' = db_ops w)
  /\ (forall (d : trafficData) (w1 : world),
        hit (cache w !! live_cache_key bounds) = None ->
        fetch (str_or bounds getNairobiBounds) w = (Return d, w1) ->
        exists w',
          live bounds w = (Return (VTraffic d), w')
          /\ cache w' = <[live_cache_key bounds := VTraffic d]> (cache w)
          /\ requests w' =
               requests w ++ [traffic_url (str_or bounds getNairobiBounds)]
          /\ match segments_of d with
             | Some segs =>
                 if db_ok (db_ops w)
                 then
                   traffic_data w' = traffic_data w ++ records (draws w) segs
                   /\ Forall2 (Spec.stores now) segs (records (draws w) segs)
                   /\ journal w'
                      = journal w
                        ++ [ExternalApiCall "tomtom" "traffic" true;
                            LogDebug "Traffic data stored" (length segs)]
                 else
                   traffic_data w' = traffic_data w
                   /\ exists e,
                        journal w'
                        = journal w
                          ++ [ExternalApiCall "tomtom" "traffic" true;
                              LogError "Error storing traffic data" e]
             | None => traffic_data w' = traffic_data w
             end).
Proof.
  split.
  - intros v Hentry Htruthy. eexists.
    split; [apply live_hit, (hit_entry _ _ Hentry Htruthy)|].
    simpl. auto.
  - intros d w1 Hmiss Hfetch.
    destruct (live_missed_fetched _ _ _ _ Hmiss Hfetch)
      as (w' & H & C & R & T & J).
    exists w'. split; [exact H|]. split; [exact C|]. split; [exact R|].
    destruct (segments_of d) as [segs|]; [|exact T].
    destruct (db_ok (db_ops w)).
    + split; [exact T|]. split; [apply records_store|exact J].
    + split; [exact T|exact J].
Qed.

(** C3 (as amended): [getLiveTrafficData] never propagates an error.  When
    the cache misses and the fetch fails, because no TomTom key is
    configured, the request fails, or the response carries a
    [flowSegmentData] that is not an array, it returns the fallback object,
    whose source is 'fallback' and whose segments list is empty, and caches
    and stores nothing.  A response without [flowSegmentData] is no failure:
    the empty array is cached and returned.  When the fetch succeeds and
    the insert is refused, the error stays inside the store step, which
    logs it: the fetched result, already cached, is returned and the table
    is left as it was. *)
Theorem getLiveTrafficData_fallback (bounds : option string) (w : world) :
  (exists (v : value) (w' : world), live bounds w = (Return v, w'))
  /\ (hit (cache w !! live_cache_key bounds) = None ->
      present tomtom_key = false
      \/ tomtom_flow (traffic_url (str_or bounds getNairobiBounds)) = None
      \/ tomtom_flow (traffic_url (str_or bounds getNairobiBounds))
         = Some FlowNotArray ->
      exists (d : trafficData) (w' : world),
        live bounds w = (Return (VTraffic d), w')
        /\ source_of d = Some "fallback"%string
        /\ segments_of d = Some []
        /\ cache w' = cache w /\ traffic_data w' = traffic_data w)
  /\ (hit (cache w !! live_cache_key bounds) = None ->
      present tomtom_key = true ->
      tomtom_flow (traffic_url (str_or bounds getNairobiBounds))
      = Some FlowMissing ->
      exists w' : world,
        live bounds w = (Return (VTraffic EmptyArray), w')
        /\ cache w' !! live_cache_key bounds = Some (VTraffic EmptyArray)
        /\ traffic_data w' = traffic_data w)
  /\ (forall l : list flowSegment,
        hit (cache w !! live_cache_key bounds) = None ->
        present tomtom_key = true ->
        tomtom_flow (traffic_url (str_or bounds getNairobiBounds))
        = Some (FlowSegments l) ->
        db_ok (db_ops w) = false ->
        exists (segs : list segment) (w' : world) (e : string),
          live bounds w
          = (Return (VTraffic (TrafficObject now "tomtom" None segs)), w')
          /\ map currentSpeed segs = map fs_currentSpeed l
          /\ cache w' !! live_cache_key bounds
             = Some (VTraffic (TrafficObject now "tomtom" None segs))
          /\ traffic_data w' = traffic_data w
          /\ journal w'
             = journal w ++ [ExternalApiCall "tomtom" "traffic" true;
                             LogError "Error storing traffic data" e]).
Proof.
  pose proof (fetch_outcome (str_or bounds getNairobiBounds) w) as Hout.
  split; [apply live_call_returns|]. split; [|split].
  - intros Hmiss Hcause.
    assert (Hthrow : exists e w1,
               fetch (str_or bounds getNairobiBounds) w = (Throw e, w1)).
    { destruct (present tomtom_key); [|exact Hout].
      destruct Hcause as [Hk|[Hf|Hf]]; [discriminate| |];
        rewrite Hf in Hout; exact Hout. }
    destruct Hthrow as (e & w1 & Hf).
    destruct (live_missed_failed _ _ _ _ Hmiss Hf) as (w' & H & C & T).
    exists (getFallbackTrafficData now), w'. repeat split; assumption.
  - intros Hmiss Hkey Hflow. rewrite Hkey, Hflow in Hout.
    destruct Hout as (w1 & Hf).
    destruct (live_missed_fetched _ _ _ _ Hmiss Hf) as (w' & H & C & _ & T & _).
    exists w'. split; [exact H|]. split; [|exact T].
    rewrite C. apply lookup_insert_eq.
  - intros l Hmiss Hkey Hflow Hdb. rewrite Hkey, Hflow in Hout.
    destruct Hout as (segs & w1 & Hf & Hspeeds & _).
    destruct (live_missed_fetched _ _ _ _ Hmiss Hf) as (w' & H & C & _ & T & J).
    cbn [segments_of] in T, J. rewrite Hdb in T, J.
    destruct J as (e & J).
    exists segs, w', e. split; [exact H|]. split; [exact Hspeeds|].
    split; [rewrite C; apply lookup_insert_eq|]. split; [exact T|exact J].
Qed.

End ServiceFacts.

(** ** The live traffic flow on concrete inputs *)

(** C2, as stated, fails when the store refuses the insert: the cache
    misses, the result fetched from TomTom is cached and returned, and
    [traffic_data] is still empty. *)
Lemma live_result_not_stored :
  TrafficDataService.cache Scenario.empty_world
    !! TrafficDataService.live_cache_key None = None
  /\ fst (TrafficDataService.getLiveTrafficData Scenario.api_key
            Scenario.tomtom_answers Scenario.db_down Scenario.clock
            Scenario.uuid Scenario.halves None Scenario.empty_world)
     = TrafficDataService.Return (TrafficDataService.VTraffic Scenario.uhuru_data)
  /\ TrafficDataService.cache
       (snd (TrafficDataService.getLiveTrafficData Scenario.api_key
               Scenario.tomtom_answers Scenario.db_down Scenario.clock
               Scenario.uuid Scenario.halves None Scenario.empty_world))
       !! TrafficDataService.live_cache_key None
     = Some (TrafficDataService.VTraffic Scenario.uhuru_data)
  /\ TrafficDataService.traffic_data
       (snd (TrafficDataService.getLiveTrafficData Scenario.api_key
               Scenario.tomtom_answers Scenario.db_down Scenario.clock
               Scenario.uuid Scenario.halves None Scenario.empty_world))
     = [].
Proof. repeat split; vm_compute; reflexivity. Qed.

(** The amended C2 at work: a hit on the warm cache, and a miss on the empty
    one with TomTom answering and the store accepting the insert. *)
Lemma getLiveTrafficData_cache_aside_witness :
  (exists w',
     TrafficDataService.getLiveTrafficData Scenario.api_key
       Scenario.tomtom_answers Scenario.db_up Scenario.clock
       Scenario.uuid Scenario.halves None Scenario.warm_world
     = (TrafficDataService.Return (TrafficDataService.VTraffic Scenario.uhuru_data), w')
     /\ TrafficDataService.cache w' = TrafficDataService.cache Scenario.warm_world
     /\ TrafficDataService.requests w' = []
     /\ TrafficDataService.traffic_data w' = []
     /\ TrafficDataService.traffic_incidents w' = []
     /\ TrafficDataService.db_ops w' = 0%nat)
  /\ (exists w',
        TrafficDataService.getLiveTrafficData Scenario.api_key
          Scenario.tomtom_answers Scenario.db_up Scenario.clock
          Scenario.uuid Scenario.halves None Scenario.empty_world
        = (TrafficDataService.Return (TrafficDataService.VTraffic Scenario.uhuru_data), w')
        /\ TrafficDataService.cache w'
           = <[TrafficDataService.live_cache_key None
               := TrafficDataService.VTraffic Scenario.uhuru_data]> ∅
        /\ TrafficDataService.requests w'
           = [TrafficDataService.traffic_url TrafficDataService.getNairobiBounds]
        /\ TrafficDataService.traffic_data w'
           = TrafficDataService.traffic_records Scenario.clock Scenario.uuid
               Scenario.halves 0 [Scenario.uhuru_segment]
        /\ Forall2 (Spec.stores Scenario.clock) [Scenario.uhuru_segment]
             (TrafficDataService.traffic_records Scenario.clock Scenario.uuid
                Scenario.halves 0 [Scenario.uhuru_segment])
        /\ TrafficDataService.journal w'
           = [TrafficDataService.ExternalApiCall "tomtom" "traffic" true;
              TrafficDataService.LogDebug "Traffic data stored" 1]).
Proof.
  split.
  - apply (proj1 (getLiveTrafficData_cache_aside Scenario.api_key
                    Scenario.tomtom_answers Scenario.db_up Scenario.clock
                    Scenario.uuid Scenario.halves None Scenario.warm_world)
             (TrafficDataService.VTraffic Scenario.uhuru_data)).
    + vm_compute. reflexivity.
    + reflexivity.
  - eapply (proj2 (getLiveTrafficData_cache_aside Scenario.api_key
                     Scenario.tomtom_answers Scenario.db_up Scenario.clock
                     Scenario.uuid Scenario.halves None Scenario.empty_world)
              Scenario.uhuru_data).
    + vm_compute. reflexivity.
    + vm_compute. reflexivity.
Defined.

(** C3, as stated, fails when the store step fails: the insert is refused
    and the error is logged by the store step, yet the value returned is the
    data fetched from TomTom, not the fallback object. *)
Lemma store_failure_returns_data :
  In (TrafficDataService.LogError "Error storing traffic data" "database error")
     (TrafficDataService.journal
        (snd (TrafficDataService.getLiveTrafficData Scenario.api_key
                Scenario.tomtom_answers Scenario.db_down Scenario.clock
                Scenario.uuid Scenario.halves Scenario.cbd_bounds
                Scenario.empty_world)))
  /\ fst (TrafficDataService.getLiveTrafficData Scenario.api_key
            Scenario.tomtom_answers Scenario.db_down Scenario.clock
            Scenario.uuid Scenario.halves Scenario.cbd_bounds
            Scenario.empty_world)
     = TrafficDataService.Return (TrafficDataService.VTraffic Scenario.uhuru_data)
  /\ source_of Scenario.uhuru_data = Some "tomtom"%string
  /\ segments_of Scenario.uhuru_data = Some [Scenario.uhuru_segment]
  /\ Scenario.uhuru_data <> TrafficDataService.getFallbackTrafficData Scenario.clock.
Proof.
  split; [vm_compute; tauto|].
  split; [vm_compute; reflexivity|].
  split; [reflexivity|]. split; [reflexivity|].
  intros E. discriminate E.
Qed.

(** The amended C3 at work: with TomTom unreachable the fallback object is
    returned, and with the store refusing the insert the fetched data is. *)
Lemma getLiveTrafficData_fallback_witness :
  (exists d w',
     TrafficDataService.getLiveTrafficData Scenario.api_key
       Scenario.tomtom_unreachable Scenario.db_up Scenario.clock
       Scenario.uuid Scenario.halves Scenario.cbd_bounds Scenario.empty_world
     = (TrafficDataService.Return (TrafficDataService.VTraffic d), w')
     /\ source_of d = Some "fallback"%string
     /\ segments_of d = Some []
     /\ TrafficDataService.cache w' = ∅
     /\ TrafficDataService.traffic_data w' = [])
  /\ (exists segs w' e,
        TrafficDataService.getLiveTrafficData Scenario.api_key
          Scenario.tomtom_answers Scenario.db_down Scenario.clock
          Scenario.uuid Scenario.halves Scenario.cbd_bounds Scenario.empty_world
        = (TrafficDataService.Return
             (TrafficDataService.VTraffic
                (TrafficObject Scenario.clock "tomtom" None segs)), w')
        /\ map currentSpeed segs
           = map TrafficDataService.fs_currentSpeed [Scenario.uhuru]
        /\ TrafficDataService.cache w'
             !! TrafficDataService.live_cache_key Scenario.cbd_bounds
           = Some (TrafficDataService.VTraffic
                     (TrafficObject Scenario.clock "tomtom" None segs))
        /\ TrafficDataService.traffic_data w' = []
        /\ TrafficDataService.journal w'
           = [TrafficDataService.ExternalApiCall "tomtom" "traffic" true;
              TrafficDataService.LogError "Error storing traffic data" e]).
Proof.
  split.
  - apply (proj1 (proj2 (getLiveTrafficData_fallback Scenario.api_key
                           Scenario.tomtom_unreachable Scenario.db_up
                           Scenario.clock Scenario.uuid Scenario.halves
                           Scenario.cbd_bounds Scenario.empty_world))).
    + vm_compute. reflexivity.
    + right. left. reflexivity.
  - apply (proj2 (proj2 (proj2 (getLiveTrafficData_fallback Scenario.api_key
                                  Scenario.tomtom_answers Scenario.db_down
                                  Scenario.clock Scenario.uuid Scenario.halves
                                  Scenario.cbd_bounds Scenario.empty_world)))
             [Scenario.uhuru]).
    + vm_compute. reflexivity.
    + reflexivity.
    + reflexivity.
    + reflexivity.
Defined.

(** ** Active incidents *)
Module IncidentFacts.
Import TrafficIncident.

#[global] Instance before_total ord : Total (before ord).
Proof.
  intros a b. unfold before. induction ord as [|[c d] rest IH]; simpl.
  - left. reflexivity.
  - rewrite (Z.eqb_sym (sort_key c b) (sort_key c a)).
    destruct (Z.eqb_spec (sort_key c a) (sort_key c b)) as [E|N].
    + exact IH.
    + destruct d; rewrite !Z.ltb_lt; lia.
Qed.

#[global] Instance before_trans ord : Transitive (before ord).
Proof.
  intros a b c. unfold before. induction ord as [|[k d] rest IH]; simpl.
  - reflexivity.
  - destruct (Z.eqb_spec (sort_key k a) (sort_key k b)) as [E1|N1];
      destruct (Z.eqb_spec (sort_key k b) (sort_key k c)) as [E2|N2];
      destruct (Z.eqb_spec (sort_key k a) (sort_key k c)) as [E3|N3];
      try lia; try exact IH;
      destruct d; rewrite ?Z.ltb_lt; intros; try lia; try congruence.
Qed.

Lemma before_default (a b : row) :
  before [(Severity, DESC); (StartedAt, DESC)] a b <-> Spec.by_severity_then_start a b.
Proof.
  unfold before, Spec.by_severity_then_start. cbn [precedes].
  change (sort_key StartedAt a) with (started_at a).
  change (sort_key StartedAt b) with (started_at b).
  destruct (Z.eqb_spec (sort_key Severity a) (sort_key Severity b)) as [E|N].
  - destruct (Z.eqb_spec (started_at a) (started_at b)) as [E'|N'].
    + split; [intros _; right; lia|reflexivity].
    + rewrite Z.ltb_lt. lia.
  - rewrite Z.ltb_lt. lia.
Qed.

Lemma StronglySorted_impl {A} (R S : relation A) (l : list A) :
  (forall a b, R a b -> S a b) -> StronglySorted R l -> StronglySorted S l.
Proof.
  intros HRS. induction 1 as [|x l Hl IH Hx]; constructor; [exact IH|].
  eapply Forall_impl; [exact Hx|]. intros y. apply HRS.
Qed.

Lemma StronglySorted_take {A} (R : relation A) (n : nat) (l : list A) :
  StronglySorted R l -> StronglySorted R (take n l).
Proof.
  intros H. rewrite <- (take_drop n l) in H.
  exact (StronglySorted_app_1_l R _ _ H).
Qed.

Lemma StronglySorted_map {A B} (R : relation A) (f : B -> A) (l : list B) :
  StronglySorted R (map f l) -> StronglySorted (fun x y => R (f x) (f y)) l.
Proof.
  induction l as [|x l IH]; simpl; intros H; [constructor|].
  apply StronglySorted_inv in H as [Hl Hx].
  constructor; [exact (IH Hl)|].
  apply Forall_forall. intros y Hy.
  rewrite Forall_forall in Hx. apply Hx.
  clear -Hy. induction Hy; simpl; constructor; assumption.
Qed.

(** The rows [findAll] returns are rows of the table that satisfy the
    [where] clause. *)
Lemma findAll_elem (table : list row) (o : options) (i : row) :
  i ∈ findAll table o ->
  i ∈ table /\ match where_ o with
               | Some w => satisfies w i = true
               | None => True
               end.
Proof.
  unfold findAll, take_limit. intros H.
  assert (H1 : i ∈ match order o with
                   | Some ord =>
                       merge_sort (before ord)
                         match where_ o with
                         | Some w => filter (fun i => satisfies w i = true) table
                         | None => table
                         end
                   | None =>
                       match where_ o with
                       | Some w => filter (fun i => satisfies w i = true) table
                       | None => table
                       end
                   end).
  { destruct (limit o); [eapply subseteq_take; exact H|exact H]. }
  assert (H2 : i ∈ match where_ o with
                   | Some w => filter (fun i => satisfies w i = true) table
                   | None => table
                   end).
  { destruct (order o); [|exact H1].
    rewrite merge_sort_Permutation in H1. exact H1. }
  destruct (where_ o); [|tauto].
  apply list_elem_of_filter in H2. tauto.
Qed.

(** With an [order] the rows come out sorted by it. *)
Lemma findAll_sorted (table : list row) (o : options) ord :
  order o = Some ord -> StronglySorted (before ord) (findAll table o).
Proof.
  unfold findAll, take_limit. intros ->.
  destruct (limit o); [apply StronglySorted_take|];
    apply StronglySorted_merge_sort; apply _.
Qed.

Lemma findAll_length (table : list row) (o : options) (n : nat) :
  limit o = Some n -> (length (findAll table o) <= n)%nat.
Proof.
  unfold findAll, take_limit. intros ->. rewrite length_take. lia.
Qed.

(** A row that satisfies the [where] clause is found, whatever the order,
    unless the limit is zero. *)
Lemma findAll_nonempty (table : list row) (o : options) (i : row) (n : nat) :
  i ∈ table ->
  match where_ o with Some w => satisfies w i = true | None => True end ->
  limit o = Some (S n) ->
  findAll table o <> [].
Proof.
  unfold findAll, take_limit. intros Hi Hw ->.
  set (matching := match where_ o with
                   | Some w => filter (fun i => satisfies w i = true) table
                   | None => table
                   end).
  assert (Hm : i ∈ matching).
  { subst matching. destruct (where_ o); [|exact Hi].
    apply list_elem_of_filter. tauto. }
  set (ordered := match order o with
                  | Some ord => merge_sort (before ord) matching
                  | None => matching
                  end).
  assert (Ho : i ∈ ordered).
  { subst ordered. destruct (order o); [|exact Hm].
    rewrite merge_sort_Permutation. exact Hm. }
  destruct ordered as [|x rest]; [inversion Ho|].
  simpl. discriminate.
Qed.

(** *** [findActive] *)

Lemma findActive_active (table : list row) (o : options) (i : row) :
  where_ o = None -> i ∈ findActive table o -> status i = "active"%string.
Proof.
  intros Hw Hi. unfold findActive in Hi. apply findAll_elem in Hi as [_ Hs].
  unfold spread in Hs. rewrite Hw in Hs. simpl in Hs.
  rewrite andb_true_r in Hs. apply String.eqb_eq in Hs. exact Hs.
Qed.

Lemma findActive_sorted (table : list row) (o : options) :
  order o = None \/ order o = Some [(Severity, DESC); (StartedAt, DESC)] ->
  StronglySorted Spec.by_severity_then_start (findActive table o).
Proof.
  intros Ho. unfold findActive.
  apply (StronglySorted_impl (before [(Severity, DESC); (StartedAt, DESC)])).
  - intros a b. apply before_default.
  - apply findAll_sorted. unfold spread. simpl.
    destruct Ho as [-> | ->]; reflexivity.
Qed.

End IncidentFacts.

(** ** Incidents served by the service *)
Section IncidentService.
Import TrafficDataService.

Context (tomtom_key : option string)
        (tomtom_incidents : string -> option (option (list apiIncident)))
        (db_ok : nat -> bool) (now : Z) (uuidv4 : nat -> string).

Local Abbreviation incidents :=
  (getTrafficIncidents tomtom_key tomtom_incidents db_ok now uuidv4).

(** On a miss, with the database answering and holding an active incident,
    the incidents served are the rows of the first query. *)
Lemma incidents_from_database (w : world) (i : TrafficIncident.row) :
  cache w !! "traffic-incidents"%string = None ->
  db_ok (db_ops w) = true ->
  i ∈ traffic_incidents w ->
  TrafficIncident.status i = "active"%string ->
  exists w',
    incidents w =
    (Return (VIncidents
               (map (TrafficIncident.toJSON now)
                    (TrafficIncident.findActive (traffic_incidents w) Spec.first_query))),
     w').
Proof.
  intros Hmiss Hdb Hi Ha.
  assert (Hne : TrafficIncident.findActive (traffic_incidents w) Spec.first_query <> []).
  { unfold TrafficIncident.findActive.
    apply (IncidentFacts.findAll_nonempty _ _ i 49); [exact Hi| |reflexivity].
    simpl. rewrite Ha. reflexivity. }
  unfold getTrafficIncidents, cache_get, try_catch, findActive, db_operation,
    cache_set, bind, get, put, ret.
  simpl. rewrite Hmiss; cbn [hit]. unfold bind. rewrite Hdb. fold Spec.first_query.
  destruct (TrafficIncident.findActive (traffic_incidents w) Spec.first_query)
    as [|r rows] eqn:E; [congruence|].
  simpl. eexists. reflexivity.
Qed.

(** C4 (as amended): every incident returned by [findActive] called with
    options that carry no [where] key has status 'active', so none is
    'resolved' or 'monitoring'; with options that carry no [order] key, or
    the order by severity and start, the results are ordered by severity
    descending, then [started_at] descending.  Hence on a cache miss, when
    the database answers and holds an active incident, [getTrafficIncidents]
    serves active incidents only, in that order, and at most 50 of them. *)
Theorem findActive_serves_active (table : list TrafficIncident.row) :
  (forall (o : TrafficIncident.options) (i : TrafficIncident.row),
     TrafficIncident.where_ o = None ->
     i ∈ TrafficIncident.findActive table o ->
     TrafficIncident.status i = "active"%string)
  /\ (forall o : TrafficIncident.options,
        TrafficIncident.order o = None
        \/ TrafficIncident.order o
           = Some [(TrafficIncident.Severity, TrafficIncident.DESC);
                   (TrafficIncident.StartedAt, TrafficIncident.DESC)] ->
        StronglySorted Spec.by_severity_then_start
          (TrafficIncident.findActive table o))
  /\ (forall (w : world) (i : TrafficIncident.row),
        traffic_incidents w = table ->
        cache w !! "traffic-incidents"%string = None ->
        db_ok (db_ops w) = true ->
        i ∈ table ->
        TrafficIncident.status i = "active"%string ->
        exists (served : list TrafficIncident.json) (w' : world),
          incidents w = (Return (VIncidents served), w')
          /\ Forall (fun j => TrafficIncident.status (TrafficIncident.values j)
                              = "active"%string) served
          /\ StronglySorted
               (fun a b => Spec.by_severity_then_start
                             (TrafficIncident.values a) (TrafficIncident.values b))
               served
          /\ (length served <= 50)%nat).
Proof.
  split; [|split].
  - intros o i. apply IncidentFacts.findActive_active.
  - intros o. apply IncidentFacts.findActive_sorted.
  - intros w i Ht Hmiss Hdb Hi Ha. subst table.
    destruct (incidents_from_database w i Hmiss Hdb Hi Ha) as (w' & H).
    eexists _, w'. split; [exact H|]. split; [|split].
    + apply Forall_forall. intros j Hj.
      apply list_elem_of_fmap in Hj as (r & -> & Hr). simpl.
      exact (IncidentFacts.findActive_active _ Spec.first_query _ eq_refl Hr).
    + apply (IncidentFacts.StronglySorted_map
               Spec.by_severity_then_start TrafficIncident.values).
      rewrite map_map. simpl. rewrite map_id.
      apply IncidentFacts.findActive_sorted. right. reflexivity.
    + rewrite length_map. unfold TrafficIncident.findActive.
      apply IncidentFacts.findAll_length. reflexivity.
Qed.

End IncidentService.

(** C4, as stated, fails when the caller's options carry a [where] key: it
    replaces the default one, and [findActive] returns a resolved incident. *)
Lemma findActive_where_overridden :
  TrafficIncident.findActive
    [Scenario.closure; Scenario.breakdown; Scenario.pileup]
    Scenario.resolved_only
  = [Scenario.closure]
  /\ TrafficIncident.status Scenario.closure = "resolved"%string
  /\ TrafficIncident.status Scenario.closure <> "active"%string.
Proof.
  split; [vm_compute; reflexivity|].
  split; [reflexivity|]. intros E. discriminate E.
Qed.

(** Without options the resolved incident is left out and the accident,
    the more severe of the two active ones, comes first. *)
Example findActive_defaults :
  TrafficIncident.findActive
    [Scenario.closure; Scenario.breakdown; Scenario.pileup]
    TrafficIncident.no_options
  = [Scenario.pileup; Scenario.breakdown].
Proof. vm_compute. reflexivity. Qed.

(** The amended C4 at work on the three incidents. *)
Lemma findActive_serves_active_witness :
  exists (served : list TrafficIncident.json) (w' : TrafficDataService.world),
    TrafficDataService.getTrafficIncidents Scenario.api_key
      Scenario.no_incident_feed Scenario.db_up Scenario.clock Scenario.uuid
      Scenario.incident_world
    = (TrafficDataService.Return (TrafficDataService.VIncidents served), w')
    /\ Forall (fun j => TrafficIncident.status (TrafficIncident.values j)
                        = "active"%string) served
    /\ StronglySorted
         (fun a b => Spec.by_severity_then_start
                       (TrafficIncident.values a) (TrafficIncident.values b))
         served
    /\ (length served <= 50)%nat.
Proof.
  apply (proj2 (proj2 (findActive_serves_active Scenario.api_key
                         Scenario.no_incident_feed Scenario.db_up
                         Scenario.clock Scenario.uuid
                         [Scenario.closure; Scenario.breakdown; Scenario.pileup]))
           Scenario.incident_world Scenario.pileup).
  - reflexivity.
  - vm_compute. reflexivity.
  - reflexivity.
  - apply list_elem_of_In. simpl. tauto.
  - reflexivity.
Defined.

(** ** Warnings on the traffic flow *)
Module FlowFacts.
Import WarningSystem.

Lemma count_level_map (l : string) (segments : list segment) :
  count_level l (map trafficLevel segments) = Spec.segments_at l segments.
Proof.
  unfold count_level, Spec.segments_at.
  induction segments as [|s rest IH]; [reflexivity|].
  simpl. rewrite !filter_cons.
  destruct (decide (trafficLevel s = l)); simpl; rewrite IH; reflexivity.
Qed.

Lemma filter_length_pos {A} (P : A -> Prop) `{forall x, Decision (P x)}
    (l : list A) :
  (0 < length (filter P l))%nat <-> exists x, x ∈ l /\ P x.
Proof.
  split.
  - destruct (filter P l) as [|x rest] eqn:E; simpl; [lia|]. intros _.
    assert (Hx : x ∈ filter P l) by (rewrite E; constructor).
    apply list_elem_of_filter in Hx. exists x. tauto.
  - intros (x & Hx & HP).
    assert (Hf : x ∈ filter P l) by (apply list_elem_of_filter; tauto).
    destruct (filter P l); [inversion Hf|simpl; lia].
Qed.

(** The sum the code computes is the speeds added up, one after another. *)
Lemma sum_added_up (so_far : Js.num) (segments : list segment) :
  fold_left PrimFloat.add (map currentSpeed segments) so_far
  = Spec.added_up so_far segments.
Proof.
  revert so_far. induction segments as [|s rest IH]; intros so_far;
    [reflexivity|].
  simpl. apply IH.
Qed.

(** The warnings are the four candidates, each under its own condition, in
    the order of the checks. *)
Lemma analyzeTrafficFlow_shape (now : Z) (segments : list segment) :
  exists w1 w2 w3 w4 : warning,
    (level w1 = CRITICAL /\ title w1 = "Severe Traffic Congestion"%string)
    /\ (level w2 = HIGH /\ title w2 = "High Traffic Volume"%string)
    /\ (level w3 = HIGH /\ title w3 = "Very Low Average Speed"%string)
    /\ (level w4 = CRITICAL /\ title w4 = "Gridlock Risk Detected"%string)
    /\ analyzeTrafficFlow now segments =
       (if (3 <? Spec.segments_at "severe" segments)%nat then [w1] else [])
       ++ (if (5 <? Spec.segments_at "high" segments)%nat then [w2] else [])
       ++ (if Js.lt (Spec.mean_speed segments) 15 then [w3] else [])
       ++ (if (0 <? length (filter (fun s => Js.lt (currentSpeed s) 5 = true)
                                   segments))%nat
           then [w4] else []).
Proof.
  unfold analyzeTrafficFlow, Spec.mean_speed, Js.sum.
  rewrite !count_level_map, length_map, sum_added_up.
  cbv zeta.
  do 4 eexists. split; [|split; [|split; [|split]]];
    [| | | |
     destruct (3 <? _)%nat; destruct (5 <? _)%nat; destruct (Js.lt _ 15);
     destruct (0 <? _)%nat; simpl; reflexivity];
    split; reflexivity.
Qed.

Lemma emits_app (lvl : alertLevel) (ttl : string) (a b : list warning) :
  Spec.emits lvl ttl (a ++ b) <-> Spec.emits lvl ttl a \/ Spec.emits lvl ttl b.
Proof.
  unfold Spec.emits. split.
  - intros (w & Hw & H). apply elem_of_app in Hw as [Hw|Hw]; eauto.
  - intros [(w & Hw & H)|(w & Hw & H)]; exists w; split; try exact H;
      apply elem_of_app; auto.
Qed.

Lemma emits_if (lvl : alertLevel) (ttl : string) (c : bool) (w : warning) :
  Spec.emits lvl ttl (if c then [w] else [])
  <-> c = true /\ level w = lvl /\ title w = ttl.
Proof.
  unfold Spec.emits. destruct c; split.
  - intros (x & Hx & H). apply list_elem_of_singleton in Hx. subst x. tauto.
  - intros (_ & H). exists w. split; [constructor|exact H].
  - intros (x & Hx & _). inversion Hx.
  - intros (H & _). discriminate H.
Qed.

Lemma elem_of_if (c : bool) (w x : warning) :
  x ∈ (if c then [w] else []) -> x = w.
Proof.
  destruct c; intros H; [apply list_elem_of_singleton in H; exact H|inversion H].
Qed.

End FlowFacts.

(** C5: [analyzeTrafficFlow] emits the CRITICAL 'Severe Traffic Congestion'
    warning exactly when more than 3 segments have trafficLevel 'severe',
    the HIGH 'High Traffic Volume' warning exactly when more than 5 segments
    have trafficLevel 'high', the HIGH 'Very Low Average Speed' warning
    exactly when the mean currentSpeed is below 15, and the CRITICAL
    'Gridlock Risk Detected' warning exactly when at least one segment has
    currentSpeed below 5; every warning it produces is one of these four.
    (It holds for the empty list too, where the mean is not a number and
    nothing is emitted.) *)
Theorem analyzeTrafficFlow_warnings (now : Z) (segments : list segment) :
  (Spec.emits WarningSystem.CRITICAL "Severe Traffic Congestion"
     (WarningSystem.analyzeTrafficFlow now segments)
   <-> (3 < Spec.segments_at "severe" segments)%nat)
  /\ (Spec.emits WarningSystem.HIGH "High Traffic Volume"
        (WarningSystem.analyzeTrafficFlow now segments)
      <-> (5 < Spec.segments_at "high" segments)%nat)
  /\ (Spec.emits WarningSystem.HIGH "Very Low Average Speed"
        (WarningSystem.analyzeTrafficFlow now segments)
      <-> Js.lt (Spec.mean_speed segments) 15 = true)
  /\ (Spec.emits WarningSystem.CRITICAL "Gridlock Risk Detected"
        (WarningSystem.analyzeTrafficFlow now segments)
      <-> exists s, s ∈ segments /\ Js.lt (currentSpeed s) 5 = true)
  /\ (forall w, w ∈ WarningSystem.analyzeTrafficFlow now segments ->
        (WarningSystem.level w, WarningSystem.title w)
        ∈ [(WarningSystem.CRITICAL, "Severe Traffic Congestion"%string);
           (WarningSystem.HIGH, "High Traffic Volume"%string);
           (WarningSystem.HIGH, "Very Low Average Speed"%string);
           (WarningSystem.CRITICAL, "Gridlock Risk Detected"%string)]).
Proof.
  destruct (FlowFacts.analyzeTrafficFlow_shape now segments)
    as (w1 & w2 & w3 & w4 & [L1 T1] & [L2 T2] & [L3 T3] & [L4 T4] & ->).
  rewrite <- (FlowFacts.filter_length_pos
                (fun s => Js.lt (currentSpeed s) 5 = true) segments).
  rewrite <- !Nat.ltb_lt.
  rewrite !FlowFacts.emits_app, !FlowFacts.emits_if.
  rewrite L1, T1, L2, T2, L3, T3, L4, T4.
  split; [|split; [|split; [|split]]];
    [intuition (try discriminate; try congruence) ..|].
  intros x Hx.
  repeat (apply elem_of_app in Hx as [Hx|Hx]);
    apply FlowFacts.elem_of_if in Hx; subst x;
    rewrite ?L1, ?T1, ?L2, ?T2, ?L3, ?T3, ?L4, ?T4;
    apply list_elem_of_In; simpl; tauto.
Qed.

(** The mean of the speeds 10, 14 and 24 is 16, and the speeds 10, 14 and
    18, whose mean is 14, bring the 'Very Low Average Speed' warning. *)
Example mean_speed_of_three :
  Spec.mean_speed [Scenario.moving_at 10; Scenario.moving_at 14;
                   Scenario.moving_at 24] = 16%float
  /\ Spec.mean_speed [Scenario.moving_at 10; Scenario.moving_at 14;
                      Scenario.moving_at 18] = 14%float
  /\ map WarningSystem.title
       (WarningSystem.analyzeTrafficFlow Scenario.clock
          [Scenario.moving_at 10; Scenario.moving_at 14; Scenario.moving_at 18])
     = ["Very Low Average Speed"%string]
  /\ WarningSystem.analyzeTrafficFlow Scenario.clock
       [Scenario.moving_at 10; Scenario.moving_at 14; Scenario.moving_at 24]
     = [].
Proof. repeat split; vm_compute; reflexivity. Qed.

(** ** Alerts of the warning system *)
Module WarningFacts.
Import WarningSystem.

Lemma same_alert_refl (w : warning) : same_alert w w = true.
Proof. unfold same_alert. rewrite !String.eqb_refl. reflexivity. Qed.

Lemma push_all (news : list warning) (ws : t) :
  alerts (fold_left
            (fun ws w =>
               triggerWarning w {| alerts := alerts ws ++ [w];
                                   triggered := triggered ws |})
            news ws)
  = alerts ws ++ news.
Proof.
  revert ws. induction news as [|w news IH]; intros ws; simpl.
  - rewrite app_nil_r. reflexivity.
  - rewrite IH. simpl. rewrite <- app_assoc. reflexivity.
Qed.

(** The alerts after a run: the old ones and the unmatched warnings, less
    those that are 30 minutes old or older. *)
Lemma processWarnings_alerts (now : Z) (warnings : list warning) (ws : t) :
  alerts (processWarnings now warnings ws)
  = filter (fun alert => recent now alert = true)
           (alerts ws ++ Spec.unmatched warnings (alerts ws)).
Proof.
  unfold processWarnings, cleanupOldWarnings. simpl.
  rewrite push_all. reflexivity.
Qed.

Lemma filter_all {A} (P : A -> Prop) `{forall x, Decision (P x)} (l : list A) :
  (forall x, x ∈ l -> P x) -> filter P l = l.
Proof.
  induction l as [|x l IH]; intros Hl; [reflexivity|].
  rewrite filter_cons_True by (apply Hl; constructor).
  rewrite IH; [reflexivity|]. intros y Hy. apply Hl. constructor. exact Hy.
Qed.

Lemma filter_none {A} (P : A -> Prop) `{forall x, Decision (P x)} (l : list A) :
  (forall x, x ∈ l -> ~ P x) -> filter P l = [].
Proof.
  induction l as [|x l IH]; intros Hl; [reflexivity|].
  rewrite filter_cons_False by (apply Hl; constructor).
  apply IH. intros y Hy. apply Hl. constructor. exact Hy.
Qed.

Lemma existsb_false_elem (w : warning) (current : list warning) :
  existsb (fun existing => same_alert existing w) current = false <->
  forall a, a ∈ current -> same_alert a w = false.
Proof.
  induction current as [|c rest IH]; simpl.
  - split; [intros _ a Ha; inversion Ha|reflexivity].
  - rewrite orb_false_iff, IH. split.
    + intros [Hc Hr] a Ha. apply elem_of_cons in Ha as [->|Ha]; auto.
    + intros Hall. split; [apply Hall; constructor|].
      intros a Ha. apply Hall. constructor. exact Ha.
Qed.

End WarningFacts.

(** C10 (as amended): [processWarnings] adds a warning to the alerts only if
    no alert present at the start of the run has the same title and
    location.  When the alerts present at the start are all less than 30
    minutes old, running it again at the same clock reading with the same
    warning list leaves the alerts as they were after the first run. *)
Theorem processWarnings_idempotent (now : Z)
    (warnings : list WarningSystem.warning) (ws : WarningSystem.t) :
  (forall w,
     w ∈ WarningSystem.alerts (WarningSystem.processWarnings now warnings ws) ->
     w ∈ WarningSystem.alerts ws
     \/ (w ∈ warnings
         /\ forall a, a ∈ WarningSystem.alerts ws ->
                      WarningSystem.same_alert a w = false))
  /\ ((forall a, a ∈ WarningSystem.alerts ws -> WarningSystem.recent now a = true) ->
      WarningSystem.alerts
        (WarningSystem.processWarnings now warnings
           (WarningSystem.processWarnings now warnings ws))
      = WarningSystem.alerts (WarningSystem.processWarnings now warnings ws)).
Proof.
  split.
  - intros w. rewrite WarningFacts.processWarnings_alerts.
    rewrite list_elem_of_filter, elem_of_app. intros [_ [Hw|Hw]]; [tauto|].
    right. unfold Spec.unmatched in Hw.
    apply list_elem_of_filter in Hw as [Hn Hw].
    split; [exact Hw|]. apply WarningFacts.existsb_false_elem. exact Hn.
  - intros Hfresh.
    rewrite (WarningFacts.processWarnings_alerts now warnings
               (WarningSystem.processWarnings now warnings ws)).
    set (first := WarningSystem.alerts (WarningSystem.processWarnings now warnings ws)).
    assert (Hfirst : first
                     = WarningSystem.alerts ws
                       ++ filter (fun alert => WarningSystem.recent now alert = true)
                                 (Spec.unmatched warnings (WarningSystem.alerts ws))).
    { subst first. rewrite WarningFacts.processWarnings_alerts, filter_app.
      rewrite (WarningFacts.filter_all _ (WarningSystem.alerts ws)) by exact Hfresh.
      reflexivity. }
    rewrite filter_app.
    assert (Hkeep : filter (fun alert => WarningSystem.recent now alert = true) first
                    = first).
    { apply WarningFacts.filter_all. intros x Hx. rewrite Hfirst in Hx.
      apply elem_of_app in Hx as [Hx|Hx]; [exact (Hfresh x Hx)|].
      apply list_elem_of_filter in Hx. tauto. }
    rewrite Hkeep.
    rewrite (WarningFacts.filter_none _ (Spec.unmatched warnings first)).
    + apply app_nil_r.
    + intros w Hw Hrecent. unfold Spec.unmatched in Hw.
      apply list_elem_of_filter in Hw as [Hn Hw].
      rewrite WarningFacts.existsb_false_elem in Hn.
      assert (Hin : w ∈ first).
      { rewrite Hfirst. apply elem_of_app. right.
        apply list_elem_of_filter. split; [exact Hrecent|].
        apply list_elem_of_filter. split; [|exact Hw].
        apply WarningFacts.existsb_false_elem. intros a Ha. apply Hn.
        rewrite Hfirst. apply elem_of_app. left. exact Ha. }
      specialize (Hn w Hin). rewrite WarningFacts.same_alert_refl in Hn.
      discriminate Hn.
Qed.

(** C10, as stated, fails when an alert that is due for removal matches a
    fresh warning: the first run adds nothing and removes the old alert, and
    the second run, at the same clock reading, adds the warning. *)
Lemma processWarnings_twice_differs :
  WarningSystem.alerts
    (WarningSystem.processWarnings Scenario.clock [Scenario.fresh_warning]
       Scenario.stale_system)
  = []
  /\ WarningSystem.alerts
       (WarningSystem.processWarnings Scenario.clock [Scenario.fresh_warning]
          (WarningSystem.processWarnings Scenario.clock [Scenario.fresh_warning]
             Scenario.stale_system))
     = [Scenario.fresh_warning].
Proof. split; vm_compute; reflexivity. Qed.

(** The amended C10 at work, from a system that holds one fresh alert. *)
Lemma processWarnings_idempotent_witness :
  WarningSystem.alerts
    (WarningSystem.processWarnings Scenario.clock
       [Scenario.stale_alert; Scenario.gridlock_warning]
       (WarningSystem.processWarnings Scenario.clock
          [Scenario.stale_alert; Scenario.gridlock_warning]
          Scenario.alert_system))
  = WarningSystem.alerts
      (WarningSystem.processWarnings Scenario.clock
         [Scenario.stale_alert; Scenario.gridlock_warning]
         Scenario.alert_system).
Proof.
  apply (proj2 (processWarnings_idempotent Scenario.clock
                  [Scenario.stale_alert; Scenario.gridlock_warning]
                  Scenario.alert_system)).
  intros a Ha. apply list_elem_of_singleton in Ha. subst a.
  vm_compute. reflexivity.
Defined.

(** Two warnings of one list under the same title and location are both
    added: each is compared with the alerts as they were at the start. *)
Example processWarnings_same_list_twice :
  WarningSystem.alerts
    (WarningSystem.processWarnings Scenario.clock
       [Scenario.fresh_warning; Scenario.fresh_warning]
       Scenario.quiet_system)
  = [Scenario.fresh_warning; Scenario.fresh_warning].
Proof. vm_compute. reflexivity. Qed.

Example processWarnings_adds_unmatched :
  WarningSystem.alerts
    (WarningSystem.processWarnings Scenario.clock
       [Scenario.stale_alert; Scenario.gridlock_warning]
       Scenario.alert_system)
  = [Scenario.fresh_warning; Scenario.gridlock_warning].
Proof. vm_compute. reflexivity. Qed.

(** ** The history of the predictive system *)

(** C6: after [storeHistoricalData], every element of [historicalData] has a
    timestamp strictly later than 7 days before the reading of the clock
    taken by the call; what is kept is the old history with the new data
    point appended, less the elements that fail that bound. *)
Theorem storeHistoricalData_keeps_a_week (getHours getDay : Z -> Z)
    (stamp now : Z) (d : trafficData)
    (incidents : list PredictiveWarningSystem.incident)
    (s : PredictiveWarningSystem.t) :
  Forall (fun p => now - 7 * 24 * 60 * 60 * 1000
                   < PredictiveWarningSystem.timestamp p)
         (PredictiveWarningSystem.historicalData
            (PredictiveWarningSystem.storeHistoricalData getHours getDay
               stamp now d incidents s))
  /\ (exists p,
        PredictiveWarningSystem.timestamp p = stamp
        /\ PredictiveWarningSystem.historicalData
             (PredictiveWarningSystem.storeHistoricalData getHours getDay
                stamp now d incidents s)
           = filter (fun p => now - 7 * 24 * 60 * 60 * 1000
                              < PredictiveWarningSystem.timestamp p)
                    (PredictiveWarningSystem.historicalData s ++ [p]))
  /\ PredictiveWarningSystem.predictions
       (PredictiveWarningSystem.storeHistoricalData getHours getDay
          stamp now d incidents s)
     = PredictiveWarningSystem.predictions s.
Proof.
  unfold PredictiveWarningSystem.storeHistoricalData. simpl.
  split; [|split; [|reflexivity]].
  - apply Forall_forall. intros p Hp.
    apply list_elem_of_filter in Hp. tauto.
  - eexists. split; [|reflexivity]. reflexivity.
Qed.

(** C8: with fewer than 10 data points in [historicalData],
    [updatePredictions] returns at once: the predictions, the alerts and the
    triggered warnings of the warning system, and all the rest of the page
    are as they were. *)
Theorem updatePredictions_needs_ten (getHours getDay : Z -> Z) (now : Z)
    (w : PredictiveWarningSystem.window) :
  (length (PredictiveWarningSystem.historicalData
             (PredictiveWarningSystem.predictive w)) < 10)%nat ->
  PredictiveWarningSystem.updatePredictions getHours getDay now w = w.
Proof.
  intros H. unfold PredictiveWarningSystem.updatePredictions.
  apply Nat.ltb_lt in H. rewrite H. reflexivity.
Qed.

Lemma updatePredictions_needs_ten_witness :
  PredictiveWarningSystem.updatePredictions Scenario.utc_hours Scenario.utc_day
    Scenario.clock Scenario.young_page
  = Scenario.young_page.
Proof.
  apply (updatePredictions_needs_ten Scenario.utc_hours Scenario.utc_day
           Scenario.clock Scenario.young_page).
  simpl. lia.
Defined.

(** With ten data points the same call does act: it stores four
    predictions. *)
Example updatePredictions_with_ten :
  length (PredictiveWarningSystem.predictions
            (PredictiveWarningSystem.predictive
               (PredictiveWarningSystem.updatePredictions Scenario.utc_hours
                  Scenario.utc_day Scenario.clock Scenario.seasoned_page)))
  = 4%nat.
Proof. vm_compute. reflexivity. Qed.

(** C9: for a missing ([null] or [undefined]) or empty segment list,
    [calculateAverageSpeed] returns 0 and [calculateOverallCongestion]
    returns 'low', without dividing; on every input the divisions the two
    functions execute have a divisor other than zero; and
    [calculateOverallCongestion] returns one of 'low', 'medium', 'high' and
    'severe'. *)
Theorem average_and_congestion_safe (segments : option (list segment)) :
  PredictiveWarningSystem.calculateAverageSpeed None = (0%float, [])
  /\ PredictiveWarningSystem.calculateAverageSpeed (Some []) = (0%float, [])
  /\ PredictiveWarningSystem.calculateOverallCongestion None = ("low"%string, [])
  /\ PredictiveWarningSystem.calculateOverallCongestion (Some []) = ("low"%string, [])
  /\ Forall (fun divisor => divisor <> 0%nat)
            (snd (PredictiveWarningSystem.calculateAverageSpeed segments))
  /\ Forall (fun divisor => divisor <> 0%nat)
            (snd (PredictiveWarningSystem.calculateOverallCongestion segments))
  /\ fst (PredictiveWarningSystem.calculateOverallCongestion segments)
     ∈ ["low"; "medium"; "high"; "severe"]%string.
Proof.
  do 4 (split; [reflexivity|]).
  destruct segments as [[|s rest]|].
  - split; [constructor|]. split; [constructor|].
    apply list_elem_of_In. simpl. tauto.
  - unfold PredictiveWarningSystem.calculateAverageSpeed,
      PredictiveWarningSystem.calculateOverallCongestion,
      PredictiveWarningSystem.divide.
    cbv zeta. cbn [snd fst length].
    split; [repeat constructor; discriminate|].
    repeat match goal with
           | |- context [Js.gt ?x ?c] => destruct (Js.gt x c)
           end;
      (split; [repeat constructor; discriminate
              |apply list_elem_of_In; simpl; tauto]).
  - split; [constructor|]. split; [constructor|].
    apply list_elem_of_In. simpl. tauto.
Qed.

(** ** The reading of numbers *)
Module NumberFacts.
Import StringToNumber.

Lemma shr_1_keeps (mrs : shr_record) :
  0 <= shr_m mrs -> 0 <= shr_m (shr_1 mrs).
Proof.
  destruct mrs as [m r s]. simpl.
  destruct m as [|[p|p|]|p]; simpl; lia.
Qed.

Lemma iter_pos_keeps {A} (P : A -> Prop) (f : A -> A) :
  (forall x, P x -> P (f x)) -> forall p x, P x -> P (SpecFloat.iter_pos f p x).
Proof.
  intros Hf. induction p as [p IH|p IH|]; intros x Hx; simpl; auto.
Qed.

Lemma shr_keeps (mrs : shr_record) (e n : Z) :
  0 <= shr_m mrs -> 0 <= shr_m (fst (shr mrs e n)).
Proof.
  intros H. unfold shr. destruct n; simpl; try exact H.
  apply (iter_pos_keeps (fun x => 0 <= shr_m x)); [apply shr_1_keeps|exact H].
Qed.

Lemma shr_fexp_keeps (p x m e : Z) (l : SpecFloat.location) :
  0 <= m -> 0 <= shr_m (fst (shr_fexp p x m e l)).
Proof.
  intros H. unfold shr_fexp. apply shr_keeps.
  destruct l as [|[]]; exact H.
Qed.

Lemma round_nearest_even_keeps (m : Z) (l : SpecFloat.location) :
  0 <= m -> 0 <= round_nearest_even m l.
Proof.
  intros H. destruct l as [|[]]; simpl; try lia.
  destruct (Z.even m); lia.
Qed.

Lemma binary_round_aux_number (p x : Z) (sx : bool) (mx ex : Z) (lx : SpecFloat.location) :
  0 <= mx -> binary_round_aux p x sx mx ex lx <> S754_nan.
Proof.
  intros H. unfold binary_round_aux.
  pose proof (shr_fexp_keeps p x mx ex lx H) as H1.
  destruct (shr_fexp p x mx ex lx) as [mrs' e']. simpl in H1.
  pose proof (shr_fexp_keeps p x
                (round_nearest_even (shr_m mrs') (loc_of_shr_record mrs'))
                e' loc_Exact (round_nearest_even_keeps _ _ H1)) as H2.
  destruct (shr_fexp p x _ e' loc_Exact) as [mrs'' e'']. simpl in H2.
  destruct (shr_m mrs'') as [|m|m]; [discriminate| |lia].
  destruct (e'' <=? x - p); discriminate.
Qed.

Lemma binary_round_number (p x : Z) (sx : bool) (mx : positive) (ex : Z) :
  binary_round p x sx mx ex <> S754_nan.
Proof.
  unfold binary_round. destruct (shl_align _ _ _) as [mz ez].
  apply binary_round_aux_number. lia.
Qed.

Lemma binary_normalize_number (p x m e : Z) (szero : bool) :
  binary_normalize p x m e szero <> S754_nan.
Proof.
  unfold binary_normalize. destruct m; [discriminate| |];
    apply binary_round_number.
Qed.

Lemma a_number (f : Js.num) : Prim2SF f <> S754_nan -> is_nan f = false.
Proof.
  intros H. destruct (is_nan f) eqn:E; [|reflexivity].
  exfalso. apply H. unfold Prim2SF. rewrite E. reflexivity.
Qed.

(** A float built from a specification that is a number is a number. *)
Lemma SF2Prim_number (sf : spec_float) :
  sf <> S754_nan -> is_nan (SF2Prim sf) = false.
Proof.
  intros H. destruct sf as [[|]|[|]| |s m e]; try reflexivity; [congruence|].
  apply a_number. unfold SF2Prim, Z.ldexp.
  assert (Hl : forall x, Prim2SF
                 (ldshiftexp (of_uint63 (Uint63Axioms.of_Z (Z.pos m))) x)
               <> S754_nan).
  { intros x. rewrite ldshiftexp_spec, of_uint63_spec. unfold SFldexp.
    pose proof (binary_normalize_number prec emax
                  (Uint63Axioms.to_Z (Uint63Axioms.of_Z (Z.pos m))) 0 false) as Hn.
    destruct (binary_normalize _ _ _ _ _); try discriminate; [congruence|].
    apply binary_round_number. }
  destruct s; [|apply Hl].
  rewrite opp_spec.
  match goal with
  | |- context [Prim2SF (ldshiftexp _ ?x)] => specialize (Hl x)
  end.
  destruct (Prim2SF _); try discriminate. congruence.
Qed.

(** What is read from a literal is a number. *)
Lemma value_number (negative : bool) (l : literal) :
  is_nan (value negative l) = false.
Proof.
  destruct l as [|m e]; simpl; [destruct negative; reflexivity|].
  apply SF2Prim_number. unfold nearest.
  repeat match goal with
         | |- context [if ?c then _ else _] => destruct c
         end; try discriminate; apply binary_normalize_number.
Qed.










Lemma not_a_digit (c : ascii) : Ascii.eqb c "." = true -> digit 10 c = None.
Proof. intros H. apply Ascii.eqb_eq in H. subst c. reflexivity. Qed.







(** What is no literal, and not blank, is read as [NaN]; what is a literal
    is read as a number. *)
Lemma Number_nan (s : string) :
  is_nan (Number s) = true
  <-> trim s <> EmptyString /\ numeric_literal (trim s) = None.
Proof.
  unfold Number. destruct (trim s) as [|c t] eqn:E.
  - split; [discriminate|]. intros [H _]. congruence.
  - destruct (numeric_literal (String c t)) as [[sign l]|].
    + rewrite value_number. split; [discriminate|]. intros [_ H]. discriminate.
    + split; [|reflexivity]. intros _. split; [discriminate|reflexivity].
Qed.




End NumberFacts.

(** ** Validation of coordinates *)
Module ValidationFacts.
Import StringToNumber Validation.

(** What the conversion reads: decimals and exponents, white space around a
    literal, nothing at all as zero, the other bases, and [NaN] for what is
    no literal. *)
Example Number_reads :
  Number "36.8219" = 36.8219%float
  /\ Number "-1.2921" = (-1.2921)%float
  /\ Number "1e3" = 1000%float
  /\ Number " 12 " = 12%float
  /\ Number EmptyString = 0%float
  /\ Number "   " = 0%float
  /\ Number "0x1F" = 31%float
  /\ Number "Infinity" = infinity
  /\ Number "9007199254740993" = 9007199254740992%float
  /\ Number "1e400" = infinity
  /\ is_nan (Number "12px") = true
  /\ is_nan (Number "1,2") = true
  /\ is_nan (Number "[object Object]") = true.
Proof. repeat split; vm_compute; reflexivity. Qed.








End ValidationFacts.

(** The numbers of the bounds are compared as the engine holds them: two
    numerals that differ beyond the seventeenth digit are read as the same
    number, and the bounds are refused. *)
Example close_bounds_are_refused :
  Validation.validateCoordinates
    {| Validation.lat := None; Validation.lng := None;
       Validation.bounds :=
         Some (Validation.Text
                 "1.00000000000000001,36,1.00000000000000002,37") |}
  = Validation.Status400
      "Invalid bounds: min values must be less than max values".
Proof. vm_compute. reflexivity. Qed.



(** * Further properties of the code *)

(** ** The cache of the live traffic *)
Section LiveCacheFacts.
Import TrafficDataService.

Context (tomtom_key : option string)
        (tomtom_flow : string -> option flowSegmentData)
        (db_ok : nat -> bool) (now : Z)
        (uuidv4 : nat -> string) (random : nat -> Js.num).

Local Abbreviation fetch := (fetchTomTomTraffic tomtom_key tomtom_flow now).
Local Abbreviation live := (getLiveTrafficData tomtom_key tomtom_flow db_ok now uuidv4 random).

(** X1: after a miss that fetched a result, the next call with the same
    bounds is served from the cache: it returns the same result, asks
    nothing of TomTom and issues no database operation. *)
Theorem live_second_call_is_a_hit (bounds : option string) (w w1 : world)
    (d : trafficData) :
  cache w !! live_cache_key bounds = None ->
  fetch (str_or bounds getNairobiBounds) w = (Return d, w1) ->
  exists w'',
    live bounds (snd (live bounds w)) = (Return (VTraffic d), w'')
    /\ requests w'' = requests (snd (live bounds w))
    /\ traffic_data w'' = traffic_data (snd (live bounds w))
    /\ db_ops w'' = db_ops (snd (live bounds w))
    /\ cache w'' = cache (snd (live bounds w)).
Proof.
  intros Hmiss Hfetch.
  destruct (live_miss_fetched _ _ db_ok _ uuidv4 random _ _ _ _ Hmiss Hfetch)
    as (w' & H & C & _).
  rewrite H. simpl.
  assert (Hhit : cache w' !! live_cache_key bounds = Some (VTraffic d)).
  { rewrite C. apply lookup_insert_eq. }
  eexists. split; [apply live_hit; rewrite Hhit; reflexivity|]. simpl. auto.
Qed.

(** X2: the fallback object is not cached: after a miss with a failed fetch
    the cache and the tables are as before, so the key still misses and the
    next call asks TomTom again. *)
Theorem live_fallback_is_not_cached (bounds : option string) (w w1 : world)
    (e : string) :
  cache w !! live_cache_key bounds = None ->
  fetch (str_or bounds getNairobiBounds) w = (Throw e, w1) ->
  cache (snd (live bounds w)) = cache w
  /\ cache (snd (live bounds w)) !! live_cache_key bounds = None
  /\ traffic_data (snd (live bounds w)) = traffic_data w
  /\ fst (live bounds w) = Return (VTraffic (getFallbackTrafficData now)).
Proof.
  intros Hmiss Hfetch.
  destruct (live_miss_failed _ _ db_ok _ uuidv4 random _ _ _ _ Hmiss Hfetch)
    as (w' & H & C & T).
  rewrite H. simpl. rewrite C. auto.
Qed.

(** The level of a segment is one of the four labels of the ENUM. *)
Lemma calculateTrafficLevel_label (c f : Js.num) :
  calculateTrafficLevel c f ∈ ["low"; "medium"; "high"; "severe"]%string.
Proof.
  unfold calculateTrafficLevel. cbv zeta.
  repeat match goal with
         | |- context [Js.gt ?r ?t] => destruct (Js.gt r t)
         end; apply list_elem_of_In; simpl; tauto.
Qed.

Lemma fetch_segments (bounds : string) (w w1 : world) (d : trafficData)
    (segs : list segment) :
  fetch bounds w = (Return d, w1) ->
  segments_of d = Some segs ->
  Forall (fun s => trafficLevel s ∈ ["low"; "medium"; "high"; "severe"]%string) segs.
Proof.
  unfold fetchTomTomTraffic, processTomTomTrafficData. run_service.
  destruct (negb (present tomtom_key)); simpl; [intros E; inversion E|].
  destruct (tomtom_flow (traffic_url bounds)) as [[ | l | ]|]; simpl;
    intros E; inversion E; subst; simpl; intros Hs; inversion Hs; subst.
  apply Forall_forall. intros s Hs'.
  apply list_elem_of_fmap in Hs' as (fs & -> & _). simpl.
  apply calculateTrafficLevel_label.
Qed.

Lemma or_else_truthy (x d : Js.num) :
  Js.truthy d = true -> Js.truthy (Js.or_else x d) = true.
Proof.
  intros Hd. unfold Js.or_else. destruct (Js.truthy x) eqn:Hx; assumption.
Qed.

Lemma or_else_number (x d : Js.num) :
  is_nan d = false -> is_nan (Js.or_else x d) = false.
Proof.
  intros Hd. unfold Js.or_else. destruct (Js.truthy x) eqn:Hx; [|exact Hd].
  unfold Js.truthy in Hx. apply negb_true_iff, orb_false_iff in Hx. tauto.
Qed.

End LiveCacheFacts.

Section LiveRowFacts.
Import TrafficDataService.

Context (tomtom_key : option string)
        (tomtom_flow : string -> option flowSegmentData)
        (db_ok : nat -> bool) (now : Z)
        (uuidv4 : nat -> string) (random : nat -> Js.num).

Local Abbreviation fetch := (fetchTomTomTraffic tomtom_key tomtom_flow now).
Local Abbreviation live := (getLiveTrafficData tomtom_key tomtom_flow db_ok now uuidv4 random).

Lemma traffic_record_stored (k : nat) (s : segment) :
  trafficLevel s ∈ ["low"; "medium"; "high"; "severe"]%string ->
  Terms.stored_row now (traffic_record now uuidv4 random k s).
Proof.
  intros Hl. unfold Terms.stored_row, traffic_record. simpl.
  split; [|split; [reflexivity|split; [|split; [|split; [|reflexivity]]]]].
  - apply list_elem_of_In in Hl. simpl in Hl.
    destruct Hl as [<-|[<-|[<-|[<-|[]]]]]; apply list_elem_of_In; simpl; tauto.
  - apply or_else_truthy. reflexivity.
  - apply or_else_number. reflexivity.
  - apply or_else_number. reflexivity.
Qed.

(** X3: the rows that a miss of [getLiveTrafficData] writes, when the insert
    is accepted, are one for each segment of the result, and each has a
    congestion level of the ENUM, the source 'tomtom', a free-flow speed
    that is neither zero nor NaN, a current speed and a confidence that are
    numbers, and the time of the call. *)
Theorem live_rows_are_well_formed (bounds : option string) (w w1 : world)
    (d : trafficData) (segs : list segment) :
  cache w !! live_cache_key bounds = None ->
  fetch (str_or bounds getNairobiBounds) w = (Return d, w1) ->
  segments_of d = Some segs ->
  db_ok (db_ops w) = true ->
  exists rows,
    traffic_data (snd (live bounds w)) = traffic_data w ++ rows
    /\ length rows = length segs
    /\ Forall (Terms.stored_row now) rows.
Proof.
  intros Hmiss Hfetch Hsegs Hdb.
  destruct (live_miss_fetched _ _ db_ok _ uuidv4 random _ _ _ _ Hmiss Hfetch)
    as (w' & H & _ & _ & T).
  rewrite H. simpl. rewrite T, Hsegs, Hdb.
  eexists. split; [reflexivity|]. unfold traffic_records. split.
  - apply length_imap.
  - apply Forall_forall. intros r Hr.
    apply elem_of_lookup_imap_1 in Hr as (i & s & -> & Hs).
    apply traffic_record_stored.
    pose proof (fetch_segments _ _ _ _ _ _ _ _ Hfetch Hsegs) as Hall.
    rewrite Forall_forall in Hall. apply Hall.
    apply list_elem_of_lookup. eauto.
Qed.

End LiveRowFacts.

Lemma live_second_call_is_a_hit_witness :
  exists w'',
    TrafficDataService.getLiveTrafficData Scenario.api_key
      Scenario.tomtom_answers Scenario.db_up Scenario.clock Scenario.uuid
      Scenario.halves Scenario.cbd_bounds
      (snd (TrafficDataService.getLiveTrafficData Scenario.api_key
              Scenario.tomtom_answers Scenario.db_up Scenario.clock
              Scenario.uuid Scenario.halves Scenario.cbd_bounds
              Scenario.empty_world))
    = (TrafficDataService.Return (TrafficDataService.VTraffic Scenario.uhuru_data),
       w'')
    /\ TrafficDataService.requests w''
       = TrafficDataService.requests
           (snd (TrafficDataService.getLiveTrafficData Scenario.api_key
                   Scenario.tomtom_answers Scenario.db_up Scenario.clock
                   Scenario.uuid Scenario.halves Scenario.cbd_bounds
                   Scenario.empty_world))
    /\ TrafficDataService.traffic_data w''
       = TrafficDataService.traffic_data
           (snd (TrafficDataService.getLiveTrafficData Scenario.api_key
                   Scenario.tomtom_answers Scenario.db_up Scenario.clock
                   Scenario.uuid Scenario.halves Scenario.cbd_bounds
                   Scenario.empty_world))
    /\ TrafficDataService.db_ops w''
       = TrafficDataService.db_ops
           (snd (TrafficDataService.getLiveTrafficData Scenario.api_key
                   Scenario.tomtom_answers Scenario.db_up Scenario.clock
                   Scenario.uuid Scenario.halves Scenario.cbd_bounds
                   Scenario.empty_world))
    /\ TrafficDataService.cache w''
       = TrafficDataService.cache
           (snd (TrafficDataService.getLiveTrafficData Scenario.api_key
                   Scenario.tomtom_answers Scenario.db_up Scenario.clock
                   Scenario.uuid Scenario.halves Scenario.cbd_bounds
                   Scenario.empty_world)).
Proof.
  eapply (live_second_call_is_a_hit Scenario.api_key Scenario.tomtom_answers
            Scenario.db_up Scenario.clock Scenario.uuid Scenario.halves
            Scenario.cbd_bounds Scenario.empty_world).
  - vm_compute. reflexivity.
  - vm_compute. reflexivity.
Defined.

Lemma live_fallback_is_not_cached_witness :
  TrafficDataService.cache
    (snd (TrafficDataService.getLiveTrafficData Scenario.api_key
            Scenario.tomtom_unreachable Scenario.db_up Scenario.clock
            Scenario.uuid Scenario.halves None Scenario.empty_world))
  = ∅
  /\ TrafficDataService.cache
       (snd (TrafficDataService.getLiveTrafficData Scenario.api_key
               Scenario.tomtom_unreachable Scenario.db_up Scenario.clock
               Scenario.uuid Scenario.halves None Scenario.empty_world))
       !! TrafficDataService.live_cache_key None = None
  /\ TrafficDataService.traffic_data
       (snd (TrafficDataService.getLiveTrafficData Scenario.api_key
               Scenario.tomtom_unreachable Scenario.db_up Scenario.clock
               Scenario.uuid Scenario.halves None Scenario.empty_world))
     = []
  /\ fst (TrafficDataService.getLiveTrafficData Scenario.api_key
            Scenario.tomtom_unreachable Scenario.db_up Scenario.clock
            Scenario.uuid Scenario.halves None Scenario.empty_world)
     = TrafficDataService.Return
         (TrafficDataService.VTraffic
            (TrafficDataService.getFallbackTrafficData Scenario.clock)).
Proof.
  eapply (live_fallback_is_not_cached Scenario.api_key
            Scenario.tomtom_unreachable Scenario.db_up Scenario.clock
            Scenario.uuid Scenario.halves None Scenario.empty_world).
  - vm_compute. reflexivity.
  - vm_compute. reflexivity.
Defined.

Lemma live_rows_are_well_formed_witness :
  exists rows,
    TrafficDataService.traffic_data
      (snd (TrafficDataService.getLiveTrafficData Scenario.api_key
              Scenario.tomtom_answers Scenario.db_up Scenario.clock
              Scenario.uuid Scenario.halves None Scenario.empty_world))
    = [] ++ rows
    /\ length rows = 1%nat
    /\ Forall (Terms.stored_row Scenario.clock) rows.
Proof.
  eapply (live_rows_are_well_formed Scenario.api_key Scenario.tomtom_answers
            Scenario.db_up Scenario.clock Scenario.uuid Scenario.halves
            None Scenario.empty_world _ Scenario.uhuru_data
            [Scenario.uhuru_segment]).
  - vm_compute. reflexivity.
  - vm_compute. reflexivity.
  - reflexivity.
  - reflexivity.
Defined.

(** ** The paths of [getTrafficIncidents] *)
Section IncidentPaths.
Import TrafficDataService.

Context (tomtom_key : option string)
        (tomtom_incidents : string -> option (option (list apiIncident)))
        (db_ok : nat -> bool) (now : Z) (uuidv4 : nat -> string).

Local Abbreviation incidents :=
  (getTrafficIncidents tomtom_key tomtom_incidents db_ok now uuidv4).
Local Abbreviation key := ("traffic-incidents"%string).

Lemma before_start (a b : TrafficIncident.row) :
  TrafficIncident.before [(TrafficIncident.StartedAt, TrafficIncident.DESC)] a b
  <-> Terms.newest_first a b.
Proof.
  unfold TrafficIncident.before, Terms.newest_first.
  cbn [TrafficIncident.precedes TrafficIncident.sort_key].
  destruct (Z.eqb_spec (TrafficIncident.started_at a) (TrafficIncident.started_at b)).
  - split; [lia|reflexivity].
  - rewrite Z.ltb_lt. lia.
Qed.

(** Without an active row, [findActive] finds nothing, whatever the order
    and the limit. *)
Lemma findActive_nothing (table : list TrafficIncident.row)
    (o : TrafficIncident.options) :
  TrafficIncident.where_ o = None ->
  Forall (fun i => TrafficIncident.status i <> "active"%string) table ->
  TrafficIncident.findActive table o = [].
Proof.
  intros Hw Hall.
  destruct (TrafficIncident.findActive table o) as [|r rest] eqn:E; [reflexivity|].
  assert (Hr : r ∈ TrafficIncident.findActive table o) by (rewrite E; constructor).
  pose proof (IncidentFacts.findActive_active _ _ _ Hw Hr) as Ha.
  unfold TrafficIncident.findActive in Hr.
  apply IncidentFacts.findAll_elem in Hr as [Hr _].
  rewrite Forall_forall in Hall. destruct (Hall r Hr Ha).
Qed.

Lemma incidents_hit (w : world) (v : value) :
  hit (cache w !! key) = Some v ->
  incidents w =
  (Return v,
   {| cache := cache w; traffic_data := traffic_data w;
      traffic_incidents := traffic_incidents w; requests := requests w;
      journal := journal w ++ [CacheOperation "get" key true];
      db_ops := db_ops w; draws := draws w |}).
Proof.
  intros H. unfold getTrafficIncidents. run_service. rewrite H. reflexivity.
Qed.


(** The store step of the incidents never throws. *)
Lemma storeIncidentData_spec (l : list apiIncident) (w : world) :
  exists w',
    storeIncidentData db_ok now uuidv4 l w = (Return tt, w')
    /\ cache w' = cache w /\ requests w' = requests w
    /\ traffic_data w' = traffic_data w
    /\ traffic_incidents w' =
         if db_ok (db_ops w)
         then traffic_incidents w
              ++ imap (fun i a => incident_record now uuidv4 (draws w + i) a) l
         else traffic_incidents w.
Proof.
  unfold storeIncidentData, bulkCreate_incidents. run_service.
  destruct (db_ok (db_ops w)); simpl; eexists; repeat split; reflexivity.
Qed.

(** The database answers and has no active incident, and TomTom answers:
    the incidents of TomTom are stored, cached and returned. *)
Lemma incidents_from_tomtom (w : world) (data : option (list apiIncident)) :
  cache w !! key = None ->
  db_ok (db_ops w) = true ->
  Forall (fun i => TrafficIncident.status i <> "active"%string)
         (traffic_incidents w) ->
  present tomtom_key = true ->
  tomtom_incidents incidents_url = Some data ->
  exists w',
    incidents w = (Return (VApiIncidents (default [] data)), w')
    /\ cache w' = <[key := VApiIncidents (default [] data)]> (cache w)
    /\ requests w' = requests w ++ [incidents_url]
    /\ traffic_incidents w' =
         if db_ok (S (db_ops w))
         then traffic_incidents w
              ++ imap (fun i a => incident_record now uuidv4 (draws w + i) a)
                      (default [] data)
         else traffic_incidents w.
Proof.
  intros Hmiss Hdb Hnone Hkey Hans.
  pose proof (findActive_nothing (traffic_incidents w) Spec.first_query
                eq_refl Hnone) as Hempty.
  set (w1 := {| cache := cache w; traffic_data := traffic_data w;
                traffic_incidents := traffic_incidents w;
                requests := requests w ++ [incidents_url];
                journal := journal w; db_ops := S (db_ops w);
                draws := draws w |}).
  destruct (storeIncidentData_spec (default [] data) w1)
    as (w2 & Hs & Sc & Sr & St & Si).
  eexists. split.
  - unfold getTrafficIncidents, findActive, fetchTomTomIncidents.
    run_service. rewrite Hmiss; cbn [hit]. autounfold with service_ops. simpl.
    rewrite Hdb. simpl. fold Spec.first_query. rewrite Hempty. simpl.
    rewrite Hkey. simpl. autounfold with service_ops. simpl.
    rewrite Hans. simpl. fold w1.
    replace (match data with Some incidents => incidents | None => [] end)
      with (default [] data) by (destruct data; reflexivity).
    unfold bind in Hs. rewrite Hs. reflexivity.
  - simpl. rewrite Sc, Sr, Si. subst w1. simpl. repeat split; reflexivity.
Qed.

End IncidentPaths.

Section IncidentProperties.
Import TrafficDataService.

Context (tomtom_key : option string)
        (tomtom_incidents : string -> option (option (list apiIncident)))
        (db_ok : nat -> bool) (now : Z) (uuidv4 : nat -> string).

Local Abbreviation incidents :=
  (getTrafficIncidents tomtom_key tomtom_incidents db_ok now uuidv4).
Local Abbreviation key := ("traffic-incidents"%string).

(** [getTrafficIncidents] never throws: whatever the cache holds, and
    whether or not the database and TomTom answer, it returns a value. *)
Lemma incidents_return (w : world) :
  exists (v : value) (w' : world), incidents w = (Return v, w').
Proof.
  unfold getTrafficIncidents, findActive, fetchTomTomIncidents,
    storeIncidentData, bulkCreate_incidents.
  run_service.
  destruct (hit (cache w !! key)) as [v|]; [eexists _, _; reflexivity|].
  autounfold with service_ops. simpl.
  destruct (db_ok (db_ops w)); simpl.
  - destruct (TrafficIncident.findActive (traffic_incidents w) _) as [|r rows];
      simpl; [|eexists _, _; reflexivity].
    destruct (present tomtom_key); simpl; autounfold with service_ops; simpl.
    + destruct (tomtom_incidents incidents_url) as [data|]; simpl.
      * destruct (db_ok (S (db_ops w))); simpl; eexists _, _; reflexivity.
      * destruct (db_ok (S (db_ops w))); simpl; eexists _, _; reflexivity.
    + destruct (db_ok (S (db_ops w))); simpl; eexists _, _; reflexivity.
  - destruct (db_ok (S (db_ops w))); simpl; eexists _, _; reflexivity.
Qed.

(** X4: after a miss served from the database, the next call is served from
    the cache: it returns the same list and issues no database operation,
    so an incident stored in between is not seen. *)
Theorem incidents_second_call_is_a_hit (w : world) (i : TrafficIncident.row)
    (later : list TrafficIncident.row) :
  cache w !! key = None ->
  db_ok (db_ops w) = true ->
  i ∈ traffic_incidents w ->
  TrafficIncident.status i = "active"%string ->
  exists served w' w'',
    incidents w = (Return (VIncidents served), w')
    /\ incidents {| cache := cache w'; traffic_data := traffic_data w';
                    traffic_incidents := traffic_incidents w' ++ later;
                    requests := requests w'; journal := journal w';
                    db_ops := db_ops w'; draws := draws w' |}
       = (Return (VIncidents served), w'')
    /\ db_ops w'' = db_ops w'
    /\ requests w'' = requests w'.
Proof.
  intros Hmiss Hdb Hi Ha.
  destruct (incidents_from_database tomtom_key tomtom_incidents db_ok now uuidv4
              w i Hmiss Hdb Hi Ha) as (w' & H).
  assert (Hc : cache w' !! key
               = Some (VIncidents
                         (map (TrafficIncident.toJSON now)
                              (TrafficIncident.findActive (traffic_incidents w)
                                 Spec.first_query)))).
  { assert (Hne : TrafficIncident.findActive (traffic_incidents w)
                    Spec.first_query <> []).
    { unfold TrafficIncident.findActive.
      apply (IncidentFacts.findAll_nonempty _ _ i 49); [exact Hi| |reflexivity].
      simpl. rewrite Ha. reflexivity. }
    revert H. unfold getTrafficIncidents, findActive. run_service.
    rewrite Hmiss; cbn [hit]. autounfold with service_ops. simpl. rewrite Hdb. simpl.
    fold Spec.first_query.
    destruct (TrafficIncident.findActive (traffic_incidents w) Spec.first_query);
      [congruence|].
    simpl. intros E. inversion E. subst. simpl. apply lookup_insert_eq. }
  eexists _, w', _. split; [exact H|]. split.
  - apply incidents_hit. simpl. rewrite Hc. reflexivity.
  - simpl. auto.
Qed.


(** X6: when the database holds no active incident and TomTom answers, the
    incidents of TomTom are returned and cached, and each is written to
    [traffic_incidents], when the insert is accepted, as an unverified
    active row with the source 'tomtom'. *)
Theorem incidents_from_tomtom_are_stored (w : world)
    (data : option (list apiIncident)) :
  cache w !! key = None ->
  db_ok (db_ops w) = true ->
  Forall (fun i => TrafficIncident.status i <> "active"%string)
         (traffic_incidents w) ->
  present tomtom_key = true ->
  tomtom_incidents incidents_url = Some data ->
  db_ok (S (db_ops w)) = true ->
  exists w' rows,
    incidents w = (Return (VApiIncidents (default [] data)), w')
    /\ cache w' !! key = Some (VApiIncidents (default [] data))
    /\ traffic_incidents w' = traffic_incidents w ++ rows
    /\ length rows = length (default [] data)
    /\ Forall Terms.stored_incident rows.
Proof.
  intros Hmiss Hdb Hnone Hkey Hans Hdb'.
  destruct (incidents_from_tomtom tomtom_key tomtom_incidents db_ok now uuidv4
              w data Hmiss Hdb Hnone Hkey Hans) as (w' & H & C & _ & T).
  rewrite Hdb' in T.
  eexists w', _. split; [exact H|]. split; [rewrite C; apply lookup_insert_eq|].
  split; [exact T|]. split; [apply length_imap|].
  apply Forall_forall. intros r Hr.
  apply elem_of_lookup_imap_1 in Hr as (k & a & -> & _).
  repeat split.
Qed.

(** X7: when the database holds no active incident and TomTom cannot be
    asked (no key) or does not answer, the empty list is returned and
    nothing is cached or stored. *)
Theorem incidents_empty_when_nothing_answers (w : world) :
  cache w !! key = None ->
  db_ok (db_ops w) = true ->
  Forall (fun i => TrafficIncident.status i <> "active"%string)
         (traffic_incidents w) ->
  present tomtom_key = false \/ tomtom_incidents incidents_url = None ->
  exists w',
    incidents w = (Return (VIncidents []), w')
    /\ cache w' = cache w /\ traffic_incidents w' = traffic_incidents w.
Proof.
  intros Hmiss Hdb Hnone Hfail.
  pose proof (findActive_nothing (traffic_incidents w) Spec.first_query
                eq_refl Hnone) as Hempty.
  pose proof (findActive_nothing (traffic_incidents w) Terms.fallback_query
                eq_refl Hnone) as Hempty'.
  unfold getTrafficIncidents, findActive, fetchTomTomIncidents.
  run_service. rewrite Hmiss; cbn [hit]. autounfold with service_ops. simpl.
  rewrite Hdb. simpl. fold Spec.first_query. rewrite Hempty. simpl.
  destruct (present tomtom_key) eqn:Hkey; simpl.
  - destruct Hfail as [Hfail|Hfail]; [discriminate Hfail|].
    autounfold with service_ops. simpl. rewrite Hfail. simpl.
    fold Terms.fallback_query.
    destruct (db_ok (S (db_ops w))); simpl; rewrite ?Hempty'; simpl;
      eexists; repeat split; reflexivity.
  - autounfold with service_ops. simpl. fold Terms.fallback_query.
    destruct (db_ok (S (db_ops w))); simpl; rewrite ?Hempty'; simpl;
      eexists; repeat split; reflexivity.
Qed.

End IncidentProperties.

Lemma incidents_second_call_is_a_hit_witness :
  exists served w' w'',
    TrafficDataService.getTrafficIncidents Scenario.api_key
      Scenario.no_incident_feed Scenario.db_up Scenario.clock Scenario.uuid
      Scenario.incident_world
    = (TrafficDataService.Return (TrafficDataService.VIncidents served), w')
    /\ TrafficDataService.getTrafficIncidents Scenario.api_key
         Scenario.no_incident_feed Scenario.db_up Scenario.clock Scenario.uuid
         {| TrafficDataService.cache := TrafficDataService.cache w';
            TrafficDataService.traffic_data := TrafficDataService.traffic_data w';
            TrafficDataService.traffic_incidents :=
              TrafficDataService.traffic_incidents w' ++ [Cases.late_report];
            TrafficDataService.requests := TrafficDataService.requests w';
            TrafficDataService.journal := TrafficDataService.journal w';
            TrafficDataService.db_ops := TrafficDataService.db_ops w';
            TrafficDataService.draws := TrafficDataService.draws w' |}
       = (TrafficDataService.Return (TrafficDataService.VIncidents served), w'')
    /\ TrafficDataService.db_ops w'' = TrafficDataService.db_ops w'
    /\ TrafficDataService.requests w'' = TrafficDataService.requests w'.
Proof.
  apply (incidents_second_call_is_a_hit Scenario.api_key
           Scenario.no_incident_feed Scenario.db_up Scenario.clock
           Scenario.uuid Scenario.incident_world Scenario.pileup
           [Cases.late_report]).
  - vm_compute. reflexivity.
  - reflexivity.
  - apply list_elem_of_In. simpl. tauto.
  - reflexivity.
Defined.


Lemma incidents_from_tomtom_are_stored_witness :
  exists w' rows,
    TrafficDataService.getTrafficIncidents Scenario.api_key
      Cases.incident_feed Scenario.db_up Scenario.clock Scenario.uuid
      Cases.resolved_world
    = (TrafficDataService.Return
         (TrafficDataService.VApiIncidents [Cases.tomtom_accident]), w')
    /\ TrafficDataService.cache w' !! "traffic-incidents"%string
       = Some (TrafficDataService.VApiIncidents [Cases.tomtom_accident])
    /\ TrafficDataService.traffic_incidents w' = [Scenario.closure] ++ rows
    /\ length rows = 1%nat
    /\ Forall Terms.stored_incident rows.
Proof.
  apply (incidents_from_tomtom_are_stored Scenario.api_key
           Cases.incident_feed Scenario.db_up Scenario.clock Scenario.uuid
           Cases.resolved_world (Some [Cases.tomtom_accident])).
  - vm_compute. reflexivity.
  - reflexivity.
  - repeat constructor. simpl. discriminate.
  - reflexivity.
  - reflexivity.
  - reflexivity.
Defined.

Lemma incidents_empty_when_nothing_answers_witness :
  exists w',
    TrafficDataService.getTrafficIncidents Scenario.api_key
      Scenario.no_incident_feed Scenario.db_up Scenario.clock Scenario.uuid
      Cases.resolved_world
    = (TrafficDataService.Return (TrafficDataService.VIncidents []), w')
    /\ TrafficDataService.cache w' = ∅
    /\ TrafficDataService.traffic_incidents w' = [Scenario.closure].
Proof.
  apply (incidents_empty_when_nothing_answers Scenario.api_key
           Scenario.no_incident_feed Scenario.db_up Scenario.clock
           Scenario.uuid Cases.resolved_world).
  - vm_compute. reflexivity.
  - reflexivity.
  - repeat constructor. simpl. discriminate.
  - right. reflexivity.
Defined.

(** ** Routes *)
Section RouteFacts.
Import TrafficDataService RouteInfo.

Context (tomtom_key : option string)
        (tomtom_route : string -> bool -> option routeData).

Local Abbreviation route := (getRouteInfo tomtom_key tomtom_route).

Lemma falsy_spec (data : routeData) :
  truthy (VRoute data) = false <-> Terms.falsy data.
Proof.
  unfold Terms.falsy.
  destruct data as [body|t|x|[|]|]; simpl.
  - split; [discriminate|].
    intros [H|[H|[H|(x & H & _)]]]; discriminate H.
  - destruct t as [|c t]; simpl.
    + split; [auto|reflexivity].
    + split; [discriminate|].
      intros [H|[H|[H|(x & H & _)]]]; discriminate H.
  - unfold Js.truthy. rewrite negb_false_iff, orb_true_iff. split.
    + intros H. right. right. right. exists x. auto.
    + intros [H|[H|[H|(y & H & Hy)]]]; try discriminate H.
      inversion H. subst y. exact Hy.
  - split; [discriminate|].
    intros [H|[H|[H|(x & H & _)]]]; discriminate H.
  - split; [auto|reflexivity].
  - split; [auto|reflexivity].
Qed.

Lemma append_cancel (p a b : string) :
  (p ++ a)%string = (p ++ b)%string -> a = b.
Proof.
  induction p as [|c p IH]; simpl; [auto|].
  intros H. inversion H. auto.
Qed.

(** The two values of [alternatives] have keys of their own. *)
Lemma route_keys_differ (start end_ : string) (alternatives : bool) :
  route_cache_key start end_ alternatives
  <> route_cache_key start end_ (negb alternatives).
Proof.
  unfold route_cache_key. intros H.
  do 5 apply append_cancel in H.
  destruct alternatives; discriminate H.
Qed.

Lemma route_fetched (start end_ : string) (alternatives : bool) (w : world)
    (data : routeData) :
  hit (cache w !! route_cache_key start end_ alternatives) = None ->
  present tomtom_key = true ->
  tomtom_route (route_url start end_) alternatives = Some data ->
  route start end_ alternatives w
  = (Return (VRoute data),
     {| cache := <[route_cache_key start end_ alternatives := VRoute data]>
                   (cache w);
        traffic_data := traffic_data w;
        traffic_incidents := traffic_incidents w;
        requests := requests w ++ [route_url start end_];
        journal := journal w ++ [ExternalApiCall "tomtom" "route" true];
        db_ops := db_ops w; draws := draws w |}).
Proof.
  intros Hmiss Hkey Hroute.
  unfold getRouteInfo, fetchTomTomRoute, axios_get. run_service.
  rewrite Hmiss, Hkey. simpl. autounfold with service_ops. simpl.
  rewrite Hroute. simpl. reflexivity.
Qed.

(** X8: a route that was fetched on a miss is cached, whatever it is, under
    the key 'route-start-end-alternatives' and returned.  When the data is
    truthy the same request is then answered with it and TomTom is not
    asked again; when it is falsy (an empty body, say) the entry is never a
    hit and the same request asks TomTom again.  The other value of
    [alternatives] has an entry of its own: a request for it is not served
    from this one. *)
Theorem route_is_cached_after_a_fetch (start end_ : string)
    (alternatives : bool) (w : world) (data : routeData) :
  hit (cache w !! route_cache_key start end_ alternatives) = None ->
  present tomtom_key = true ->
  tomtom_route (route_url start end_) alternatives = Some data ->
  exists w',
    route start end_ alternatives w = (Return (VRoute data), w')
    /\ requests w' = requests w ++ [route_url start end_]
    /\ cache w'
       = <[("route-" ++ start ++ "-" ++ end_ ++ "-"
            ++ (if alternatives then "true" else "false"))%string
           := VRoute data]> (cache w)
    /\ (~ Terms.falsy data ->
        exists w'',
          route start end_ alternatives w' = (Return (VRoute data), w'')
          /\ requests w'' = requests w' /\ cache w'' = cache w')
    /\ (Terms.falsy data ->
        exists w'',
          route start end_ alternatives w' = (Return (VRoute data), w'')
          /\ requests w'' = requests w' ++ [route_url start end_])
    /\ (forall other : routeData,
          hit (cache w !! route_cache_key start end_ (negb alternatives)) = None ->
          tomtom_route (route_url start end_) (negb alternatives) = Some other ->
          exists w'',
            route start end_ (negb alternatives) w' = (Return (VRoute other), w'')
            /\ requests w'' = requests w' ++ [route_url start end_]).
Proof.
  intros Hmiss Hkey Hroute.
  eexists. split; [apply (route_fetched _ _ _ _ _ Hmiss Hkey Hroute)|].
  cbn [requests cache].
  split; [reflexivity|]. split; [reflexivity|]. split; [|split].
  - intros Htruthy.
    assert (Ht : truthy (VRoute data) = true).
    { destruct (truthy (VRoute data)) eqn:E; [reflexivity|].
      apply falsy_spec in E. contradiction. }
    eexists. split.
    + unfold getRouteInfo. run_service. rewrite lookup_insert_eq.
      cbn [hit]. rewrite Ht. reflexivity.
    + split; reflexivity.
  - intros Hfalsy. apply falsy_spec in Hfalsy.
    eexists. split.
    + apply route_fetched; [|exact Hkey|exact Hroute].
      cbn [cache]. rewrite lookup_insert_eq. cbn [hit]. rewrite Hfalsy.
      reflexivity.
    + reflexivity.
  - intros other Hmiss' Hroute'.
    eexists. split.
    + apply route_fetched; [|exact Hkey|exact Hroute'].
      cbn [cache]. rewrite lookup_insert_ne by apply route_keys_differ.
      exact Hmiss'.
    + reflexivity.
Qed.

(** X9: a route that cannot be fetched is not replaced by a fallback: on a
    miss without a key, or with a request that fails, [getRouteInfo] throws
    the error of the fetch and the cache is as before; without a key no
    request is sent. *)
Theorem route_failure_is_thrown (start end_ : string) (alternatives : bool)
    (w : world) :
  cache w !! route_cache_key start end_ alternatives = None ->
  present tomtom_key = false
  \/ tomtom_route (route_url start end_) alternatives = None ->
  exists e w',
    route start end_ alternatives w = (Throw e, w')
    /\ cache w' = cache w
    /\ (present tomtom_key = false ->
        e = "TomTom API key not configured"%string /\ requests w' = requests w)
    /\ (present tomtom_key = true ->
        e = "request failed"%string
        /\ requests w' = requests w ++ [route_url start end_]).
Proof.
  intros Hmiss Hfail.
  unfold getRouteInfo, fetchTomTomRoute, axios_get. run_service.
  rewrite Hmiss; cbn [hit].
  destruct (present tomtom_key) eqn:Hkey; simpl.
  - destruct Hfail as [Hfail|Hfail]; [discriminate|].
    autounfold with service_ops. simpl. rewrite Hfail. simpl.
    eexists _, _. split; [reflexivity|]. simpl.
    split; [reflexivity|]. split; [discriminate|]. auto.
  - autounfold with service_ops. simpl.
    eexists _, _. split; [reflexivity|]. simpl.
    split; [reflexivity|]. split; [auto|discriminate].
Qed.

End RouteFacts.

Lemma route_is_cached_after_a_fetch_witness :
  exists w',
    RouteInfo.getRouteInfo Scenario.api_key Cases.route_service
      "-1.2921,36.8219" "-1.3192,36.9278" false Scenario.empty_world
    = (TrafficDataService.Return (TrafficDataService.VRoute Cases.route_body), w')
    /\ TrafficDataService.requests w'
       = [RouteInfo.route_url "-1.2921,36.8219" "-1.3192,36.9278"]
    /\ TrafficDataService.cache w'
       = <["route--1.2921,36.8219--1.3192,36.9278-false"%string
           := TrafficDataService.VRoute Cases.route_body]> ∅
    /\ (~ Terms.falsy Cases.route_body ->
        exists w'',
          RouteInfo.getRouteInfo Scenario.api_key Cases.route_service
            "-1.2921,36.8219" "-1.3192,36.9278" false w'
          = (TrafficDataService.Return
               (TrafficDataService.VRoute Cases.route_body), w'')
          /\ TrafficDataService.requests w'' = TrafficDataService.requests w'
          /\ TrafficDataService.cache w'' = TrafficDataService.cache w')
    /\ (Terms.falsy Cases.route_body ->
        exists w'',
          RouteInfo.getRouteInfo Scenario.api_key Cases.route_service
            "-1.2921,36.8219" "-1.3192,36.9278" false w'
          = (TrafficDataService.Return
               (TrafficDataService.VRoute Cases.route_body), w'')
          /\ TrafficDataService.requests w''
             = TrafficDataService.requests w'
               ++ [RouteInfo.route_url "-1.2921,36.8219" "-1.3192,36.9278"])
    /\ (forall other : TrafficDataService.routeData,
          TrafficDataService.hit
            (TrafficDataService.cache Scenario.empty_world
               !! RouteInfo.route_cache_key "-1.2921,36.8219" "-1.3192,36.9278"
                    (negb false)) = None ->
          Cases.route_service
            (RouteInfo.route_url "-1.2921,36.8219" "-1.3192,36.9278")
            (negb false) = Some other ->
          exists w'',
            RouteInfo.getRouteInfo Scenario.api_key Cases.route_service
              "-1.2921,36.8219" "-1.3192,36.9278" (negb false) w'
            = (TrafficDataService.Return (TrafficDataService.VRoute other), w'')
            /\ TrafficDataService.requests w''
               = TrafficDataService.requests w'
                 ++ [RouteInfo.route_url "-1.2921,36.8219" "-1.3192,36.9278"]).
Proof.
  apply (route_is_cached_after_a_fetch Scenario.api_key Cases.route_service
           "-1.2921,36.8219" "-1.3192,36.9278" false Scenario.empty_world
           Cases.route_body).
  - vm_compute. reflexivity.
  - reflexivity.
  - reflexivity.
Defined.

(** A response without a body is cached and never found: the second request
    for the same route asks TomTom again. *)
Example empty_route_is_fetched_again :
  TrafficDataService.requests
    (snd (RouteInfo.getRouteInfo Scenario.api_key Cases.route_service_mute
            "-1.2921,36.8219" "-1.3192,36.9278" false
            (snd (RouteInfo.getRouteInfo Scenario.api_key
                    Cases.route_service_mute
                    "-1.2921,36.8219" "-1.3192,36.9278" false
                    Scenario.empty_world))))
  = [RouteInfo.route_url "-1.2921,36.8219" "-1.3192,36.9278";
     RouteInfo.route_url "-1.2921,36.8219" "-1.3192,36.9278"].
Proof. vm_compute. reflexivity. Qed.

Lemma route_failure_is_thrown_witness :
  exists e w',
    RouteInfo.getRouteInfo None Cases.route_service
      "-1.2921,36.8219" "-1.3192,36.9278" true Scenario.empty_world
    = (TrafficDataService.Throw e, w')
    /\ TrafficDataService.cache w' = ∅
    /\ (present None = false ->
        e = "TomTom API key not configured"%string
        /\ TrafficDataService.requests w' = [])
    /\ (present None = true ->
        e = "request failed"%string
        /\ TrafficDataService.requests w'
           = [] ++ [RouteInfo.route_url "-1.2921,36.8219" "-1.3192,36.9278"]).
Proof.
  apply (route_failure_is_thrown None Cases.route_service
           "-1.2921,36.8219" "-1.3192,36.9278" true Scenario.empty_world).
  - vm_compute. reflexivity.
  - left. reflexivity.
Defined.

(** ** The handlers of the server *)
Section HandlerFacts.
Import TrafficDataService Server.

Context (tomtom_key : option string)
        (tomtom_flow : string -> option flowSegmentData)
        (tomtom_incidents : string -> option (option (list apiIncident)))
        (tomtom_route : string -> bool -> option routeData)
        (db_ok : nat -> bool) (now : Z)
        (uuidv4 : nat -> string) (random : nat -> Js.num).

(** X10: the handler of [GET /api/traffic/live] never answers 500: when
    TomTom or the database fail, the service has already replaced the
    failure by a value, and the handler answers 200 with that value. *)
Theorem get_traffic_live_never_fails (bounds : option string) (w : world) :
  exists (v : value) (w' : world),
    getLiveTrafficData tomtom_key tomtom_flow db_ok now uuidv4 random bounds w
    = (Return v, w')
    /\ get_traffic_live tomtom_key tomtom_flow db_ok now uuidv4 random bounds w
       = (Return {| status := 200; success := true; data := Some v;
                    error := None; timestamp := now |}, w').
Proof.
  destruct (live_call_returns tomtom_key tomtom_flow db_ok now uuidv4 random
              bounds w)
    as (v & w' & H).
  exists v, w'. split; [exact H|].
  unfold get_traffic_live, handle, try_catch, bind. rewrite H. reflexivity.
Qed.

(** X11: the handler of [GET /api/traffic/incidents] never answers 500:
    whatever the cache holds, and whether or not the database and TomTom
    answer, it answers 200 with the list the service returned. *)
Theorem get_traffic_incidents_never_fails (w : world) :
  exists (v : value) (w' : world),
    getTrafficIncidents tomtom_key tomtom_incidents db_ok now uuidv4 w
    = (Return v, w')
    /\ get_traffic_incidents tomtom_key tomtom_incidents db_ok now uuidv4 w
       = (Return {| status := 200; success := true; data := Some v;
                    error := None; timestamp := now |}, w').
Proof.
  destruct (incidents_return tomtom_key tomtom_incidents db_ok now uuidv4 w)
    as (v & w' & H).
  exists v, w'. split; [exact H|].
  unfold get_traffic_incidents, handle, try_catch, bind. rewrite H. reflexivity.
Qed.

(** X12: the handler of [GET /api/traffic/route] answers 500 with the text
    'Failed to calculate route', and not with the error of the fetch, when
    the route is not cached and TomTom has no key or does not answer. *)
Theorem get_traffic_route_fails_without_tomtom (start end_ : string)
    (alternatives : bool) (w : world) :
  cache w !! RouteInfo.route_cache_key start end_ alternatives = None ->
  present tomtom_key = false
  \/ tomtom_route (RouteInfo.route_url start end_) alternatives = None ->
  exists w',
    get_traffic_route tomtom_key tomtom_route now start end_ alternatives w
    = (Return {| status := 500; success := false; data := None;
                 error := Some "Failed to calculate route"%string;
                 timestamp := now |}, w')
    /\ cache w' = cache w.
Proof.
  intros Hmiss Hfail.
  unfold get_traffic_route, handle, RouteInfo.getRouteInfo,
    RouteInfo.fetchTomTomRoute, axios_get.
  run_service. rewrite Hmiss; cbn [hit].
  destruct (present tomtom_key) eqn:Hkey; simpl.
  - destruct Hfail as [Hfail|Hfail]; [discriminate|].
    autounfold with service_ops. simpl. rewrite Hfail. simpl.
    eexists. split; reflexivity.
  - autounfold with service_ops. simpl. eexists. split; reflexivity.
Qed.

End HandlerFacts.

Lemma get_traffic_route_fails_without_tomtom_witness :
  exists w',
    Server.get_traffic_route Scenario.api_key Cases.route_service_down
      Scenario.clock "-1.2921,36.8219" "-1.3192,36.9278" false
      Scenario.empty_world
    = (TrafficDataService.Return
         {| Server.status := 500; Server.success := false;
            Server.data := None;
            Server.error := Some "Failed to calculate route"%string;
            Server.timestamp := Scenario.clock |}, w')
    /\ TrafficDataService.cache w' = ∅.
Proof.
  apply (get_traffic_route_fails_without_tomtom Scenario.api_key
           Cases.route_service_down Scenario.clock
           "-1.2921,36.8219" "-1.3192,36.9278" false Scenario.empty_world).
  - vm_compute. reflexivity.
  - right. reflexivity.
Defined.

(** ** The hooks of the TrafficData model *)
Section HookFacts.
Import TrafficDataModel TrafficDataHooks.

(** X13: both hooks are idempotent: running [beforeCreate] on an instance it
    has already seen, or [beforeUpdate] again for the same changes, changes
    nothing. *)
Theorem hooks_are_idempotent (changed : list string) (t : instance) :
  beforeCreate (beforeCreate t) = beforeCreate t
  /\ beforeUpdate changed (beforeUpdate changed t) = beforeUpdate changed t.
Proof.
  split.
  - unfold beforeCreate.
    destruct (negb (present (congestion_level t))
              && num_present (current_speed t)
              && num_present (free_flow_speed t)) eqn:Hc.
    + repeat match goal with
             | |- context [if Js.gt ?r ?c then _ else _] =>
                 destruct (Js.gt r c)
             end; reflexivity.
    + rewrite Hc. reflexivity.
  - unfold beforeUpdate.
    destruct (existsb (String.eqb "current_speed") changed
              || existsb (String.eqb "free_flow_speed") changed);
      [|reflexivity].
    destruct (num_present (current_speed t)
              && num_present (free_flow_speed t)) eqn:Hc.
    + destruct (Js.gt _ 0.8) eqn:G8; simpl; [rewrite Hc, G8; reflexivity|].
      destruct (Js.gt _ 0.5) eqn:G5; simpl; [rewrite Hc, G8, G5; reflexivity|].
      destruct (Js.gt _ 0.3) eqn:G3; simpl; rewrite Hc, G8, G5, G3; reflexivity.
    + rewrite Hc. reflexivity.
Qed.

(** X14: when the speeds are present and not zero, the level that
    [beforeCreate] gives to an instance without one, and the level that
    [beforeUpdate] gives after a change of a speed, are the level that
    [calculateTrafficLevel] of the service gives to the same speeds; the
    speeds themselves are left alone. *)
Theorem hooks_agree_with_the_service (changed : list string) (t : instance)
    (cs ffs : Js.num) :
  current_speed t = Some cs -> free_flow_speed t = Some ffs ->
  Js.truthy cs = true -> Js.truthy ffs = true ->
  (present (congestion_level t) = false ->
   beforeCreate t = set_congestion_level (calculateTrafficLevel cs ffs) t)
  /\ ("current_speed"%string ∈ changed \/ "free_flow_speed"%string ∈ changed ->
      beforeUpdate changed t
      = set_congestion_level (calculateTrafficLevel cs ffs) t).
Proof.
  intros Hcs Hffs Tcs Tffs. split.
  - intros Hl. unfold beforeCreate, calculateTrafficLevel, num_present, to_number.
    rewrite Hl, Hcs, Hffs, Tcs, Tffs. simpl.
    repeat match goal with
           | |- context [if Js.gt ?r ?c then _ else _] => destruct (Js.gt r c)
           end; reflexivity.
  - intros Hch.
    assert (Hex : existsb (String.eqb "current_speed") changed
                  || existsb (String.eqb "free_flow_speed") changed = true).
    { apply orb_true_iff.
      destruct Hch as [H|H]; [left|right]; apply existsb_exists;
        eexists; (split; [apply list_elem_of_In; exact H|apply String.eqb_refl]). }
    unfold beforeUpdate, calculateTrafficLevel, num_present, to_number.
    rewrite Hex, Hcs, Hffs, Tcs, Tffs. simpl.
    repeat match goal with
           | |- context [if Js.gt ?r ?c then _ else _] => destruct (Js.gt r c)
           end; reflexivity.
Qed.

End HookFacts.

Lemma hooks_agree_with_the_service_witness :
  (present (TrafficDataModel.congestion_level Cases.slow_reading) = false ->
   TrafficDataModel.beforeCreate Cases.slow_reading
   = TrafficDataModel.set_congestion_level
       (calculateTrafficLevel 12 50) Cases.slow_reading)
  /\ ("current_speed"%string ∈ ["current_speed"%string]
      \/ "free_flow_speed"%string ∈ ["current_speed"%string] ->
      TrafficDataHooks.beforeUpdate ["current_speed"%string] Cases.slow_reading
      = TrafficDataModel.set_congestion_level
          (calculateTrafficLevel 12 50) Cases.slow_reading).
Proof.
  apply (hooks_agree_with_the_service ["current_speed"%string]
           Cases.slow_reading 12 50); reflexivity.
Defined.

(** ** The queries of the TrafficIncident model *)
Section QueryFacts.
Import TrafficIncident TrafficIncidentQueries.

Lemma where_one (c : column) (label : string) (table : list row) :
  c <> StartedAt ->
  filter (fun i => satisfies [(c, label)] i = true) table
  = filter (fun i => column_text c i = label) table.
Proof.
  intros Hc. apply list_filter_iff. intros i. simpl.
  rewrite andb_true_r.
  destruct c; try congruence; apply String.eqb_eq.
Qed.

Lemma newest_first_sorted (rows : list row) :
  StronglySorted Terms.newest_first
    (merge_sort (before [(StartedAt, DESC)]) rows).
Proof.
  apply (IncidentFacts.StronglySorted_impl (before [(StartedAt, DESC)])).
  - intros a b. apply before_start.
  - apply StronglySorted_merge_sort; apply _.
Qed.

(** X15: without options, [findByType] and [findBySeverity] return exactly
    the incidents of the table that carry the label, each as often as the
    table has it, the latest start first. *)
Theorem type_and_severity_queries (table : list row) (label : string) :
  (findByType table label no_options ≡ₚ filter (fun i => type i = label) table
   /\ StronglySorted Terms.newest_first (findByType table label no_options))
  /\ (findBySeverity table label no_options
      ≡ₚ filter (fun i => severity i = label) table
      /\ StronglySorted Terms.newest_first
           (findBySeverity table label no_options)).
Proof.
  unfold findByType, findBySeverity, findAll, spread, take_limit, no_options.
  cbn [where_ order limit].
  repeat split.
  - rewrite merge_sort_Permutation.
    rewrite (where_one Type_) by discriminate. reflexivity.
  - apply newest_first_sorted.
  - rewrite merge_sort_Permutation.
    rewrite (where_one Severity) by discriminate. reflexivity.
  - apply newest_first_sorted.
Qed.

(** X16: [findActive] with a limit and nothing else serves as many active
    incidents as the limit allows: all of them when they are not more than
    the limit, and as many as the limit otherwise. *)
Theorem findActive_serves_up_to_the_limit (table : list row) (n : nat) :
  length (findActive table {| where_ := None; order := None; limit := Some n |})
  = Nat.min n (length (filter (fun i => status i = "active"%string) table)).
Proof.
  unfold findActive, findAll, spread, take_limit.
  cbn [where_ order limit].
  rewrite length_take.
  rewrite (Permutation_length (merge_sort_Permutation _ _)).
  rewrite (where_one Status) by discriminate. reflexivity.
Qed.

End QueryFacts.

(** ** The analyses of the warning system *)
Section AnalysisFacts.
Import WarningSystem WarningAnalysis.

Local Ltac branches :=
  repeat match goal with
         | |- context [if ?c then _ else _] => destruct c eqn:?
         end.

Local Ltac pick_titles :=
  repeat first [apply sublist_nil | apply sublist_skip | apply sublist_cons].

Lemma flow_analysis (now : Z) (segments : list segment) :
  map title (analyzeTrafficFlow now segments) `sublist_of` Terms.flow_titles
  /\ Forall (fun w => timestamp w = now) (analyzeTrafficFlow now segments).
Proof.
  unfold analyzeTrafficFlow, Terms.flow_titles.
  branches; simpl; (split; [pick_titles|repeat constructor]).
Qed.

Lemma incident_analysis (now : Z)
    (incidents : list PredictiveWarningSystem.incident) :
  map title (analyzeIncidents now incidents) `sublist_of` Terms.incident_titles
  /\ Forall (fun w => timestamp w = now) (analyzeIncidents now incidents).
Proof.
  unfold analyzeIncidents, Terms.incident_titles.
  branches; simpl; (split; [pick_titles|repeat constructor]).
Qed.

Lemma health_analysis (now : Z) (statisticsAge : option Js.num) :
  map title (analyzeSystemHealth now statisticsAge) `sublist_of` Terms.health_titles
  /\ Forall (fun w => timestamp w = now) (analyzeSystemHealth now statisticsAge).
Proof.
  unfold analyzeSystemHealth, Terms.health_titles.
  branches; simpl; (split; [pick_titles|repeat constructor]).
Qed.

Lemma whole_analysis (now : Z) (statisticsAge : option Js.num)
    (trafficData : option trafficData)
    (incidents : option (list PredictiveWarningSystem.incident)) :
  map title (analyzeTrafficData now statisticsAge trafficData incidents)
    `sublist_of` Terms.flow_titles ++ Terms.incident_titles ++ Terms.health_titles
  /\ Forall (fun w => timestamp w = now)
            (analyzeTrafficData now statisticsAge trafficData incidents).
Proof.
  unfold analyzeTrafficData.
  assert (Hf : forall d,
             map title (match d with
                        | Some d => match segments_of d with
                                    | Some segments =>
                                        [] ++ analyzeTrafficFlow now segments
                                    | None => []
                                    end
                        | None => []
                        end) `sublist_of` Terms.flow_titles
             /\ Forall (fun w => timestamp w = now)
                       (match d with
                        | Some d => match segments_of d with
                                    | Some segments =>
                                        [] ++ analyzeTrafficFlow now segments
                                    | None => []
                                    end
                        | None => []
                        end)).
  { intros [d|]; [destruct (segments_of d)|]; simpl;
      try (split; [apply sublist_nil_l|constructor]).
    apply flow_analysis. }
  destruct (Hf trafficData) as [Hf1 Hf2]. clear Hf.
  set (flow := match trafficData with Some _ => _ | None => _ end) in *.
  assert (Hi : map title (match incidents with
                          | Some l => if (0 <? length l)%nat
                                      then analyzeIncidents now l else []
                          | None => []
                          end) `sublist_of` Terms.incident_titles
               /\ Forall (fun w => timestamp w = now)
                         (match incidents with
                          | Some l => if (0 <? length l)%nat
                                      then analyzeIncidents now l else []
                          | None => []
                          end)).
  { destruct incidents as [l|]; [destruct (0 <? length l)%nat|];
      try (split; [apply sublist_nil_l|constructor]).
    apply incident_analysis. }
  destruct Hi as [Hi1 Hi2].
  destruct (health_analysis now statisticsAge) as [Hh1 Hh2].
  assert (E : match incidents with
              | Some l => if (0 <? length l)%nat
                          then flow ++ analyzeIncidents now l else flow
              | None => flow
              end
              = flow ++ match incidents with
                        | Some l => if (0 <? length l)%nat
                                    then analyzeIncidents now l else []
                        | None => []
                        end).
  { destruct incidents as [l|]; [destruct (0 <? length l)%nat|];
      rewrite ?app_nil_r; reflexivity. }
  rewrite E. split.
  - rewrite !map_app, <- app_assoc.
    apply sublist_app; [exact Hf1|]. apply sublist_app; assumption.
  - rewrite !Forall_app. auto.
Qed.

Lemma recent_at_once (now : Z) (w : warning) :
  timestamp w = now -> recent now w = true.
Proof.
  intros H. unfold recent. rewrite H, Z.sub_diag. vm_compute. reflexivity.
Qed.

Lemma push_and_trigger (news : list warning) (ws : t) :
  fold_left
    (fun ws w =>
       triggerWarning w {| alerts := alerts ws ++ [w];
                           triggered := triggered ws |})
    news ws
  = {| alerts := alerts ws ++ news; triggered := triggered ws ++ news |}.
Proof.
  revert ws. induction news as [|w news IH]; intros ws; simpl.
  - rewrite !app_nil_r. destruct ws; reflexivity.
  - rewrite IH. simpl. rewrite <- !app_assoc. reflexivity.
Qed.

Lemma processWarnings_run (now : Z) (warnings : list warning) (ws : t) :
  processWarnings now warnings ws
  = {| alerts := filter (fun alert => recent now alert = true)
                        (alerts ws ++ Spec.unmatched warnings (alerts ws));
       triggered := triggered ws ++ Spec.unmatched warnings (alerts ws) |}.
Proof.
  unfold processWarnings, cleanupOldWarnings, Spec.unmatched.
  rewrite push_and_trigger. reflexivity.
Qed.

Lemma sublist_map {A B} (f : A -> B) (l k : list A) :
  l `sublist_of` k -> map f l `sublist_of` map f k.
Proof.
  induction 1; simpl; [constructor|apply sublist_skip|apply sublist_cons];
    assumption.
Qed.

Lemma all_matched (warnings : list warning) :
  Spec.unmatched warnings warnings = [].
Proof.
  unfold Spec.unmatched. apply WarningFacts.filter_none.
  intros w Hw Hn. apply WarningFacts.existsb_false_elem with (a := w) in Hn;
    [|exact Hw].
  rewrite WarningFacts.same_alert_refl in Hn. discriminate.
Qed.

(** X17: [analyzeSystemHealth] reports 'Data Connection Issues' only
    together with 'Stale Traffic Data', and reports nothing when the age of
    the data is missing; every warning it gives carries the age, which is
    then over 10 minutes. *)
Theorem connection_issues_come_with_stale_data (now : Z)
    (statisticsAge : option Js.num) :
  (map title (analyzeSystemHealth now statisticsAge) = []
   \/ map title (analyzeSystemHealth now statisticsAge)
      = ["Stale Traffic Data"%string]
   \/ map title (analyzeSystemHealth now statisticsAge)
      = ["Stale Traffic Data"; "Data Connection Issues"]%string)
  /\ (forall w, w ∈ analyzeSystemHealth now statisticsAge ->
        exists age, statisticsAge = Some age /\ Js.gt age 10 = true
                    /\ severity w = Some age).
Proof.
  assert (Hage : forall a, Js.gt (match statisticsAge with
                                  | Some age => Js.or_else age 0
                                  | None => 0%float
                                  end) a = true ->
                           Js.gt a 0 = true ->
                           exists age, statisticsAge = Some age
                             /\ match statisticsAge with
                                | Some age => Js.or_else age 0
                                | None => 0%float
                                end = age).
  { intros a Ha Hpos. destruct statisticsAge as [age|].
    - exists age. split; [reflexivity|]. unfold Js.or_else in *.
      destruct (Js.truthy age); [reflexivity|].
      pose proof (JsFacts.gt_trans _ _ _ Ha Hpos) as H0.
      vm_compute in H0. discriminate.
    - pose proof (JsFacts.gt_trans _ _ _ Ha Hpos) as H0.
      vm_compute in H0. discriminate. }
  unfold analyzeSystemHealth.
  set (dataAge := match statisticsAge with
                  | Some age => Js.or_else age 0
                  | None => 0%float
                  end) in *.
  destruct (Js.gt dataAge 10) eqn:G10; destruct (Js.gt dataAge 30) eqn:G30; simpl.
  - split; [auto|]. intros w Hw.
    destruct (Hage 10%float G10 eq_refl) as (age & E & Ed).
    exists age. rewrite <- Ed at 2 3. split; [exact E|]. split; [exact G10|].
    apply list_elem_of_In in Hw. simpl in Hw.
    destruct Hw as [<-|[<-|[]]]; reflexivity.
  - split; [auto|]. intros w Hw.
    destruct (Hage 10%float G10 eq_refl) as (age & E & Ed).
    exists age. rewrite <- Ed at 2 3. split; [exact E|]. split; [exact G10|].
    apply list_elem_of_In in Hw. simpl in Hw.
    destruct Hw as [<-|[]]; reflexivity.
  - assert (H := JsFacts.gt_trans dataAge 30 10 G30 eq_refl). congruence.
  - split; [auto|]. intros w Hw. inversion Hw.
Qed.

(** X18: [analyzeIncidents] gives 'Severe Traffic Incidents' exactly when
    some incident has the severity 'high' or 'severe', and 'Multiple Traffic
    Incidents' exactly when there are more than five incidents; no warning
    of it is CRITICAL. *)
Theorem incident_warnings (now : Z)
    (incidents : list PredictiveWarningSystem.incident) :
  ("Severe Traffic Incidents"%string ∈ map title (analyzeIncidents now incidents)
   <-> exists i, i ∈ incidents
                 /\ (PredictiveWarningSystem.severity i = "high"%string
                     \/ PredictiveWarningSystem.severity i = "severe"%string))
  /\ ("Multiple Traffic Incidents"%string ∈ map title (analyzeIncidents now incidents)
      <-> (5 < length incidents)%nat)
  /\ Forall (fun w => level w <> CRITICAL) (analyzeIncidents now incidents).
Proof.
  assert (Hs : (0 <? length (filter (fun i => is_serious i = true) incidents))%nat
               = true
               <-> exists i, i ∈ incidents
                     /\ (PredictiveWarningSystem.severity i = "high"%string
                         \/ PredictiveWarningSystem.severity i = "severe"%string)).
  { rewrite Nat.ltb_lt. split.
    - destruct (filter _ incidents) as [|i rest] eqn:E; simpl; [lia|].
      intros _. assert (Hi : i ∈ filter (fun i => is_serious i = true) incidents)
        by (rewrite E; constructor).
      apply list_elem_of_filter in Hi as [Hi1 Hi2].
      exists i. split; [exact Hi2|]. unfold is_serious in Hi1.
      apply orb_true_iff in Hi1. rewrite !String.eqb_eq in Hi1. exact Hi1.
    - intros (i & Hi & Hsev).
      assert (Hin : i ∈ filter (fun i => is_serious i = true) incidents).
      { apply list_elem_of_filter. split; [|exact Hi].
        unfold is_serious. apply orb_true_iff. rewrite !String.eqb_eq. exact Hsev. }
      destruct (filter _ incidents); [inversion Hin|simpl; lia]. }
  assert (Hm : (5 <? length incidents)%nat = true <-> (5 < length incidents)%nat)
    by apply Nat.ltb_lt.
  unfold analyzeIncidents.
  destruct (0 <? length (filter (fun i => is_serious i = true) incidents))%nat;
    destruct (5 <? length incidents)%nat;
    destruct (Js.gt _ 1800); simpl;
    (split; [rewrite <- Hs|split; [rewrite <- Hm|repeat constructor; discriminate]]);
    (split; [intros H; try reflexivity;
             apply list_elem_of_In in H; simpl in H;
             repeat destruct H as [H|H]; try discriminate H; try contradiction
            |intros H; try discriminate H;
             apply list_elem_of_In; simpl; tauto]).
Qed.

(** X19: the warnings of one analysis have different titles, so on a system
    that holds no alert [processWarnings] triggers each of them once and
    keeps them all; a second run with the same warnings then changes
    nothing. *)
Theorem fresh_analysis_is_triggered_once (now : Z)
    (statisticsAge : option Js.num) (trafficData : option trafficData)
    (incidents : option (list PredictiveWarningSystem.incident)) :
  NoDup (map title (analyzeTrafficData now statisticsAge trafficData incidents))
  /\ processWarnings now
       (analyzeTrafficData now statisticsAge trafficData incidents)
       Terms.fresh_system
     = {| alerts := analyzeTrafficData now statisticsAge trafficData incidents;
          triggered := analyzeTrafficData now statisticsAge trafficData incidents |}
  /\ processWarnings now
       (analyzeTrafficData now statisticsAge trafficData incidents)
       {| alerts := analyzeTrafficData now statisticsAge trafficData incidents;
          triggered := analyzeTrafficData now statisticsAge trafficData incidents |}
     = {| alerts := analyzeTrafficData now statisticsAge trafficData incidents;
          triggered := analyzeTrafficData now statisticsAge trafficData incidents |}.
Proof.
  set (found := analyzeTrafficData now statisticsAge trafficData incidents).
  set (after := {| alerts := found; triggered := found |}).
  destruct (whole_analysis now statisticsAge trafficData incidents) as [Ht Hn].
  fold found in Ht, Hn.
  assert (Hrecent : filter (fun alert => recent now alert = true) found = found).
  { apply WarningFacts.filter_all. intros w Hw.
    rewrite Forall_forall in Hn. apply recent_at_once, Hn, Hw. }
  split; [|split].
  - eapply sublist_NoDup; [|exact Ht].
    apply NoDup_ListNoDup; repeat constructor; simpl; intuition discriminate.
  - assert (E : Spec.unmatched found [] = found).
    { unfold Spec.unmatched. apply WarningFacts.filter_all. reflexivity. }
    rewrite processWarnings_run. unfold Terms.fresh_system, after.
    cbn [alerts triggered]. rewrite E. simpl. rewrite Hrecent. reflexivity.
  - rewrite processWarnings_run. unfold after. cbn [alerts triggered].
    rewrite all_matched, !app_nil_r, Hrecent. reflexivity.
Qed.

(** X20: [processWarnings] keeps the alerts free of duplicates: when no two
    alerts and no two of the incoming warnings share title and location,
    no two alerts do after the run. *)
Theorem processWarnings_keeps_alerts_distinct (now : Z)
    (warnings : list warning) (ws : t) :
  NoDup (map Terms.alert_key (alerts ws)) ->
  NoDup (map Terms.alert_key warnings) ->
  NoDup (map Terms.alert_key (alerts (processWarnings now warnings ws))).
Proof.
  intros Hold Hnew.
  rewrite WarningFacts.processWarnings_alerts.
  eapply sublist_NoDup;
    [|apply (sublist_map Terms.alert_key); apply sublist_filter].
  rewrite map_app. apply NoDup_app. split; [exact Hold|]. split.
  - intros k Hk1 Hk2.
    apply list_elem_of_fmap in Hk1 as (a & -> & Ha).
    apply list_elem_of_fmap in Hk2 as (w & Hkey & Hw).
    unfold Spec.unmatched in Hw. apply list_elem_of_filter in Hw as [Hn _].
    apply WarningFacts.existsb_false_elem with (a := a) in Hn; [|exact Ha].
    unfold same_alert in Hn. unfold Terms.alert_key in Hkey.
    inversion Hkey as [[Ht Hl]]. rewrite Ht, Hl, !String.eqb_refl in Hn.
    discriminate.
  - eapply sublist_NoDup; [exact Hnew|].
    apply (sublist_map Terms.alert_key). apply sublist_filter.
Qed.

(** What one run does with a single warning: it is triggered, and joins
    the alerts, when no alert matches it. *)
Lemma unmatched_single (w : warning) (current : list warning) :
  Spec.unmatched [w] current
  = if existsb (fun existing => same_alert existing w) current then [] else [w].
Proof.
  unfold Spec.unmatched. rewrite filter_cons, filter_nil.
  destruct (existsb _ current); destruct (decide _); congruence.
Qed.

(** X21: the alerts are matched before the old ones are removed.  So a
    warning whose only matching alerts are due for removal is silenced for
    one more run: that run triggers nothing and leaves no alert that matches
    it, and the run after it, whenever it comes, triggers the warning, and
    keeps it as an alert when it is less than 30 minutes old by then. *)
Theorem expired_alert_silences_one_run (now later : Z) (w : warning) (ws : t) :
  (exists a, a ∈ alerts ws /\ same_alert a w = true) ->
  (forall a, a ∈ alerts ws -> same_alert a w = true -> recent now a = false) ->
  triggered (processWarnings now [w] ws) = triggered ws
  /\ (forall a, a ∈ alerts (processWarnings now [w] ws) -> same_alert a w = false)
  /\ triggered (processWarnings later [w] (processWarnings now [w] ws))
     = triggered ws ++ [w]
  /\ (recent later w = true ->
      w ∈ alerts (processWarnings later [w] (processWarnings now [w] ws))).
Proof.
  intros (a & Ha & Hsame) Hold.
  assert (Hmatch : existsb (fun existing => same_alert existing w) (alerts ws) = true).
  { destruct (existsb _ (alerts ws)) eqn:E; [reflexivity|].
    rewrite WarningFacts.existsb_false_elem in E.
    rewrite (E a Ha) in Hsame. discriminate Hsame. }
  assert (Hfirst : processWarnings now [w] ws
                   = {| alerts := filter (fun alert => recent now alert = true)
                                         (alerts ws);
                        triggered := triggered ws |}).
  { rewrite processWarnings_run, unmatched_single, Hmatch, !app_nil_r.
    reflexivity. }
  assert (Hnone : forall b,
            b ∈ filter (fun alert => recent now alert = true) (alerts ws) ->
            same_alert b w = false).
  { intros b Hb. apply list_elem_of_filter in Hb as [Hrecent Hb].
    destruct (same_alert b w) eqn:E; [|reflexivity].
    rewrite (Hold b Hb E) in Hrecent. discriminate Hrecent. }
  rewrite Hfirst. cbn [alerts triggered].
  split; [reflexivity|]. split; [exact Hnone|].
  rewrite processWarnings_run, unmatched_single. cbn [alerts triggered].
  rewrite (proj2 (WarningFacts.existsb_false_elem w _) Hnone).
  split; [reflexivity|].
  intros Hrecent. apply list_elem_of_filter. split; [exact Hrecent|].
  apply elem_of_app. right. apply list_elem_of_singleton. reflexivity.
Qed.

End AnalysisFacts.

(** X21 at work: the alert raised 31 minutes ago silences the fresh
    warning once, and a minute later the warning is triggered. *)
Lemma expired_alert_silences_one_run_witness :
  WarningSystem.triggered
    (WarningSystem.processWarnings Scenario.clock [Scenario.fresh_warning]
       Scenario.stale_system)
  = []
  /\ WarningSystem.triggered
       (WarningSystem.processWarnings (Scenario.clock + 60000)
          [Scenario.fresh_warning]
          (WarningSystem.processWarnings Scenario.clock [Scenario.fresh_warning]
             Scenario.stale_system))
     = [Scenario.fresh_warning].
Proof.
  destruct (expired_alert_silences_one_run Scenario.clock
              (Scenario.clock + 60000) Scenario.fresh_warning
              Scenario.stale_system) as (H1 & _ & H3 & _).
  - exists Scenario.stale_alert. split; [|reflexivity].
    apply list_elem_of_singleton. reflexivity.
  - intros a Ha _. apply list_elem_of_singleton in Ha. subst a.
    vm_compute. reflexivity.
  - split; [exact H1|exact H3].
Defined.

Lemma processWarnings_keeps_alerts_distinct_witness :
  NoDup (map Terms.alert_key
           (WarningSystem.alerts
              (WarningSystem.processWarnings Scenario.clock
                 [Scenario.stale_alert; Scenario.gridlock_warning]
                 Scenario.alert_system))).
Proof.
  apply (processWarnings_keeps_alerts_distinct Scenario.clock
           [Scenario.stale_alert; Scenario.gridlock_warning]
           Scenario.alert_system).
  - apply NoDup_ListNoDup; repeat constructor; simpl; intuition discriminate.
  - apply NoDup_ListNoDup; repeat constructor; simpl; intuition discriminate.
Defined.

(** ** The panel of the warning system *)
Section PanelFacts.
Import WarningSystem WarningAnalysis.

Lemma insert_by_priority_perm (a : warning) (l : list warning) :
  insert_by_priority a l ≡ₚ a :: l.
Proof.
  induction l as [|b l IH]; simpl; [reflexivity|].
  destruct (priority (level a) <=? priority (level b))%nat; [reflexivity|].
  rewrite IH. apply Permutation_swap.
Qed.

Lemma sort_by_priority_perm (l : list warning) : sort_by_priority l ≡ₚ l.
Proof.
  induction l as [|a l IH]; simpl; [reflexivity|].
  unfold sort_by_priority in *. simpl.
  rewrite insert_by_priority_perm, IH. reflexivity.
Qed.

Lemma insert_by_priority_sorted (a : warning) (l : list warning) :
  StronglySorted Terms.more_urgent l ->
  StronglySorted Terms.more_urgent (insert_by_priority a l).
Proof.
  induction 1 as [|b l Hl IH Hb]; simpl; [repeat constructor|].
  destruct (Nat.leb_spec (priority (level a)) (priority (level b))) as [Hab|Hab].
  - constructor; [constructor; assumption|].
    constructor; [exact Hab|].
    eapply Forall_impl; [exact Hb|]. intros c Hc.
    unfold Terms.more_urgent in *. lia.
  - constructor; [exact IH|].
    rewrite insert_by_priority_perm. constructor; [|exact Hb].
    unfold Terms.more_urgent. lia.
Qed.

Lemma sort_by_priority_sorted (l : list warning) :
  StronglySorted Terms.more_urgent (sort_by_priority l).
Proof.
  induction l as [|a l IH]; [constructor|].
  unfold sort_by_priority in *. simpl. apply insert_by_priority_sorted, IH.
Qed.

(** X22: the panel shows the ten most urgent alerts, the most urgent first:
    it shows all alerts when they are ten or fewer and ten otherwise, only
    alerts of the system, in the order of their priority, and an alert it
    leaves out is no more urgent than any alert it shows. *)
Theorem panel_shows_the_most_urgent (ws : t) :
  length (updateWarningDisplay ws) = Nat.min 10 (length (alerts ws))
  /\ StronglySorted Terms.more_urgent (updateWarningDisplay ws)
  /\ (forall s, s ∈ updateWarningDisplay ws -> s ∈ alerts ws)
  /\ (forall a s, a ∈ alerts ws -> a ∉ updateWarningDisplay ws ->
                  s ∈ updateWarningDisplay ws -> Terms.more_urgent s a).
Proof.
  unfold updateWarningDisplay.
  pose proof (sort_by_priority_perm (alerts ws)) as Hp.
  pose proof (sort_by_priority_sorted (alerts ws)) as Hs.
  split; [|split; [|split]].
  - rewrite length_take, (Permutation_length Hp). reflexivity.
  - apply IncidentFacts.StronglySorted_take. exact Hs.
  - intros s Hin. rewrite <- Hp. eapply subseteq_take. exact Hin.
  - intros a s Ha Hout Hin.
    rewrite <- Hp in Ha.
    rewrite <- (take_drop 10 (sort_by_priority (alerts ws))) in Ha, Hs.
    apply elem_of_app in Ha as [Ha|Ha]; [contradiction|].
    apply StronglySorted_app in Hs as (Hall & _ & _).
    exact (Hall s a Hin Ha).
Qed.

End PanelFacts.

(** ** The models and the forecasts of the predictive system *)
Section ForecastFacts.
Import PredictiveWarningSystem.

Lemma counted {A} (f : A -> string) (l : list A) (a b c d : nat) :
  fold_left (fun counts x => increment (f x) counts) l
    [("low"%string, a); ("medium"%string, b); ("high"%string, c);
     ("severe"%string, d)]
  = [("low"%string, (a + length (filter (fun x => f x = "low"%string) l))%nat);
     ("medium"%string, (b + length (filter (fun x => f x = "medium"%string) l))%nat);
     ("high"%string, (c + length (filter (fun x => f x = "high"%string) l))%nat);
     ("severe"%string, (d + length (filter (fun x => f x = "severe"%string) l))%nat)].
Proof.
  revert a b c d. induction l as [|x l IH]; intros a b c d.
  - simpl. rewrite !Nat.add_0_r. reflexivity.
  - cbn [fold_left increment map]. rewrite !filter_cons.
    destruct (String.eqb_spec "low" (f x)) as [E1|N1];
      destruct (String.eqb_spec "medium" (f x)) as [E2|N2];
      destruct (String.eqb_spec "high" (f x)) as [E3|N3];
      destruct (String.eqb_spec "severe" (f x)) as [E4|N4];
      try congruence;
      rewrite IH; repeat case_decide; try congruence;
      cbn [length]; repeat (f_equal; try lia).
Qed.

(** The level that [CongestionModel.predict] names is one of the four, and
    no level is more frequent among the similar data points. *)
Lemma most_frequent (currentConditions : conditions) (targetHour : Z)
    (historicalData : list dataPoint) :
  fst (CongestionModel.predict currentConditions targetHour historicalData)
    ∈ Terms.congestion_labels
  /\ forall l, l ∈ Terms.congestion_labels ->
       (Terms.level_count l (similar currentConditions targetHour historicalData)
        <= Terms.level_count
             (fst (CongestionModel.predict currentConditions targetHour
                     historicalData))
             (similar currentConditions targetHour historicalData))%nat.
Proof.
  unfold CongestionModel.predict, Terms.congestion_labels.
  set (sim := similar currentConditions targetHour historicalData).
  destruct (Nat.eqb_spec (length sim) 0) as [E|N].
  - cbn [fst]. split; [apply list_elem_of_In; simpl; tauto|].
    intros l _. unfold Terms.level_count.
    destruct sim; [simpl; lia|discriminate].
  - unfold levelCounts0. rewrite counted. cbn [map snd foldr List.find].
    unfold Terms.level_count.
    set (a := length (filter (fun d => congestionLevel d = "low"%string) sim)).
    set (b := length (filter (fun d => congestionLevel d = "medium"%string) sim)).
    set (c := length (filter (fun d => congestionLevel d = "high"%string) sim)).
    set (d := length (filter (fun d => congestionLevel d = "severe"%string) sim)).
    assert (Hall : forall l, l ∈ ["low"; "medium"; "high"; "severe"]%string ->
              forall k, (a <= k -> b <= k -> c <= k -> d <= k ->
              length (filter (fun d => congestionLevel d = l) sim) <= k)%nat).
    { intros l Hl k. apply list_elem_of_In in Hl. simpl in Hl.
      destruct Hl as [<-|[<-|[<-|[<-|[]]]]]; subst a b c d; lia. }
    cbn [Nat.add].
    destruct (Nat.eqb_spec a (Nat.max a (Nat.max b (Nat.max c (Nat.max d 0)))));
      [|destruct (Nat.eqb_spec b (Nat.max a (Nat.max b (Nat.max c (Nat.max d 0)))));
        [|destruct (Nat.eqb_spec c (Nat.max a (Nat.max b (Nat.max c (Nat.max d 0)))));
          [|destruct (Nat.eqb_spec d (Nat.max a (Nat.max b (Nat.max c (Nat.max d 0)))));
            [|lia]]]];
      cbn [fst]; (split; [apply list_elem_of_In; simpl; tauto|]);
      intros l Hl; apply (Hall l Hl); fold a b c d; lia.
Qed.

(** X23: when the history has similar data points, [CongestionModel.predict]
    names one of the four congestion levels, never [undefined], and no
    level is more frequent among the similar data points than the one it
    names. *)
Theorem congestion_model_names_the_most_frequent (currentConditions : conditions)
    (targetHour : Z) (historicalData : list dataPoint) (l : string) :
  similar currentConditions targetHour historicalData <> [] ->
  l ∈ Terms.congestion_labels ->
  fst (CongestionModel.predict currentConditions targetHour historicalData)
    ∈ Terms.congestion_labels
  /\ (Terms.level_count l (similar currentConditions targetHour historicalData)
      <= Terms.level_count
           (fst (CongestionModel.predict currentConditions targetHour
                   historicalData))
           (similar currentConditions targetHour historicalData))%nat
  /\ snd (CongestionModel.predict currentConditions targetHour historicalData)
     = Js.min 0.9
         (Js.of_nat (length (similar currentConditions targetHour historicalData))
          / 20)%float.
Proof.
  intros Hne Hl.
  destruct (most_frequent currentConditions targetHour historicalData) as [H1 H2].
  split; [exact H1|]. split; [exact (H2 l Hl)|].
  unfold CongestionModel.predict.
  destruct (similar currentConditions targetHour historicalData);
    [congruence|reflexivity].
Qed.

Context (getHours getDay : Z -> Z).

Lemma warnings_leave_the_forecast (now : Z) (l : list prediction) (w : window) :
  predictive
    (fold_left
       (fun w p =>
          let warning := predictive_warning now p in
          match warningSystem w with
          | Some ws =>
              {| predictive := predictive w;
                 warningSystem :=
                   Some (WarningSystem.processWarnings now [warning] ws) |}
          | None => w
          end) l w)
  = predictive w.
Proof.
  revert w. induction l as [|p l IH]; intros w; simpl; [reflexivity|].
  rewrite IH. destruct (warningSystem w); reflexivity.
Qed.

(** X24: with ten or more data points [updatePredictions] stores four
    predictions, for 15, 30, 45 and 60 minutes after the call, each with a
    congestion level of the four, and leaves the history as it was. *)
Theorem updatePredictions_forecasts_the_hour (now : Z) (w : window) :
  (10 <= length (historicalData (predictive w)))%nat ->
  map (fun p => (minutesAhead p, p_timestamp p))
      (predictions (predictive (updatePredictions getHours getDay now w)))
  = [(15, now + 900000); (30, now + 1800000); (45, now + 2700000);
     (60, now + 3600000)]
  /\ Forall (fun p => p_congestionLevel p ∈ Terms.congestion_labels)
            (predictions (predictive (updatePredictions getHours getDay now w)))
  /\ historicalData (predictive (updatePredictions getHours getDay now w))
     = historicalData (predictive w).
Proof.
  intros Hten. unfold updatePredictions.
  destruct (Nat.ltb_spec (length (historicalData (predictive w))) 10) as [Hlt|_];
    [lia|].
  unfold getCurrentConditions.
  destruct (last (historicalData (predictive w))) as [latest|] eqn:Hlast.
  - unfold processPredictiveWarnings. rewrite warnings_leave_the_forecast.
    cbn [predictive predictions historicalData].
    unfold generatePredictions. cbn [map minutesAhead p_timestamp p_congestionLevel].
    split; [repeat f_equal; lia|]. split; [|reflexivity].
    repeat (apply Forall_cons_2; [apply most_frequent|]). apply Forall_nil_2.
  - apply last_None in Hlast. rewrite Hlast in Hten. simpl in Hten. lia.
Qed.

End ForecastFacts.

Lemma congestion_model_names_the_most_frequent_witness :
  fst (PredictiveWarningSystem.CongestionModel.predict Cases.tuesday_night 22
         Cases.tuesday_history)
    ∈ Terms.congestion_labels
  /\ (Terms.level_count "severe"
        (PredictiveWarningSystem.similar Cases.tuesday_night 22
           Cases.tuesday_history)
      <= Terms.level_count
           (fst (PredictiveWarningSystem.CongestionModel.predict
                   Cases.tuesday_night 22 Cases.tuesday_history))
           (PredictiveWarningSystem.similar Cases.tuesday_night 22
              Cases.tuesday_history))%nat
  /\ snd (PredictiveWarningSystem.CongestionModel.predict Cases.tuesday_night 22
            Cases.tuesday_history)
     = Js.min 0.9
         (Js.of_nat (length (PredictiveWarningSystem.similar
                               Cases.tuesday_night 22 Cases.tuesday_history))
          / 20)%float.
Proof.
  apply (congestion_model_names_the_most_frequent Cases.tuesday_night 22
           Cases.tuesday_history "severe").
  - vm_compute. discriminate.
  - apply list_elem_of_In. simpl. tauto.
Defined.

Lemma updatePredictions_forecasts_the_hour_witness :
  map (fun p => (PredictiveWarningSystem.minutesAhead p,
                 PredictiveWarningSystem.p_timestamp p))
      (PredictiveWarningSystem.predictions
         (PredictiveWarningSystem.predictive
            (PredictiveWarningSystem.updatePredictions Scenario.utc_hours
               Scenario.utc_day Scenario.clock Scenario.seasoned_page)))
  = [(15, Scenario.clock + 900000); (30, Scenario.clock + 1800000);
     (45, Scenario.clock + 2700000); (60, Scenario.clock + 3600000)]
  /\ Forall (fun p => PredictiveWarningSystem.p_congestionLevel p
                      ∈ Terms.congestion_labels)
            (PredictiveWarningSystem.predictions
               (PredictiveWarningSystem.predictive
                  (PredictiveWarningSystem.updatePredictions Scenario.utc_hours
                     Scenario.utc_day Scenario.clock Scenario.seasoned_page)))
  /\ PredictiveWarningSystem.historicalData
       (PredictiveWarningSystem.predictive
          (PredictiveWarningSystem.updatePredictions Scenario.utc_hours
             Scenario.utc_day Scenario.clock Scenario.seasoned_page))
     = PredictiveWarningSystem.historicalData
         (PredictiveWarningSystem.predictive Scenario.seasoned_page).
Proof.
  apply (updatePredictions_forecasts_the_hour Scenario.utc_hours
           Scenario.utc_day Scenario.clock Scenario.seasoned_page).
  simpl. lia.
Defined.

(** ** The warnings of the predictive system *)
Section PredictiveAlertFacts.
Import WarningSystem.

Context (getHours getDay : Z -> Z).

Local Abbreviation forecast := PredictiveWarningSystem.predictive_warning.
Local Abbreviation pass :=
  (fun now ws p => processWarnings now [forecast now p] ws).

Lemma forecast_matched (now : Z) (p : PredictiveWarningSystem.prediction)
    (ws : t) :
  existsb (fun existing => same_alert existing (forecast now p)) (alerts ws) = true ->
  processWarnings now [forecast now p] ws
  = {| alerts := filter (fun alert => recent now alert = true) (alerts ws);
       triggered := triggered ws |}.
Proof.
  intros H. rewrite processWarnings_run. unfold Spec.unmatched.
  rewrite filter_cons, filter_nil. rewrite H.
  rewrite decide_False by discriminate. rewrite !app_nil_r. reflexivity.
Qed.

Lemma forecast_unmatched (now : Z) (p : PredictiveWarningSystem.prediction)
    (ws : t) :
  existsb (fun existing => same_alert existing (forecast now p)) (alerts ws) = false ->
  processWarnings now [forecast now p] ws
  = {| alerts := filter (fun alert => recent now alert = true) (alerts ws)
                 ++ [forecast now p];
       triggered := triggered ws ++ [forecast now p] |}.
Proof.
  intros H. rewrite processWarnings_run. unfold Spec.unmatched.
  rewrite filter_cons, filter_nil. rewrite H.
  rewrite decide_True by reflexivity. rewrite filter_app.
  rewrite (filter_cons _ (forecast now p)), filter_nil.
  rewrite decide_True by (apply recent_at_once; reflexivity).
  reflexivity.
Qed.

Lemma held_is_matched (now : Z) (p : PredictiveWarningSystem.prediction)
    (l : list warning) :
  existsb (Terms.forecast_held now) l = true ->
  existsb (fun existing => same_alert existing (forecast now p)) l = true.
Proof.
  rewrite !existsb_exists. intros (a & Ha & Hh). exists a. split; [exact Ha|].
  unfold Terms.forecast_held in Hh. apply andb_true_iff in Hh as [Hh _].
  exact Hh.
Qed.

Lemma held_is_kept (now : Z) (l : list warning) :
  existsb (Terms.forecast_held now) l = true ->
  existsb (Terms.forecast_held now)
          (filter (fun alert => recent now alert = true) l) = true.
Proof.
  rewrite !existsb_exists. intros (a & Ha & Hh). exists a. split; [|exact Hh].
  apply list_elem_of_In, list_elem_of_filter. split.
  - unfold Terms.forecast_held in Hh. apply andb_true_iff in Hh as [_ Hh].
    exact Hh.
  - apply list_elem_of_In. exact Ha.
Qed.

Lemma held_silences (now : Z) (l : list PredictiveWarningSystem.prediction)
    (ws : t) :
  existsb (Terms.forecast_held now) (alerts ws) = true ->
  triggered (fold_left (pass now) l ws) = triggered ws.
Proof.
  revert ws. induction l as [|p l IH]; intros ws Hh; [reflexivity|].
  cbn [fold_left].
  rewrite (forecast_matched now p ws) by (apply held_is_matched; exact Hh).
  rewrite IH; [reflexivity|]. apply held_is_kept. exact Hh.
Qed.

Lemma one_forecast_at_most (now : Z)
    (l : list PredictiveWarningSystem.prediction) (ws : t) :
  triggered (fold_left (pass now) l ws) = triggered ws
  \/ exists p, p ∈ l
       /\ triggered (fold_left (pass now) l ws) = triggered ws ++ [forecast now p].
Proof.
  revert ws. induction l as [|p l IH]; intros ws; [left; reflexivity|].
  cbn [fold_left].
  destruct (existsb (fun existing => same_alert existing (forecast now p))
                    (alerts ws)) eqn:Hm.
  - rewrite (forecast_matched now p ws Hm).
    destruct (IH {| alerts := filter (fun alert => recent now alert = true)
                                     (alerts ws);
                    triggered := triggered ws |}) as [H|(q & Hq & H)].
    + left. exact H.
    + right. exists q. split; [right; exact Hq|exact H].
  - rewrite (forecast_unmatched now p ws Hm). right. exists p.
    split; [left|].
    apply held_silences. cbn [alerts]. rewrite existsb_app.
    apply orb_true_iff. right. cbn [existsb]. rewrite orb_false_r.
    unfold Terms.forecast_held.
    rewrite (recent_at_once now (forecast now p) eq_refl). reflexivity.
Qed.

Lemma warnings_reach_the_system (now : Z)
    (l : list PredictiveWarningSystem.prediction)
    (w : PredictiveWarningSystem.window) (ws : t) :
  PredictiveWarningSystem.warningSystem w = Some ws ->
  PredictiveWarningSystem.warningSystem
    (fold_left
       (fun w p =>
          let warning := forecast now p in
          match PredictiveWarningSystem.warningSystem w with
          | Some ws =>
              {| PredictiveWarningSystem.predictive :=
                   PredictiveWarningSystem.predictive w;
                 PredictiveWarningSystem.warningSystem :=
                   Some (processWarnings now [warning] ws) |}
          | None => w
          end) l w)
  = Some (fold_left (pass now) l ws).
Proof.
  revert w ws. induction l as [|p l IH]; intros w ws Hw; [exact Hw|].
  cbn [fold_left]. rewrite Hw. apply IH. reflexivity.
Qed.

(** X25: one run of [updatePredictions] triggers at most one warning,
    however many of its predictions are of high risk: the predictive
    warnings share their title and location, so the first that is added
    holds back the others.  The warning is of level HIGH or MEDIUM, never
    CRITICAL. *)
Theorem updatePredictions_triggers_at_most_one (now : Z)
    (w : PredictiveWarningSystem.window) (ws : t) :
  PredictiveWarningSystem.warningSystem w = Some ws ->
  exists ws',
    PredictiveWarningSystem.warningSystem
      (PredictiveWarningSystem.updatePredictions getHours getDay now w)
    = Some ws'
    /\ (triggered ws' = triggered ws
        \/ exists a, triggered ws' = triggered ws ++ [a]
             /\ title a = "Predictive Traffic Alert"%string
             /\ (level a = HIGH \/ level a = MEDIUM)
             /\ timestamp a = now).
Proof.
  intros Hw. unfold PredictiveWarningSystem.updatePredictions.
  destruct (length _ <? 10)%nat; [exists ws; auto|].
  destruct (PredictiveWarningSystem.getCurrentConditions getHours getDay now _)
    as [c|]; [|exists ws; auto].
  unfold PredictiveWarningSystem.processPredictiveWarnings.
  eexists. split.
  - apply warnings_reach_the_system. exact Hw.
  - destruct (one_forecast_at_most now
                (filter (fun p =>
                           String.eqb (PredictiveWarningSystem.riskLevel p) "CRITICAL"
                           || String.eqb (PredictiveWarningSystem.riskLevel p) "HIGH"
                           = true)
                        (PredictiveWarningSystem.generatePredictions getHours now c
                           (PredictiveWarningSystem.predictive w))) ws)
      as [H|(p & _ & H)].
    + left. exact H.
    + right. exists (forecast now p). split; [exact H|].
      split; [reflexivity|]. split; [|reflexivity].
      cbn [PredictiveWarningSystem.predictive_warning level].
      destruct (String.eqb _ "CRITICAL"); auto.
Qed.

(** X26: the data point that [storeHistoricalData] adds is the one that
    [getCurrentConditions] reads next, when its time stamp is within the
    week that is kept: the current conditions then exist and carry its
    time stamp, the number of incidents, and the average speed and the
    congestion level computed from the segments. *)
Theorem stored_point_is_current (stamp now later : Z) (d : trafficData)
    (incidents : list PredictiveWarningSystem.incident)
    (s : PredictiveWarningSystem.t) :
  now - 7 * 24 * 60 * 60 * 1000 < stamp ->
  exists c,
    PredictiveWarningSystem.getCurrentConditions getHours getDay later
      (PredictiveWarningSystem.storeHistoricalData getHours getDay stamp now d
         incidents s)
    = Some c
    /\ PredictiveWarningSystem.c_timestamp c = stamp
    /\ PredictiveWarningSystem.c_incidentCount c = length incidents
    /\ PredictiveWarningSystem.c_averageSpeed c
       = fst (PredictiveWarningSystem.calculateAverageSpeed (segments_of d))
    /\ PredictiveWarningSystem.c_congestionLevel c
       = fst (PredictiveWarningSystem.calculateOverallCongestion (segments_of d))
    /\ PredictiveWarningSystem.c_hour c = getHours later
    /\ PredictiveWarningSystem.c_dayOfWeek c = getDay later.
Proof.
  intros Hweek.
  unfold PredictiveWarningSystem.getCurrentConditions,
    PredictiveWarningSystem.storeHistoricalData.
  cbn [PredictiveWarningSystem.historicalData].
  rewrite filter_app, (filter_cons _ _ []), filter_nil.
  rewrite decide_True by exact Hweek.
  rewrite last_snoc. eexists. split; [reflexivity|].
  cbn. repeat split; reflexivity.
Qed.

End PredictiveAlertFacts.

Lemma updatePredictions_triggers_at_most_one_witness :
  exists ws',
    PredictiveWarningSystem.warningSystem
      (PredictiveWarningSystem.updatePredictions Scenario.utc_hours
         Scenario.utc_day Scenario.clock Scenario.seasoned_page)
    = Some ws'
    /\ (WarningSystem.triggered ws'
        = WarningSystem.triggered Scenario.quiet_system
        \/ exists a,
             WarningSystem.triggered ws'
             = WarningSystem.triggered Scenario.quiet_system ++ [a]
             /\ WarningSystem.title a = "Predictive Traffic Alert"%string
             /\ (WarningSystem.level a = WarningSystem.HIGH
                 \/ WarningSystem.level a = WarningSystem.MEDIUM)
             /\ WarningSystem.timestamp a = Scenario.clock).
Proof.
  apply (updatePredictions_triggers_at_most_one Scenario.utc_hours
           Scenario.utc_day Scenario.clock Scenario.seasoned_page
           Scenario.quiet_system).
  reflexivity.
Defined.

Lemma stored_point_is_current_witness :
  exists c,
    PredictiveWarningSystem.getCurrentConditions Scenario.utc_hours
      Scenario.utc_day (Scenario.clock + 1000)
      (PredictiveWarningSystem.storeHistoricalData Scenario.utc_hours
         Scenario.utc_day Scenario.clock (Scenario.clock + 5) Scenario.uhuru_data []
         (PredictiveWarningSystem.predictive Scenario.young_page))
    = Some c
    /\ PredictiveWarningSystem.c_timestamp c = Scenario.clock
    /\ PredictiveWarningSystem.c_incidentCount c = 0%nat
    /\ PredictiveWarningSystem.c_averageSpeed c
       = fst (PredictiveWarningSystem.calculateAverageSpeed
                (segments_of Scenario.uhuru_data))
    /\ PredictiveWarningSystem.c_congestionLevel c
       = fst (PredictiveWarningSystem.calculateOverallCongestion
                (segments_of Scenario.uhuru_data))
    /\ PredictiveWarningSystem.c_hour c = Scenario.utc_hours (Scenario.clock + 1000)
    /\ PredictiveWarningSystem.c_dayOfWeek c
       = Scenario.utc_day (Scenario.clock + 1000).
Proof.
  apply (stored_point_is_current Scenario.utc_hours Scenario.utc_day
           Scenario.clock (Scenario.clock + 5) (Scenario.clock + 1000)
           Scenario.uhuru_data []
           (PredictiveWarningSystem.predictive Scenario.young_page)).
  vm_compute. reflexivity.
Defined.

(** ** The traffic manager and the predictive system *)
Section ManagerFacts.

Local Abbreviation outside_labels :=
  (Forall (fun kv : string * option nat =>
             fst kv <> "low"%string /\ fst kv <> "medium"%string
             /\ fst kv <> "high"%string /\ fst kv <> "severe"%string)).

Lemma bump_others (level : string) (extra : list (string * option nat)) :
  outside_labels extra ->
  outside_labels
    (map (fun '(k, n) => if String.eqb k level then (k, option_map S n) else (k, n))
         extra).
Proof.
  induction 1 as [|[k n] extra Hk Hextra IH]; simpl; constructor; [|exact IH].
  destruct (String.eqb k level); exact Hk.
Qed.

Lemma bump_misses (level : string) (extra : list (string * option nat)) :
  outside_labels extra ->
  level = "low"%string \/ level = "medium"%string \/ level = "high"%string
  \/ level = "severe"%string ->
  map (fun '(k, n) => if String.eqb k level then (k, option_map S n) else (k, n))
      extra = extra
  /\ existsb (fun '(k, _) => String.eqb k level) extra = false.
Proof.
  intros Hextra Hl.
  induction Hextra as [|[k n] extra Hk Hextra IH]; simpl; [auto|].
  destruct IH as [IH1 IH2]. rewrite IH1, IH2.
  destruct (String.eqb_spec k level) as [E|N]; [|auto].
  simpl in Hk. subst k. intuition congruence.
Qed.

(** The counters of the traffic manager after the segments: the four
    levels counted, and counters of other names that are never read. *)
Lemma tallied (segments : list segment) (a b c d : nat)
    (extra : list (string * option nat)) :
  outside_labels extra ->
  exists extra',
    outside_labels extra'
    /\ fold_left (fun counts level => TrafficManager.bump level counts)
         (map trafficLevel segments)
         ([("low"%string, Some a); ("medium"%string, Some b);
           ("high"%string, Some c); ("severe"%string, Some d)] ++ extra)
       = [("low"%string,
           Some (a + length (filter (fun s => trafficLevel s = "low"%string)
                                    segments))%nat);
          ("medium"%string,
           Some (b + length (filter (fun s => trafficLevel s = "medium"%string)
                                    segments))%nat);
          ("high"%string,
           Some (c + length (filter (fun s => trafficLevel s = "high"%string)
                                    segments))%nat);
          ("severe"%string,
           Some (d + length (filter (fun s => trafficLevel s = "severe"%string)
                                    segments))%nat)] ++ extra'.
Proof.
  revert a b c d extra.
  induction segments as [|s segments IH]; intros a b c d extra Hextra.
  - exists extra. simpl. rewrite !Nat.add_0_r. auto.
  - cbn [map fold_left]. rewrite !filter_cons.
    unfold TrafficManager.bump at 2.
    cbn [existsb app map].
    destruct (String.eqb_spec "low" (trafficLevel s)) as [E1|N1];
      [|destruct (String.eqb_spec "medium" (trafficLevel s)) as [E2|N2];
        [|destruct (String.eqb_spec "high" (trafficLevel s)) as [E3|N3];
          [|destruct (String.eqb_spec "severe" (trafficLevel s)) as [E4|N4]]]].
    + destruct (bump_misses (trafficLevel s) extra Hextra) as [Hm _]; [auto|].
      rewrite Hm. rewrite <- E1.
      cbn [orb String.eqb Ascii.eqb Bool.eqb andb option_map].
      destruct (IH (S a) b c d extra Hextra) as (extra' & H1 & H2).
      exists extra'. split; [exact H1|]. cbn [app] in H2 |- *. rewrite H2.
      repeat case_decide; try congruence; cbn [length];
        repeat (f_equal; try lia).
    + destruct (bump_misses (trafficLevel s) extra Hextra) as [Hm _]; [auto|].
      rewrite Hm. rewrite <- E2.
      cbn [orb String.eqb Ascii.eqb Bool.eqb andb option_map].
      destruct (IH a (S b) c d extra Hextra) as (extra' & H1 & H2).
      exists extra'. split; [exact H1|]. cbn [app] in H2 |- *. rewrite H2.
      repeat case_decide; try congruence; cbn [length];
        repeat (f_equal; try lia).
    + destruct (bump_misses (trafficLevel s) extra Hextra) as [Hm _]; [auto|].
      rewrite Hm. rewrite <- E3.
      cbn [orb String.eqb Ascii.eqb Bool.eqb andb option_map].
      destruct (IH a b (S c) d extra Hextra) as (extra' & H1 & H2).
      exists extra'. split; [exact H1|]. cbn [app] in H2 |- *. rewrite H2.
      repeat case_decide; try congruence; cbn [length];
        repeat (f_equal; try lia).
    + destruct (bump_misses (trafficLevel s) extra Hextra) as [Hm _]; [auto|].
      rewrite Hm. rewrite <- E4.
      cbn [orb String.eqb Ascii.eqb Bool.eqb andb option_map].
      destruct (IH a b c (S d) extra Hextra) as (extra' & H1 & H2).
      exists extra'. split; [exact H1|]. cbn [app] in H2 |- *. rewrite H2.
      repeat case_decide; try congruence; cbn [length];
        repeat (f_equal; try lia).
    + cbn [orb].
      rewrite !decide_False by congruence.
      destruct (existsb (fun '(k, _) => String.eqb k (trafficLevel s)) extra).
      * apply (IH a b c d
                 (map (fun '(k, n) =>
                         if String.eqb k (trafficLevel s)
                         then (k, option_map S n) else (k, n)) extra)).
        apply bump_others. exact Hextra.
      * apply (IH a b c d (extra ++ [(trafficLevel s, None)])).
        apply Forall_app. split; [exact Hextra|].
        constructor; [|constructor]. simpl. repeat split; congruence.
Qed.

(** X27: the traffic manager and the predictive system name the same
    overall congestion for every list of segments, though only the latter
    tests for the empty list and for levels it does not know; and on a list
    that is not empty the average speed of the statistics is the one the
    predictive system computes. *)
Theorem manager_and_predictive_agree (now timestamp : Z) (source : string)
    (message : option string) (segments : list segment)
    (s : TrafficManager.statistics) :
  TrafficManager.calculateOverallCongestion segments
  = fst (PredictiveWarningSystem.calculateOverallCongestion (Some segments))
  /\ (segments <> [] ->
      TrafficManager.averageSpeed
        (TrafficManager.updateStatistics now
           (Some (TrafficObject timestamp source message segments)) s)
      = fst (PredictiveWarningSystem.calculateAverageSpeed (Some segments))).
Proof.
  split.
  - destruct segments as [|s0 rest]; [vm_compute; reflexivity|].
    unfold TrafficManager.calculateOverallCongestion,
      PredictiveWarningSystem.calculateOverallCongestion,
      PredictiveWarningSystem.divide.
    set (segs := s0 :: rest).
    destruct (tallied segs 0 0 0 0 [] (Forall_nil_2 _)) as (extra & _ & Ht).
    unfold TrafficManager.tally0. rewrite app_nil_r in Ht. rewrite Ht.
    unfold PredictiveWarningSystem.levelCounts0.
    rewrite (counted trafficLevel segs).
    unfold TrafficManager.tally_number, PredictiveWarningSystem.count_of.
    cbn [List.find app String.eqb Ascii.eqb Bool.eqb andb].
    repeat match goal with
           | |- context [if Js.gt ?r ?c then _ else _] => destruct (Js.gt r c)
           end; reflexivity.
  - intros Hne. destruct segments as [|s0 rest]; [congruence|]. reflexivity.
Qed.

End ManagerFacts.

Lemma manager_and_predictive_agree_witness :
  TrafficManager.calculateOverallCongestion [Scenario.uhuru_segment]
  = fst (PredictiveWarningSystem.calculateOverallCongestion
           (Some [Scenario.uhuru_segment]))
  /\ ([Scenario.uhuru_segment] <> [] ->
      TrafficManager.averageSpeed
        (TrafficManager.updateStatistics Scenario.clock
           (Some (TrafficObject Scenario.clock "tomtom" None
                    [Scenario.uhuru_segment]))
           Cases.no_statistics)
      = fst (PredictiveWarningSystem.calculateAverageSpeed
               (Some [Scenario.uhuru_segment]))).
Proof.
  exact (manager_and_predictive_agree Scenario.clock Scenario.clock "tomtom"
           None [Scenario.uhuru_segment] Cases.no_statistics).
Defined.

(** ** The three models and the risk factors *)
Section ModelFacts.
Import PredictiveWarningSystem.

Lemma lt_le (x y : Js.num) : Js.lt x y = true -> Js.le x y = true.
Proof.
  unfold Js.lt, Js.le. rewrite ltb_spec, leb_spec. unfold SFltb, SFleb.
  destruct (SFcompare (Prim2SF x) (Prim2SF y)) as [[]|]; congruence.
Qed.

Lemma min_capped (y : Js.num) : Terms.capped (Js.min 0.9 y).
Proof.
  unfold Terms.capped, Js.min.
  change (is_nan 0.9) with false. cbn [orb].
  destruct (is_nan y); [right; reflexivity|].
  destruct (y <? 0.9)%float eqn:Hy; left; [apply lt_le; exact Hy|reflexivity].
Qed.

(** X28: the confidence of each of the three models and the incident
    probability never exceed 0.9: each is at most 0.9 or is not a number. *)
Theorem model_outputs_are_capped (currentConditions : conditions)
    (targetHour : Z) (historicalData : list dataPoint) :
  Terms.capped (snd (CongestionModel.predict currentConditions targetHour
                       historicalData))
  /\ Terms.capped (snd (SpeedModel.predict currentConditions targetHour
                          historicalData))
  /\ Terms.capped (snd (IncidentModel.predict currentConditions targetHour
                          historicalData))
  /\ Terms.capped (fst (IncidentModel.predict currentConditions targetHour
                          historicalData)).
Proof.
  unfold CongestionModel.predict, SpeedModel.predict, IncidentModel.predict,
    model_confidence.
  destruct (length (similar currentConditions targetHour historicalData) =? 0)%nat;
    cbn [fst snd].
  - repeat split; left; reflexivity.
  - repeat split; apply min_capped.
Qed.

Local Ltac pick_factors :=
  repeat first [apply sublist_nil | apply sublist_skip | apply sublist_cons].

(** X29: [identifyRiskFactors] lists each factor at most once and never
    both rush hours, so at most five factors; 'Low prediction confidence'
    is listed exactly when the confidence is below 0.6. *)
Theorem risk_factors_are_few (currentConditions : conditions)
    (confidence : Js.num) :
  NoDup (identifyRiskFactors currentConditions confidence)
  /\ (length (identifyRiskFactors currentConditions confidence) <= 5)%nat
  /\ ~ ("Morning rush hour"%string ∈ identifyRiskFactors currentConditions confidence
        /\ "Evening rush hour"%string ∈ identifyRiskFactors currentConditions confidence)
  /\ ("Low prediction confidence"%string
        ∈ identifyRiskFactors currentConditions confidence
      <-> Js.lt confidence 0.6 = true).
Proof.
  assert (Hsub : identifyRiskFactors currentConditions confidence
                 `sublist_of`
                 ["Morning rush hour"; "Evening rush hour";
                  "Deteriorating traffic conditions"; "Multiple active incidents";
                  "Low prediction confidence"; "High traffic day"]%string).
  { unfold identifyRiskFactors.
    repeat match goal with
           | |- context [if ?c then _ else _] => destruct c
           end; cbn [app]; pick_factors. }
  split.
  { eapply sublist_NoDup; [|exact Hsub].
    apply NoDup_ListNoDup; repeat constructor; simpl; intuition discriminate. }
  clear Hsub. unfold identifyRiskFactors.
  destruct (Z.leb_spec 7 (c_hour currentConditions));
    destruct (Z.leb_spec (c_hour currentConditions) 9);
    destruct (Z.leb_spec 17 (c_hour currentConditions));
    destruct (Z.leb_spec (c_hour currentConditions) 19);
    try lia; cbn [andb];
    destruct (String.eqb (recentTrend currentConditions) "deteriorating");
    destruct (2 <? c_incidentCount currentConditions)%nat;
    destruct (Js.lt confidence 0.6);
    destruct ((c_dayOfWeek currentConditions =? 1)
              || (c_dayOfWeek currentConditions =? 5));
    cbn [app length];
    (split; [lia|]);
    (split; [intros [Hmorning Hevening];
             apply list_elem_of_In in Hmorning, Hevening;
             simpl in Hmorning, Hevening; intuition discriminate|]);
    (split; [intros Hlisted; try reflexivity;
             apply list_elem_of_In in Hlisted; simpl in Hlisted;
             intuition discriminate
            |intros Hlow; try discriminate Hlow;
             apply list_elem_of_In; simpl; tauto]).
Qed.

End ModelFacts.
